(** * Timed assessment engine of the exam portal: coding round, MCQ round
    and the layout-level proctoring, embedded from the TypeScript sources

    - [src/pages/CodingRound.tsx]: [runLocal], [handleRun], [submit], the
      countdown effect, the anti-cheat effect, [loadQuestions];
    - [src/pages/MCQRound.tsx]: [handleViolation], [handleReject],
      [handleSubmit];
    - the layout component: the listeners of its proctoring effect, the
      violation counter and the lockout;
    - the scores table ([fetchData]) and the question form ([handleAdd]).

    React components are modelled as explicit state machines.  The values a
    render sees are a record (a _view_); a handler registered by [useEffect]
    keeps the view of the render in which the effect last ran, while
    functional updates ([setX(prev => ...)]) act on the live state.  After
    every event the component re-renders and every effect whose dependency
    array changed is torn down and run again.  A handler, its [await]s
    included, runs to completion before the next event is taken; what the
    outside world answers (interpreters, document writes, full-screen
    requests, the clock) is an input of the event. *)

From Stdlib Require Import ZArith Floats Uint63 Lia Bool Ascii String.
From stdpp Require Import gmap strings list.

Local Open Scope Z_scope.

(** ** JavaScript values the engine manipulates *)

Module Js.

(** A JavaScript string is a sequence of UTF-16 code units. *)
Definition jstr := list N.

(** Code units of an ASCII literal. *)
Fixpoint utf16 (s : string) : jstr :=
  match s with
  | EmptyString => []
  | String a r => N_of_ascii a :: utf16 r
  end.

(** WhiteSpace and LineTerminator code units, the set [String.prototype.trim]
    strips: TAB, LF, VT, FF, CR, SP, NBSP, U+1680, U+2000..U+200A, U+2028,
    U+2029, U+202F, U+205F, U+3000, U+FEFF. *)
Definition is_space (c : N) : bool :=
  ((9 <=? c) && (c <=? 13) || (c =? 32) || (c =? 160) || (c =? 5760)
   || (8192 <=? c) && (c <=? 8202) || (c =? 8232) || (c =? 8233)
   || (c =? 8239) || (c =? 8287) || (c =? 12288) || (c =? 65279))%N.

Fixpoint trimStart (s : jstr) : jstr :=
  match s with
  | [] => []
  | c :: r => if is_space c then trimStart r else s
  end.

Definition trimEnd (s : jstr) : jstr := rev (trimStart (rev s)).

(** [s.trim()] *)
Definition trim (s : jstr) : jstr := trimEnd (trimStart s).

(** [a === b] on strings. *)
Definition str_eqb (a b : jstr) : bool := bool_decide (a = b).

(** [s.split("\n")]: always at least one piece. *)
Fixpoint split_nl (s : jstr) : list jstr :=
  match s with
  | [] => [[]]
  | c :: r =>
      if (c =? 10)%N then [] :: split_nl r
      else match split_nl r with
           | [] => [[c]]
           | p :: ps => (c :: p) :: ps
           end
  end.

(** [parts.join("\n")] *)
Fixpoint join_nl (parts : list jstr) : jstr :=
  match parts with
  | [] => []
  | [p] => p
  | p :: ps => p ++ 10%N :: join_nl ps
  end.

(** [s || ""] and [s ?? ""] on a possibly missing string field. *)
Definition or_empty (s : option jstr) : jstr := default [] s.

(** Values a program can throw, as far as a [catch] block that reads
    [e?.message] and converts to a string can tell them apart.
    [VPrim truthy text] is a boolean, number, bigint or string primitive with
    its truthiness and its string conversion; [VObject message text] is an
    object with the value of its [message] property ([VUndefined] when it has
    none) and the result of converting it to a string ([None] when the
    conversion throws, as for [Object.create(null)]).  [new Error("boom")] is
    [VObject (VPrim true "boom") (Some "Error: boom")]. *)
Inductive JsVal :=
| VUndefined
| VNull
| VSymbol
| VPrim (truthy : bool) (text : jstr)
| VObject (message : JsVal) (text : option jstr).

(** ToBoolean *)
Definition truthy (v : JsVal) : bool :=
  match v with
  | VUndefined | VNull => false
  | VSymbol => true
  | VPrim b _ => b
  | VObject _ _ => true
  end.

(** [e?.message] *)
Definition opt_message (e : JsVal) : JsVal :=
  match e with
  | VObject m _ => m
  | _ => VUndefined
  end.

(** [a || b] *)
Definition or_else (a b : JsVal) : JsVal := if truthy a then a else b.

(** ToString as performed by a template literal: a Symbol and an object
    without a usable conversion raise a TypeError. *)
Definition toString (v : JsVal) : option jstr :=
  match v with
  | VUndefined => Some (utf16 "undefined")
  | VNull => Some (utf16 "null")
  | VSymbol => None
  | VPrim _ t => Some t
  | VObject _ t => t
  end.

(** The TypeError raised by a failed string conversion. *)
Definition conversion_TypeError : JsVal :=
  VObject (VPrim true (utf16 "Cannot convert value to a string"))
          (Some (utf16 "TypeError: Cannot convert value to a string")).

(** Outcome of a call that either returns or throws (for an [async]
    function: the promise fulfils or rejects). *)
Inductive completion (A : Type) :=
| Normal (a : A)
| Throw (e : JsVal).
Arguments Normal {A} a.
Arguments Throw {A} e.

(** The JavaScript number for an integer [0 <= n < 2^53], as an IEEE
    double. *)
Definition number (n : Z) : float := PrimFloat.of_uint63 (Uint63.of_Z n).

(** [Math.round] on a finite double: the nearest integer, ties towards
    +infinity, computed exactly from the binary expansion.  (On NaN and the
    infinities, which the guarded division of the engine never produces, the
    value here is 0.) *)
Definition Math_round (x : float) : Z :=
  match Prim2SF x with
  | S754_finite s m e =>
      let v := if s then Z.neg m else Z.pos m in
      if 0 <=? e then v * 2 ^ e
      else (2 * v + 2 ^ (- e)) / 2 ^ (- e + 1)
  | _ => 0
  end.

End Js.

Export Js.

(** ** The coding round: [src/pages/CodingRound.tsx] *)

Module Coding.

(** *** Data *)

(** [(typeof languages)[number]["id"]] *)
Inductive Lang := python | javascript.

Definition lang_id (l : Lang) : string :=
  match l with python => "python" | javascript => "javascript" end.

Global Instance Lang_eq_dec : EqDecision Lang.
Proof. solve_decision. Defined.

(** [RunResult["status"]] *)
Inductive Status :=
| Accepted | CompilationError | RuntimeError | Processing | Failed | OK.

Global Instance Status_eq_dec : EqDecision Status.
Proof. solve_decision. Defined.

(** [RunResult]; [timeSec] is a wall-clock measurement that no verdict
    reads and is left out. *)
Record RunResult := {
  stdout : jstr;
  stderr : jstr;
  status : Status;
}.

(** An element of [Question.testCases]; the documents come from the store
    untyped, so [input] and [expectedOutput] may be missing. *)
Record TestCase := {
  tc_id : option Z;
  input : option jstr;
  expectedOutput : option jstr;
}.

(** [Question], with the fields the engine reads.  [startAt] and [endAt]
    are the instants in epoch milliseconds. *)
Record Question := {
  id : string;
  type : string;
  assignedTo : option (list string);
  startAt : option Z;
  endAt : option Z;
  testCases : option (list TestCase);
  codeTemplate : option jstr;
}.

(** An element of [perTestResults] / [collected]. *)
Record Verdict := {
  v_id : option Z;
  v_input : option jstr;
  expected : jstr;
  output : jstr;
  passed : bool;
  v_stderr : option jstr;
}.

Inductive ResultText := Passed | FailedText.

(** The document written to [responses/{uid}/round2/{questionId}]. *)
Record Submission := {
  s_code : jstr;
  s_language : Lang;
  s_result : ResultText;
  s_percentage : Z;
  s_passed : Z;
  s_total : Z;
  s_problemId : string;
  s_submittedAt : Z;
  s_examViolations : Z;
  s_durationSec : Z;
}.

(** *** The interpreters behind [runLocal] *)

(** What [new Function(...)] followed by [fn(input, print, console)] does
    with a source text and the queue of stdin lines: it returns, having
    filled [outBuff] and [errBuff], or it throws (a SyntaxError from the
    constructor, or whatever the program throws). *)
Inductive JsOutcome :=
| JsReturned (outBuff errBuff : list jstr)
| JsThrew (e : JsVal).

(** What [py.runPythonAsync(wrapper)] does: the wrapper returns the captured
    [(out, err)], or the promise rejects with the Python error. *)
Inductive PyOutcome :=
| PyReturned (out err : jstr)
| PyRaised (e : JsVal).

(** The environment a handler runs in: the two interpreters
    ([pyodide = None] while [window.pyodide] is not loaded), whether the
    document write of this handler succeeds, and the wall clock. *)
Record Env := {
  jsEngine : jstr -> list jstr -> JsOutcome;
  pyodide : option (jstr -> jstr -> PyOutcome);
  write_ok : bool;
  now : Z;
}.

(** The [catch (e: any)] block of both runners:
    [stderr: `Runtime Error: ${e?.message || e}`].  The template literal
    converts its operand to a string, which itself throws for some values;
    that exception leaves [runLocal]. *)
Definition caught (e : JsVal) : completion RunResult :=
  match toString (or_else (opt_message e) e) with
  | Some t =>
      Normal {| stdout := []; stderr := utf16 "Runtime Error: " ++ t;
                status := RuntimeError |}
  | None => Throw conversion_TypeError
  end.

(** [runLocal(source, languageId, inStdin)] (lines 287-372).  [languageId]
    ranges over the two listed languages, so the final
    "Unsupported language." result is never reached. *)
Definition runLocal (env : Env) (source : jstr) (languageId : Lang)
    (inStdin : jstr) : completion RunResult :=
  match languageId with
  | javascript =>
      match jsEngine env source (split_nl inStdin) with
      | JsReturned outBuff errBuff =>
          Normal {| stdout := join_nl outBuff; stderr := join_nl errBuff;
                    status := OK |}
      | JsThrew e => caught e
      end
  | python =>
      match pyodide env with
      | None =>
          Normal {| stdout := []; stderr := utf16 "Python runtime not ready";
                    status := Failed |}
      | Some py =>
          match py source inStdin with
          | PyReturned out err =>
              Normal {| stdout := out; stderr := err;
                        status := match err with [] => OK | _ => RuntimeError end |}
          | PyRaised e => caught e
          end
      end
  end.

(** *** Judging one test case *)

(** The body of the [for (const tc of ...)] loops of [handleRun] and
    [submit], after [runLocal] has returned [r]. *)
Definition judge (tc : TestCase) (r : RunResult) : Verdict :=
  let out := trim (stdout r) in
  let expected := trim (or_empty (expectedOutput tc)) in
  let passed := bool_decide (status r = OK) && str_eqb out expected in
  {| v_id := tc_id tc; v_input := input tc; expected := expected;
     output := out; passed := passed;
     v_stderr := match stderr r with [] => None | e => Some e end |}.

(** Observable side effects of the handlers. *)
Inductive Effect :=
| Exec (l : Lang) (source stdin : jstr)
| SetDoc (problemId : string) (doc : Submission)
| PlayAudio
| ConsoleError
| RequestFullscreen
| UnhandledRejection (e : JsVal).

(** The loop of [handleRun]: one [runLocal] per test case, in order; an
    exception leaving [runLocal] leaves the loop. *)
Fixpoint run_loop (env : Env) (code : jstr) (langId : Lang)
    (tcs : list TestCase) (collected : list Verdict)
    : completion (list Verdict) * list Effect :=
  match tcs with
  | [] => (Normal collected, [])
  | tc :: rest =>
      let call := Exec langId code (or_empty (input tc)) in
      match runLocal env code langId (or_empty (input tc)) with
      | Throw e => (Throw e, [call])
      | Normal r =>
          let '(res, fx) := run_loop env code langId rest (collected ++ [judge tc r]) in
          (res, call :: fx)
      end
  end.

(** The variables the loop of [submit] updates. *)
Record Tally := {
  collected : list Verdict;
  passedCount : Z;
  resultText : ResultText;
}.

Fixpoint submit_loop (env : Env) (code : jstr) (langId : Lang)
    (tcs : list TestCase) (t : Tally)
    : completion Tally * list Effect :=
  match tcs with
  | [] => (Normal t, [])
  | tc :: rest =>
      let call := Exec langId code (or_empty (input tc)) in
      match runLocal env code langId (or_empty (input tc)) with
      | Throw e => (Throw e, [call])
      | Normal r =>
          let v := judge tc r in
          let t' :=
            {| collected := collected t ++ [v];
               passedCount := if passed v then passedCount t + 1 else passedCount t;
               resultText :=
                 if negb (bool_decide (status r = OK))
                    || negb (str_eqb (output v) (expected v))
                 then FailedText else resultText t |} in
          let '(res, fx) := submit_loop env code langId rest t' in
          (res, call :: fx)
      end
  end.

(** The number of passed verdicts, and the tally the loop of [submit]
    reaches from [t] over the verdicts [vs]; used to state what the loop
    computes. *)
Definition count_passed (vs : list Verdict) : Z :=
  Z.of_nat (length (List.filter passed vs)).

Definition tally_after (t : Tally) (vs : list Verdict) : Tally :=
  {| collected := collected t ++ vs;
     passedCount := passedCount t + count_passed vs;
     resultText := if forallb passed vs then resultText t else FailedText |}.

(** [totalCount > 0 ? Math.round((passedCount / totalCount) * 100) : 0],
    in double arithmetic. *)
Definition percentage_of (passedCount totalCount : Z) : Z :=
  if 0 <? totalCount
  then Math_round (PrimFloat.mul
                     (PrimFloat.div (number passedCount) (number totalCount))
                     (number 100))
  else 0.


(** *** The component state *)

(** The output panels [handleRun] fills: [stdout], [stderr], [statusText]
    and [timeUsed]. *)
Record Panels := {
  stdoutPanel : jstr;
  stderrPanel : jstr;
  statusText : string;
  timeUsed : jstr;
}.

(** The state records have definitional eta, so that a setter applied to
    a variable still projects. *)
Set Primitive Projections.

(** What one render of [CodingRoundPage] sees: one field per [useState]
    the engine reads or writes, and [uid].  [submittedRef] stands for the
    identity of the [Set] object held in [submittedQuestions]: every
    [setSubmittedQuestions] installs a fresh object, and object identity is
    what the dependency array of an effect compares. *)
Record View := {
  questions : list Question;
  idx : Z;
  langId : Lang;
  codeMap : gmap string jstr;
  loading : bool;
  runningNow : bool;
  acceptedRules : bool;
  started : bool;
  timerSec : Z;
  violations : Z;
  warningMsg : option string;
  soundEnabled : bool;
  perTestResults : list Verdict;
  submittedQuestions : gset string;
  submittedRef : nat;
  roundCompleted : bool;
  showFullscreen : bool;
  remainingSec : option Z;
  uid : option string;
  panels : Panels;
}.

(** The state setters, [setX(x)]. *)
Definition set_idx (x : Z) (v : View) : View :=
  let 'Build_View a0 _ a2 a3 a4 a5 a6 a7 a8 a9 a10 a11 a12 a13 a14 a15 a16
    a17 a18 a19 := v in Build_View a0 x a2 a3 a4 a5 a6 a7 a8 a9 a10 a11 a12
    a13 a14 a15 a16 a17 a18 a19.
Definition set_langId (x : Lang) (v : View) : View :=
  let 'Build_View a0 a1 _ a3 a4 a5 a6 a7 a8 a9 a10 a11 a12 a13 a14 a15 a16
    a17 a18 a19 := v in Build_View a0 a1 x a3 a4 a5 a6 a7 a8 a9 a10 a11 a12
    a13 a14 a15 a16 a17 a18 a19.
Definition set_codeMap (x : gmap string jstr) (v : View) : View :=
  let 'Build_View a0 a1 a2 _ a4 a5 a6 a7 a8 a9 a10 a11 a12 a13 a14 a15 a16
    a17 a18 a19 := v in Build_View a0 a1 a2 x a4 a5 a6 a7 a8 a9 a10 a11 a12
    a13 a14 a15 a16 a17 a18 a19.
Definition set_loading (x : bool) (v : View) : View :=
  let 'Build_View a0 a1 a2 a3 _ a5 a6 a7 a8 a9 a10 a11 a12 a13 a14 a15 a16
    a17 a18 a19 := v in Build_View a0 a1 a2 a3 x a5 a6 a7 a8 a9 a10 a11 a12
    a13 a14 a15 a16 a17 a18 a19.
Definition set_runningNow (x : bool) (v : View) : View :=
  let 'Build_View a0 a1 a2 a3 a4 _ a6 a7 a8 a9 a10 a11 a12 a13 a14 a15 a16
    a17 a18 a19 := v in Build_View a0 a1 a2 a3 a4 x a6 a7 a8 a9 a10 a11 a12
    a13 a14 a15 a16 a17 a18 a19.
Definition set_acceptedRules (x : bool) (v : View) : View :=
  let 'Build_View a0 a1 a2 a3 a4 a5 _ a7 a8 a9 a10 a11 a12 a13 a14 a15 a16
    a17 a18 a19 := v in Build_View a0 a1 a2 a3 a4 a5 x a7 a8 a9 a10 a11 a12
    a13 a14 a15 a16 a17 a18 a19.
Definition set_started (x : bool) (v : View) : View :=
  let 'Build_View a0 a1 a2 a3 a4 a5 a6 _ a8 a9 a10 a11 a12 a13 a14 a15 a16
    a17 a18 a19 := v in Build_View a0 a1 a2 a3 a4 a5 a6 x a8 a9 a10 a11 a12
    a13 a14 a15 a16 a17 a18 a19.
Definition set_timerSec (x : Z) (v : View) : View :=
  let 'Build_View a0 a1 a2 a3 a4 a5 a6 a7 _ a9 a10 a11 a12 a13 a14 a15 a16
    a17 a18 a19 := v in Build_View a0 a1 a2 a3 a4 a5 a6 a7 x a9 a10 a11 a12
    a13 a14 a15 a16 a17 a18 a19.
Definition set_violations (x : Z) (v : View) : View :=
  let 'Build_View a0 a1 a2 a3 a4 a5 a6 a7 a8 _ a10 a11 a12 a13 a14 a15 a16
    a17 a18 a19 := v in Build_View a0 a1 a2 a3 a4 a5 a6 a7 a8 x a10 a11 a12
    a13 a14 a15 a16 a17 a18 a19.
Definition set_warningMsg (x : option string) (v : View) : View :=
  let 'Build_View a0 a1 a2 a3 a4 a5 a6 a7 a8 a9 _ a11 a12 a13 a14 a15 a16
    a17 a18 a19 := v in Build_View a0 a1 a2 a3 a4 a5 a6 a7 a8 a9 x a11 a12
    a13 a14 a15 a16 a17 a18 a19.
Definition set_soundEnabled (x : bool) (v : View) : View :=
  let 'Build_View a0 a1 a2 a3 a4 a5 a6 a7 a8 a9 a10 _ a12 a13 a14 a15 a16
    a17 a18 a19 := v in Build_View a0 a1 a2 a3 a4 a5 a6 a7 a8 a9 a10 x a12
    a13 a14 a15 a16 a17 a18 a19.
Definition set_perTestResults (x : list Verdict) (v : View) : View :=
  let 'Build_View a0 a1 a2 a3 a4 a5 a6 a7 a8 a9 a10 a11 _ a13 a14 a15 a16
    a17 a18 a19 := v in Build_View a0 a1 a2 a3 a4 a5 a6 a7 a8 a9 a10 a11 x
    a13 a14 a15 a16 a17 a18 a19.
Definition set_roundCompleted (x : bool) (v : View) : View :=
  let 'Build_View a0 a1 a2 a3 a4 a5 a6 a7 a8 a9 a10 a11 a12 a13 a14 _ a16
    a17 a18 a19 := v in Build_View a0 a1 a2 a3 a4 a5 a6 a7 a8 a9 a10 a11 a12
    a13 a14 x a16 a17 a18 a19.
Definition set_showFullscreen (x : bool) (v : View) : View :=
  let 'Build_View a0 a1 a2 a3 a4 a5 a6 a7 a8 a9 a10 a11 a12 a13 a14 a15 _
    a17 a18 a19 := v in Build_View a0 a1 a2 a3 a4 a5 a6 a7 a8 a9 a10 a11 a12
    a13 a14 a15 x a17 a18 a19.
Definition set_remainingSec (x : option Z) (v : View) : View :=
  let 'Build_View a0 a1 a2 a3 a4 a5 a6 a7 a8 a9 a10 a11 a12 a13 a14 a15 a16
    _ a18 a19 := v in Build_View a0 a1 a2 a3 a4 a5 a6 a7 a8 a9 a10 a11 a12
    a13 a14 a15 a16 x a18 a19.
Definition set_panels (x : Panels) (v : View) : View :=
  let 'Build_View a0 a1 a2 a3 a4 a5 a6 a7 a8 a9 a10 a11 a12 a13 a14 a15 a16
    a17 a18 _ := v in Build_View a0 a1 a2 a3 a4 a5 a6 a7 a8 a9 a10 a11 a12
    a13 a14 a15 a16 a17 a18 x.

(** [setSubmittedQuestions((prev) => new Set([...prev, x]))] *)
Definition add_submitted (x : string) (v : View) : View :=
  let 'Build_View a0 a1 a2 a3 a4 a5 a6 a7 a8 a9 a10 a11 a12 a13 a14 a15 a16
    a17 a18 a19 := v in Build_View a0 a1 a2 a3 a4 a5 a6 a7 a8 a9 a10 a11 a12
    ({[x]} ∪ a13) (S a14) a15 a16 a17 a18 a19.

(** [questions[idx]] *)
Definition currentQuestion (v : View) : option Question :=
  if idx v <? 0 then None else questions v !! Z.to_nat (idx v).

(** [`${currentQuestion.id}_${langId}`], or [""] without a question. *)
Definition codeKey (v : View) : string :=
  match currentQuestion v with
  | Some q => (id q ++ "_" ++ lang_id (langId v))%string
  | None => ""%string
  end.

(** [codeKey ? codeMap[codeKey] ?? "" : ""] *)
Definition code (v : View) : jstr :=
  if bool_decide (codeKey v = ""%string) then []
  else default [] (codeMap v !! codeKey v).

(** The dependency array of the countdown effect,
    [[remainingSec, roundCompleted, currentQuestion, submittedQuestions,
    soundEnabled]]; the question object is identified by its position in
    the loaded list. *)
Definition Deps : Type := option Z * bool * option nat * nat * bool.

Definition deps_of (v : View) : Deps :=
  (remainingSec v, roundCompleted v,
   (if idx v <? 0 then None
    else if bool_decide (Z.to_nat (idx v) < length (questions v))%nat
         then Some (Z.to_nat (idx v)) else None),
   submittedRef v, soundEnabled v).

(** The component between two events: the live state, the documents of
    [responses/{uid}/round2], [warnShownRef], the view captured by the
    armed countdown interval ([None] when no interval is armed) and the
    dependencies the countdown effect last ran with. *)
Record Component := {
  view : View;
  store : gmap string Submission;
  warnShownRef : bool;
  countdown : option View;
  countdownDeps : Deps;
}.

Unset Primitive Projections.

Definition upd_view (f : View -> View) (c : Component) : Component :=
  {| view := f (view c); store := store c; warnShownRef := warnShownRef c;
     countdown := countdown c; countdownDeps := countdownDeps c |}.

Definition set_store (s : gmap string Submission) (c : Component) : Component :=
  {| view := view c; store := s; warnShownRef := warnShownRef c;
     countdown := countdown c; countdownDeps := countdownDeps c |}.

Definition set_warnShownRef (b : bool) (c : Component) : Component :=
  {| view := view c; store := store c; warnShownRef := b;
     countdown := countdown c; countdownDeps := countdownDeps c |}.

Definition set_countdown (i : option View) (c : Component) : Component :=
  {| view := view c; store := store c; warnShownRef := warnShownRef c;
     countdown := i; countdownDeps := countdownDeps c |}.

Definition audio (enabled : bool) : list Effect :=
  if enabled then [PlayAudio] else [].

(** *** [submit] (lines 440-508)

    [cl] is the render whose [submit] is called: the live view for the
    button, the view captured by the interval for the countdown. *)
Definition submit (env : Env) (cl : View) (c : Component)
    : Component * list Effect :=
  match currentQuestion cl, uid cl with
  | Some q, Some _ =>
      if bool_decide (id q ∈ submittedQuestions cl) then (c, [])
      else
        let c1 := upd_view (set_loading true) c in
        let tcs := default [] (testCases q) in
        let totalCount := Z.of_nat (length tcs) in
        match submit_loop env (code cl) (langId cl) tcs
                {| collected := []; passedCount := 0; resultText := Passed |} with
        | (Throw e, fx) =>
            (upd_view (set_loading false) c1, fx ++ [ConsoleError])
        | (Normal t, fx) =>
            let doc :=
              {| s_code := code cl; s_language := langId cl;
                 s_result := resultText t;
                 s_percentage := percentage_of (passedCount t) totalCount;
                 s_passed := passedCount t; s_total := totalCount;
                 s_problemId := id q; s_submittedAt := now env;
                 s_examViolations := violations cl;
                 s_durationSec := timerSec cl |} in
            if write_ok env then
              let c2 := set_store (<[id q := doc]> (store c1)) c1 in
              let c3 := upd_view (set_perTestResults (collected t)) c2 in
              let c4 := upd_view (add_submitted (id q)) c3 in
              (upd_view (set_loading false) c4,
               fx ++ [SetDoc (id q) doc] ++ audio (soundEnabled cl))
            else
              (upd_view (set_loading false) c1,
               fx ++ [SetDoc (id q) doc; ConsoleError])
        end
  | _, _ => (c, [])
  end.

(** [runLocal] returns [r] for the test case [tc] under the render [cl]. *)
Definition returns_for (env : Env) (cl : View) (tc : TestCase) (r : RunResult)
    : Prop :=
  runLocal env (code cl) (langId cl) (or_empty (input tc)) = Normal r.

(** The document [submit] builds from the verdicts [vs] of question [q]. *)
Definition doc_of (env : Env) (cl : View) (q : Question) (vs : list Verdict)
    : Submission :=
  let t := tally_after {| collected := []; passedCount := 0; resultText := Passed |} vs in
  {| s_code := code cl; s_language := langId cl; s_result := resultText t;
     s_percentage :=
       percentage_of (passedCount t)
                     (Z.of_nat (length (default [] (testCases q))));
     s_passed := passedCount t;
     s_total := Z.of_nat (length (default [] (testCases q)));
     s_problemId := id q; s_submittedAt := now env;
     s_examViolations := violations cl; s_durationSec := timerSec cl |}.

(** The number of document writes attempted among the effects. *)
Definition is_write (e : Effect) : bool :=
  match e with SetDoc _ _ => true | _ => false end.

Definition writes (fx : list Effect) : nat := length (List.filter is_write fx).

(** *** [handleRun] (lines 374-417) *)

Definition clearPanels (v : View) : View :=
  set_perTestResults []
    (set_panels {| stdoutPanel := []; stderrPanel := [];
                   statusText := ""; timeUsed := [] |} v).

(** U+2014, the dash shown for an empty panel. *)
Definition dash : jstr := [8212%N].

Definition handleRun (env : Env) (cl : View) (c : Component)
    : Component * list Effect :=
  match currentQuestion cl with
  | None =>
      (upd_view (fun v =>
         set_panels {| stdoutPanel := [];
                       stderrPanel := utf16 "No question loaded.";
                       statusText := "Failed";
                       timeUsed := timeUsed (panels v) |} v) c, [])
  | Some q =>
      let c1 := upd_view (fun v => clearPanels (set_runningNow true v)) c in
      match run_loop env (code cl) (langId cl) (default [] (testCases q)) [] with
      | (Throw e, fx) =>
          (c1, audio (soundEnabled cl) ++ fx ++ [UnhandledRejection e])
      | (Normal collected, fx) =>
          let show (v : View) : View :=
            match collected with
            | [] => v
            | r :: _ =>
                set_panels
                  {| stdoutPanel := match output r with [] => dash | o => o end;
                     stderrPanel := default [] (v_stderr r);
                     statusText := statusText (panels v);
                     timeUsed := match v_stderr r with
                                 | Some _ => dash
                                 | None => utf16 "0.001s"
                                 end |} v
            end in
          let verdict (v : View) : View :=
            set_panels
              {| stdoutPanel := stdoutPanel (panels v);
                 stderrPanel := stderrPanel (panels v);
                 statusText := if forallb passed collected then "OK" else "Failed";
                 timeUsed := timeUsed (panels v) |} v in
          (upd_view (fun v =>
             set_runningNow false
               (verdict (set_perTestResults collected (show v)))) c1,
           audio (soundEnabled cl) ++ fx)
      end
  end.

(** *** The countdown effect (lines 511-537) *)

(** The effect body: no interval once the round is completed or when there
    is no end time; otherwise an interval whose callback closes over this
    render. *)
Definition arm (v : View) : option View :=
  if roundCompleted v then None
  else match remainingSec v with
       | None => None
       | Some _ => Some v
       end.

(** The forced submission inside the interval callback:
    [if (currentQuestion && !submittedQuestions.has(currentQuestion.id)) submit()],
    all of it as the captured render [cl] defines it. *)
Definition forced (env : Env) (cl : View) (c : Component)
    : Component * list Effect :=
  match currentQuestion cl with
  | Some q =>
      if bool_decide (id q ∈ submittedQuestions cl) then (c, [])
      else submit env cl c
  | None => (c, [])
  end.

(** The interval callback, [setRemainingSec((s) => ...)]. *)
Definition tick (env : Env) (c : Component) : Component * list Effect :=
  match countdown c with
  | None => (c, [])
  | Some cl =>
      match remainingSec (view c) with
      | None => (c, [])
      | Some s =>
          let next := s - 1 in
          let warn := (next =? 60) && negb (warnShownRef c) in
          let c1 := if warn then set_warnShownRef true c else c in
          let fx1 := if warn then audio (soundEnabled cl) else [] in
          if next <=? 0 then
            let c2 := set_countdown None c1 in
            let '(c3, fx2) := forced env cl c2 in
            (upd_view (set_remainingSec (Some 0)) c3, fx1 ++ fx2)
          else (upd_view (set_remainingSec (Some next)) c1, fx1)
      end
  end.

(** Re-render: the countdown effect is cleaned up and run again when one of
    its dependencies changed. *)
Definition commit (c : Component) : Component :=
  if bool_decide (deps_of (view c) = countdownDeps c) then c
  else {| view := view c; store := store c; warnShownRef := warnShownRef c;
          countdown := arm (view c); countdownDeps := deps_of (view c) |}.

(** *** The anti-cheat effect (lines 577-615), registered while [started] *)

Definition bumpViolation (reason : string) (v : View) : View * list Effect :=
  (set_warningMsg (Some reason) (set_violations (violations v + 1) v),
   audio (soundEnabled v)).

(** *** Events *)

(** What [requestFullscreen] meets: the document is already in
    full-screen (no request is made), or the request is granted, or it is
    refused (and the refusal swallowed). *)
Inductive FsRequest := FsAlready | FsGranted | FsDenied.

Definition requestFullscreen (fs : FsRequest) (v : View) : View * list Effect :=
  match fs with
  | FsAlready => (v, [])
  | FsGranted => (set_showFullscreen true v, [RequestFullscreen])
  | FsDenied => (v, [RequestFullscreen])
  end.

(** What can happen to the mounted component.  [VisibilityChange] carries
    the instant of the event and [document.hidden]; [FullscreenChange]
    carries whether [document.fullscreenElement] is set. *)
Inductive Event :=
| Tick
| Second
| Edit (val : jstr)
| SelectLang (l : Lang)
| Prev
| Next
| ClickRun
| ClickSubmit
| ToggleSound
| SetAccepted (b : bool)
| ClickStart (fs : FsRequest)
| ResumeFullscreen (fs : FsRequest)
| DismissWarning
| VisibilityChange (at_ms : Z) (hidden : bool)
| Blur
| FullscreenChange (inFullscreen : bool).

Definition on_view (f : View -> View * list Effect) (c : Component)
    : Component * list Effect :=
  let '(v, fx) := f (view c) in (upd_view (fun _ => v) c, fx).

Definition handle (env : Env) (ev : Event) (c : Component)
    : Component * list Effect :=
  let v := view c in
  match ev with
  | Tick => tick env c
  | Second =>
      if started v then (upd_view (set_timerSec (timerSec v + 1)) c, [])
      else (c, [])
  | Edit val => (upd_view (set_codeMap (<[codeKey v := val]> (codeMap v))) c, [])
  | SelectLang l => (upd_view (set_langId l) c, [])
  | Prev => (upd_view (set_idx (Z.max 0 (idx v - 1))) c, [])
  | Next =>
      (upd_view (set_idx (Z.min (Z.of_nat (length (questions v)) - 1)
                                (idx v + 1))) c, [])
  | ClickRun => handleRun env v c
  | ClickSubmit => submit env v c
  | ToggleSound => (upd_view (set_soundEnabled (negb (soundEnabled v))) c, [])
  | SetAccepted b => (upd_view (set_acceptedRules b) c, [])
  | ClickStart fs =>
      let '(c1, fx) := on_view (requestFullscreen fs) c in
      (upd_view (set_started true) c1, fx)
  | ResumeFullscreen fs =>
      on_view (requestFullscreen fs) (upd_view (set_warningMsg None) c)
  | DismissWarning => (upd_view (set_warningMsg None) c, [])
  | VisibilityChange _ hidden =>
      if started v && hidden
      then on_view (bumpViolation "Tab switch detected") c
      else (c, [])
  | Blur =>
      if started v then on_view (bumpViolation "Window lost focus") c
      else (c, [])
  | FullscreenChange inFullscreen =>
      if started v then
        if inFullscreen then (upd_view (set_showFullscreen true) c, [])
        else
          let '(c1, fx) := on_view (bumpViolation "Exited full-screen mode") c in
          (upd_view (set_showFullscreen false) c1, fx)
      else (c, [])
  end.

Definition step (env : Env) (ev : Event) (c : Component)
    : Component * list Effect :=
  let '(c', fx) := handle env ev c in (commit c', fx).

(** A run of events, each in its own environment; the effects are
    concatenated in order. *)
Fixpoint run (evs : list (Env * Event)) (c : Component)
    : Component * list Effect :=
  match evs with
  | [] => (c, [])
  | (env, ev) :: rest =>
      let '(c1, fx1) := step env ev c in
      let '(c2, fx2) := run rest c1 in
      (c2, fx1 ++ fx2)
  end.

(** *** [loadQuestions] (lines 178-227) *)

(** The filter applied to the documents of [questions]. *)
Definition assigned_now (u : string) (serverNow : Z) (q : Question) : bool :=
  bool_decide (type q = "code"%string)
  && bool_decide (u ∈ default [] (assignedTo q))
  && match startAt q with None => true | Some t => t <=? serverNow end
  && match endAt q with None => true | Some t => serverNow <=? t end.

(** [ends]: the end instants of the loaded questions that have one. *)
Definition ends (qs : list Question) : list Z := omap endAt qs.

(** [Math.min(...ends)] for a non-empty list. *)
Definition earliest (e : Z) (es : list Z) : Z := foldr Z.min e es.

(** [Math.max(0, Math.floor((earliest - now.getTime()) / 1000))], or [null]
    when no loaded question has an end time. *)
Definition baseRemaining (qs : list Question) (serverNow : Z) : option Z :=
  match ends qs with
  | [] => None
  | e :: es => Some (Z.max 0 ((earliest e es - serverNow) / 1000))
  end.

(** [lang.template] *)
Definition template (l : Lang) : jstr :=
  match l with
  | python => utf16 "# Python (in-browser via Pyodide)
# Use input() to read lines; print() to write output.

x = input().strip()
if x:
    try:
        print(int(x) * 2)
    except Exception:
        print(x)
"
  | javascript => utf16 "// JavaScript (runs in-browser)
// Use input() / readline() to read lines from provided stdin,
// and print() to output.

const s = input().trim();
if (s) {
  const n = Number(s);
  if (!Number.isNaN(n)) print(n * 2);
  else print(s);
}
"
  end.

(** [initialCode] *)
Definition initialCode (qs : list Question) : gmap string jstr :=
  foldl (fun m q =>
           foldl (fun m l =>
                    <[(id q ++ "_" ++ lang_id l)%string :=
                        match codeTemplate q with
                        | Some (c :: t) => c :: t
                        | _ => template l
                        end]> m)
                 m [python; javascript])
        ∅ qs.

(** The view once [loadQuestions] and [checkRoundCompletion] have
    settled, for a signed-in candidate [u]: [docs] are the documents of
    [questions], [serverNow] the result of [getServerTime()], [saved] the
    documents of [responses/{u}/round2] and [completed] the flag of
    [roundCompletion/{u}]. *)
Definition loaded_view (u : string) (docs : list Question) (serverNow : Z)
    (saved : gmap string Submission) (completed : bool) : View :=
  let list := filter (fun q => assigned_now u serverNow q = true) docs in
  let submitted := dom saved in
  {| questions := list; idx := 0; langId := python;
     codeMap := initialCode list; loading := false; runningNow := false;
     acceptedRules := false; started := false; timerSec := 0;
     violations := 0; warningMsg := None; soundEnabled := true;
     perTestResults := [];
     submittedQuestions := submitted;
     submittedRef := if bool_decide (saved = ∅) then 0%nat else 1%nat;
     roundCompleted :=
       completed
       || negb (bool_decide (saved = ∅))
          && bool_decide (size submitted = length list);
     showFullscreen := false;
     remainingSec := baseRemaining list serverNow;
     uid := Some u;
     panels := {| stdoutPanel := []; stderrPanel := [];
                  statusText := ""; timeUsed := [] |} |}.

Definition mount (v : View) (saved : gmap string Submission) : Component :=
  {| view := v; store := saved; warnShownRef := false;
     countdown := arm v; countdownDeps := deps_of v |}.

Definition loadQuestions (u : string) (docs : list Question) (serverNow : Z)
    (saved : gmap string Submission) (completed : bool) : Component :=
  mount (loaded_view u docs serverNow saved completed) saved.

(** *** Measures used to state what the handlers do *)

(** The number of interpreter calls among the effects. *)
Definition is_exec (e : Effect) : bool :=
  match e with Exec _ _ _ => true | _ => false end.

Definition execs (fx : list Effect) : nat := length (List.filter is_exec fx).

(** A stored document sits under the id of its problem, its counts are in
    range and its percentage is 0 when there is no test case. *)
Definition sound_doc (k : string) (d : Submission) : Prop :=
  s_problemId d = k /\ 0 <= s_passed d <= s_total d
  /\ (s_total d = 0 -> s_percentage d = 0).

Definition sound_store (st : gmap string Submission) : Prop :=
  forall k d, st !! k = Some d -> sound_doc k d.

(** The key of the code buffer of question [qid] in language [l]. *)
Definition key_of (qid : string) (l : Lang) : string :=
  (qid ++ "_" ++ lang_id l)%string.

(** [q.codeTemplate || lang.template] *)
Definition starter (q : Question) (l : Lang) : jstr :=
  match codeTemplate q with
  | Some (c :: t) => c :: t
  | _ => template l
  end.

(** The result of [runLocal] while the Python runtime is not loaded. *)
Definition not_ready : RunResult :=
  {| stdout := []; stderr := utf16 "Python runtime not ready"; status := Failed |}.

(** What [submit], [handleRun] and the countdown never touch: the loaded
    questions, the position, the language, the code buffers, the exam
    counters and flags. *)
Definition same_session (v v' : View) : Prop :=
  questions v' = questions v /\ idx v' = idx v /\ langId v' = langId v
  /\ codeMap v' = codeMap v /\ uid v' = uid v
  /\ violations v' = violations v /\ timerSec v' = timerSec v
  /\ started v' = started v /\ acceptedRules v' = acceptedRules v
  /\ soundEnabled v' = soundEnabled v /\ roundCompleted v' = roundCompleted v.

(** No event of the list is a click on Start. *)
Definition no_start (evs : list (Env * Event)) : Prop :=
  Forall (fun p => forall fs, snd p <> ClickStart fs) evs.

End Coding.

(** ** The MCQ round: [src/pages/MCQRound.tsx] *)

Module MCQ.

(** *** Data *)

(** A document of [questions] with [type == "mcq"]; the list is typed
    [any[]], so [answer] may be missing. *)
Record Question := {
  id : string;
  title : string;
  options : list string;
  answer : option string;
}.

(** An entry of [answerDetails]. *)
Record Detail := {
  d_question : string;
  selected : string;
  correct : option string;
  isCorrect : bool;
}.

(** The [round1] field written by [handleSubmit]. *)
Record Round1 := {
  submittedAt : Z;
  score : Z;
  r_correct : Z;
  r_wrong : Z;
  r_answers : gmap string Detail;
  examDuration : Z;
  r_violations : Z;
}.

(** The document [responses/{uid}], with the fields this page writes;
    [None] is an absent field. *)
Record Response := {
  round1 : option Round1;
  round1Submitted : option bool;
  round1Rejected : option bool;
  rejectedAt : option Z;
  doc_violations : option Z;
}.

Definition no_response : Response :=
  {| round1 := None; round1Submitted := None; round1Rejected := None;
     rejectedAt := None; doc_violations := None |}.

(** [setDoc(ref, patch, { merge: true })]: the fields of the patch replace
    those of the document, the others stay. *)
Definition merge (patch old : Response) : Response :=
  {| round1 := match round1 patch with Some x => Some x | None => round1 old end;
     round1Submitted :=
       match round1Submitted patch with Some x => Some x | None => round1Submitted old end;
     round1Rejected :=
       match round1Rejected patch with Some x => Some x | None => round1Rejected old end;
     rejectedAt :=
       match rejectedAt patch with Some x => Some x | None => rejectedAt old end;
     doc_violations :=
       match doc_violations patch with Some x => Some x | None => doc_violations old end |}.

Set Primitive Projections.

(** What one render of [MCQRoundPage] sees. *)
Record View := {
  questions : list Question;
  answers : gmap string string;
  currentQuestionIndex : Z;
  acceptedRules : bool;
  started : bool;
  submitted : bool;
  warningGiven : bool;
  timerSec : Z;
  violations : Z;
  warningMsg : option string;
  soundEnabled : bool;
  showFullscreen : bool;
  loading : bool;
  user : option string;
}.

(** The state setters, [setX(x)]. *)
Definition set_answers (x : gmap string string) (v : View) : View :=
  let 'Build_View a0 _ a2 a3 a4 a5 a6 a7 a8 a9 a10 a11 a12 a13 := v in
    Build_View a0 x a2 a3 a4 a5 a6 a7 a8 a9 a10 a11 a12 a13.
Definition set_currentQuestionIndex (x : Z) (v : View) : View :=
  let 'Build_View a0 a1 _ a3 a4 a5 a6 a7 a8 a9 a10 a11 a12 a13 := v in
    Build_View a0 a1 x a3 a4 a5 a6 a7 a8 a9 a10 a11 a12 a13.
Definition set_acceptedRules (x : bool) (v : View) : View :=
  let 'Build_View a0 a1 a2 _ a4 a5 a6 a7 a8 a9 a10 a11 a12 a13 := v in
    Build_View a0 a1 a2 x a4 a5 a6 a7 a8 a9 a10 a11 a12 a13.
Definition set_started (x : bool) (v : View) : View :=
  let 'Build_View a0 a1 a2 a3 _ a5 a6 a7 a8 a9 a10 a11 a12 a13 := v in
    Build_View a0 a1 a2 a3 x a5 a6 a7 a8 a9 a10 a11 a12 a13.
Definition set_submitted (x : bool) (v : View) : View :=
  let 'Build_View a0 a1 a2 a3 a4 _ a6 a7 a8 a9 a10 a11 a12 a13 := v in
    Build_View a0 a1 a2 a3 a4 x a6 a7 a8 a9 a10 a11 a12 a13.
Definition set_warningGiven (x : bool) (v : View) : View :=
  let 'Build_View a0 a1 a2 a3 a4 a5 _ a7 a8 a9 a10 a11 a12 a13 := v in
    Build_View a0 a1 a2 a3 a4 a5 x a7 a8 a9 a10 a11 a12 a13.
Definition set_timerSec (x : Z) (v : View) : View :=
  let 'Build_View a0 a1 a2 a3 a4 a5 a6 _ a8 a9 a10 a11 a12 a13 := v in
    Build_View a0 a1 a2 a3 a4 a5 a6 x a8 a9 a10 a11 a12 a13.
Definition set_violations (x : Z) (v : View) : View :=
  let 'Build_View a0 a1 a2 a3 a4 a5 a6 a7 _ a9 a10 a11 a12 a13 := v in
    Build_View a0 a1 a2 a3 a4 a5 a6 a7 x a9 a10 a11 a12 a13.
Definition set_warningMsg (x : option string) (v : View) : View :=
  let 'Build_View a0 a1 a2 a3 a4 a5 a6 a7 a8 _ a10 a11 a12 a13 := v in
    Build_View a0 a1 a2 a3 a4 a5 a6 a7 a8 x a10 a11 a12 a13.
Definition set_soundEnabled (x : bool) (v : View) : View :=
  let 'Build_View a0 a1 a2 a3 a4 a5 a6 a7 a8 a9 _ a11 a12 a13 := v in
    Build_View a0 a1 a2 a3 a4 a5 a6 a7 a8 a9 x a11 a12 a13.
Definition set_showFullscreen (x : bool) (v : View) : View :=
  let 'Build_View a0 a1 a2 a3 a4 a5 a6 a7 a8 a9 a10 _ a12 a13 := v in
    Build_View a0 a1 a2 a3 a4 a5 a6 a7 a8 a9 a10 x a12 a13.
Definition set_loading (x : bool) (v : View) : View :=
  let 'Build_View a0 a1 a2 a3 a4 a5 a6 a7 a8 a9 a10 a11 _ a13 := v in
    Build_View a0 a1 a2 a3 a4 a5 a6 a7 a8 a9 a10 a11 x a13.

(** The dependency array of the anti-cheat effect,
    [[started, submitted, warningGiven, soundEnabled]]. *)
Definition Deps : Type := bool * bool * bool * bool.

Definition deps_of (v : View) : Deps :=
  (started v, submitted v, warningGiven v, soundEnabled v).

Inductive Effect :=
| SetDoc (patch : Response)
| PlayAudio
| ConsoleError
| RequestFullscreen
| ExitFullscreen
| Navigate (path : string)
| NavigateLater (path : string)
| UnhandledRejection.

(** The environment of one event: whether a full-screen request is granted,
    whether the document write succeeds, and the wall clock. *)
Record Env := {
  fs_granted : bool;
  write_ok : bool;
  now : Z;
}.

(** The component between two events: the live state, the document
    [responses/{uid}], [document.fullscreenElement], the render captured by
    the listeners of the anti-cheat effect ([None] when they are not
    registered) and the dependencies that effect last ran with. *)
Record Component := {
  view : View;
  response : Response;
  fullscreenElement : bool;
  listeners : option View;
  listenerDeps : Deps;
}.

Unset Primitive Projections.

Definition upd_view (f : View -> View) (c : Component) : Component :=
  {| view := f (view c); response := response c;
     fullscreenElement := fullscreenElement c;
     listeners := listeners c; listenerDeps := listenerDeps c |}.

Definition set_response (r : Response) (c : Component) : Component :=
  {| view := view c; response := r;
     fullscreenElement := fullscreenElement c;
     listeners := listeners c; listenerDeps := listenerDeps c |}.

Definition set_fullscreenElement (b : bool) (c : Component) : Component :=
  {| view := view c; response := response c; fullscreenElement := b;
     listeners := listeners c; listenerDeps := listenerDeps c |}.

Definition audio (enabled : bool) : list Effect :=
  if enabled then [PlayAudio] else [].

(** [reEnterFullscreen]: a request only when the document is not in
    full-screen; a refused request is swallowed. *)
Definition reEnterFullscreen (env : Env) (c : Component)
    : Component * list Effect :=
  if fullscreenElement c then (c, [])
  else if fs_granted env
       then (upd_view (set_showFullscreen true) (set_fullscreenElement true c),
             [RequestFullscreen])
       else (c, [RequestFullscreen]).

(** [exitFullscreen] *)
Definition exitFullscreen (c : Component) : Component * list Effect :=
  if fullscreenElement c
  then (upd_view (set_showFullscreen false) (set_fullscreenElement false c),
        [ExitFullscreen])
  else (c, []).

(** [handleReject] (lines 260-277), as defined by the render [cl]. *)
Definition handleReject (env : Env) (cl : View) (c : Component)
    : Component * list Effect :=
  match user cl with
  | None => (c, [])
  | Some _ =>
      let c1 := upd_view (set_submitted true) c in
      let patch :=
        {| round1 := None; round1Submitted := Some true;
           round1Rejected := Some true; rejectedAt := Some (now env);
           doc_violations := Some (violations cl) |} in
      if write_ok env then
        let c2 := set_response (merge patch (response c1)) c1 in
        let '(c3, fx) := exitFullscreen c2 in
        (c3, SetDoc patch :: fx ++ [Navigate "/rejected"])
      else (c1, [SetDoc patch; UnhandledRejection])
  end.

Definition first_warning : string :=
  "Warning: Do not exit fullscreen or switch tabs. Next violation will reject your exam.".

Definition rejection_notice : string :=
  "Exam rejected due to repeated violations.".

(** [handleViolation] (lines 98-115), as defined by the render [cl] in which the effect
    last ran: [started], [submitted], [warningGiven], [soundEnabled] and
    [handleReject] are those of [cl]; [setViolations(v => v + 1)] acts on
    the live state. *)
Definition handleViolation (env : Env) (cl : View) (c : Component)
    : Component * list Effect :=
  if negb (started cl) || submitted cl then (c, [])
  else
    let c1 := upd_view (fun v => set_violations (violations v + 1) v) c in
    if negb (warningGiven cl) then
      let c2 := upd_view (fun v => set_warningGiven true
                                     (set_warningMsg (Some first_warning) v)) c1 in
      let '(c3, fx) := reEnterFullscreen env c2 in
      (c3, audio (soundEnabled cl) ++ fx)
    else
      let c2 := upd_view (set_warningMsg (Some rejection_notice)) c1 in
      handleReject env cl c2.

(** The body of the loop of [handleSubmit]. *)
Record Tally := {
  correctCount : Z;
  wrongCount : Z;
  answerDetails : gmap string Detail;
}.

Definition grade (answers : gmap string string) (t : Tally) (q : Question) : Tally :=
  let selectedAnswer := default ""%string (answers !! id q) in
  let isCorrect := bool_decide (Some selectedAnswer = answer q) in
  {| correctCount := if isCorrect then correctCount t + 1 else correctCount t;
     wrongCount := if isCorrect then wrongCount t else wrongCount t + 1;
     answerDetails :=
       <[id q := {| d_question := title q; selected := selectedAnswer;
                    correct := answer q; isCorrect := isCorrect |}]>
         (answerDetails t) |}.

Definition grade_all (qs : list Question) (answers : gmap string string) : Tally :=
  foldl (grade answers)
        {| correctCount := 0; wrongCount := 0; answerDetails := ∅ |} qs.

(** A question is scored wrong when the selected answer, or the empty
    string when there is none, differs from the stored answer. *)
Definition is_wrong (answers : gmap string string) (q : Question) : bool :=
  negb (bool_decide (Some (default ""%string (answers !! id q)) = answer q)).

(** [handleSubmit] (lines 196-258), as defined by the render [cl]. *)
Definition handleSubmit (env : Env) (cl : View) (c : Component)
    : Component * list Effect :=
  match user cl with
  | None => (c, [])
  | Some _ =>
      if loading cl then (c, [])
      else
        let c1 := upd_view (set_loading true) c in
        let t := grade_all (questions cl) (answers cl) in
        let totalScore := correctCount t in
        let patch :=
          {| round1 := Some {| submittedAt := now env; score := totalScore;
                               r_correct := correctCount t;
                               r_wrong := wrongCount t;
                               r_answers := answerDetails t;
                               examDuration := timerSec cl;
                               r_violations := violations cl |};
             round1Submitted := Some true; round1Rejected := None;
             rejectedAt := None; doc_violations := None |} in
        if write_ok env then
          let c2 := set_response (merge patch (response c1)) c1 in
          let c3 := upd_view (set_submitted true) c2 in
          let '(c4, fx) := exitFullscreen c3 in
          (upd_view (set_loading false) c4,
           SetDoc patch :: fx ++ audio (soundEnabled cl)
             ++ [NavigateLater "/thank-you"])
        else
          (upd_view (fun v =>
             set_loading false
               (set_warningMsg (Some "Submission failed. Please try again."%string) v)) c1,
           [SetDoc patch; ConsoleError])
  end.

(** The anti-cheat effect body: listeners only while started and not
    submitted. *)
Definition register (v : View) : option View :=
  if started v && negb (submitted v) then Some v else None.

Definition commit (c : Component) : Component :=
  if bool_decide (deps_of (view c) = listenerDeps c) then c
  else {| view := view c; response := response c;
          fullscreenElement := fullscreenElement c;
          listeners := register (view c); listenerDeps := deps_of (view c) |}.

(** A running session whose listeners were registered by the live
    render. *)
Definition running_in_sync (c : Component) : Prop :=
  listeners c = Some (view c) /\ listenerDeps c = deps_of (view c)
  /\ started (view c) = true /\ submitted (view c) = false.

(** *** Events *)

Inductive Event :=
| SetAccepted (b : bool)
| ClickStart
| Second
| Select (qid opt : string)
| ClickSubmit
| ToggleSound
| DismissWarning
| VisibilityChange (at_ms : Z) (hidden : bool)
| FullscreenChange (inFullscreen : bool)
| KeyDown (key : string).

(** The events the anti-cheat effect counts as a violation: the tab
    becomes hidden, full-screen is left, Escape is pressed. *)
Definition is_violation (ev : Event) : bool :=
  match ev with
  | VisibilityChange _ hidden => hidden
  | FullscreenChange inFullscreen => negb inFullscreen
  | KeyDown key => bool_decide (key = "Escape"%string)
  | _ => false
  end.

(** A listener of the anti-cheat effect runs only while registered. *)
Definition listening (c : Component)
    (k : View -> Component * list Effect) : Component * list Effect :=
  match listeners c with
  | Some cl => k cl
  | None => (c, [])
  end.

Definition handle (env : Env) (ev : Event) (c : Component)
    : Component * list Effect :=
  let v := view c in
  match ev with
  | SetAccepted b => (upd_view (set_acceptedRules b) c, [])
  | ClickStart => reEnterFullscreen env (upd_view (set_started true) c)
  | Second =>
      if started v && negb (submitted v)
      then (upd_view (fun v => set_timerSec (timerSec v + 1) v) c, [])
      else (c, [])
  | Select qid opt =>
      if submitted v then (c, [])
      else (upd_view (fun v => set_answers (<[qid := opt]> (answers v)) v) c, [])
  | ClickSubmit => handleSubmit env v c
  | ToggleSound => (upd_view (set_soundEnabled (negb (soundEnabled v))) c, [])
  | DismissWarning => (upd_view (set_warningMsg None) c, [])
  | VisibilityChange _ hidden =>
      listening c (fun cl =>
        if hidden then handleViolation env cl c else (c, []))
  | FullscreenChange inFullscreen =>
      let c0 := set_fullscreenElement inFullscreen c in
      listening c0 (fun cl =>
        if inFullscreen then (upd_view (set_showFullscreen true) c0, [])
        else handleViolation env cl (upd_view (set_showFullscreen false) c0))
  | KeyDown key =>
      listening c (fun cl =>
        if bool_decide (key = "Escape"%string)
        then handleViolation env cl c else (c, []))
  end.

Definition step (env : Env) (ev : Event) (c : Component)
    : Component * list Effect :=
  let '(c', fx) := handle env ev c in (commit c', fx).

Fixpoint run (evs : list (Env * Event)) (c : Component)
    : Component * list Effect :=
  match evs with
  | [] => (c, [])
  | (env, ev) :: rest =>
      let '(c1, fx1) := step env ev c in
      let '(c2, fx2) := run rest c1 in
      (c2, fx1 ++ fx2)
  end.

(** The component once the questions are fetched, for a candidate whose
    [responses/{uid}] document is [saved]: [checkAlreadySubmitted] sets
    [submitted] from [round1Submitted]. *)
Definition initial (u : option string) (qs : list Question) (saved : Response)
    (inFullscreen : bool) : Component :=
  let v :=
    {| questions := qs; answers := ∅; currentQuestionIndex := 0;
       acceptedRules := false; started := false;
       submitted := match u, round1Submitted saved with
                    | Some _, Some true => true
                    | _, _ => false
                    end;
       warningGiven := false; timerSec := 0; violations := 0;
       warningMsg := None; soundEnabled := true; showFullscreen := false;
       loading := false; user := u |} in
  {| view := v; response := saved; fullscreenElement := inFullscreen;
     listeners := register v; listenerDeps := deps_of v |}.

(** *** Invariants of a session *)

(** The listeners, when registered, were registered by a render that has
    the dependencies and the user of the live one, and in which the test
    was running; when none is registered the live render is not a running
    test. *)
Definition synced (c : Component) : Prop :=
  listenerDeps c = deps_of (view c)
  /\ match listeners c with
     | Some cl => deps_of cl = deps_of (view c) /\ user cl = user (view c)
                  /\ started cl = true /\ submitted cl = false
     | None => started (view c) && negb (submitted (view c)) = false
     end.

(** The escalation of violations: the counter is 0 until the warning is
    given, 1 once it is given and 2 only in a closed session; the document
    is marked rejected only there. *)
Definition escalation (c : Component) : Prop :=
  0 <= violations (view c) <= 2
  /\ (warningGiven (view c) = false -> violations (view c) = 0)
  /\ (warningGiven (view c) = true -> 1 <= violations (view c))
  /\ (violations (view c) = 2 -> submitted (view c) = true)
  /\ (round1Rejected (response c) = Some true ->
      violations (view c) = 2 /\ warningGiven (view c) = true
      /\ submitted (view c) = true).

(** A session that has not been started: no listener is registered. *)
Definition idle (c : Component) : Prop :=
  started (view c) = false /\ listeners c = None
  /\ listenerDeps c = deps_of (view c).

(** The entry of [answerDetails] for a question. *)
Definition detail (answers : gmap string string) (q : Question) : Detail :=
  let selectedAnswer := default ""%string (answers !! id q) in
  {| d_question := title q; selected := selectedAnswer; correct := answer q;
     isCorrect := bool_decide (Some selectedAnswer = answer q) |}.

End MCQ.

(** ** Layout-level proctoring: the [Layout] component *)

Module Layout.

(** The refs and the local counter of the proctoring effect, the lockout
    entry of [localStorage], and whether the listeners of the effect are
    registered.  They are from the run of the effect until its clean-up,
    which happens when [user] changes: [signOut()] brings that about only
    once its awaited call has returned, so the listeners outlive the
    violation that calls it. *)
Record State := {
  violationCount : Z;
  lastVisibilityChange : Z;
  fullScreenRequested : bool;
  exam_lockout_until : option Z;
  active : bool;
}.

Inductive Effect :=
| Toast (attempt : Z)
| ToastLocked
| ExitFullscreen
| RequestFullscreen
| SignOut.

(** [handleViolation(reason)] at instant [now]. *)
Definition handleViolation (now : Z) (inFullscreen : bool) (s : State)
    : State * list Effect :=
  let n := violationCount s + 1 in
  if 5 <=? n then
    ({| violationCount := n; lastVisibilityChange := lastVisibilityChange s;
        fullScreenRequested := fullScreenRequested s;
        exam_lockout_until := Some (now + 10 * 60 * 1000);
        active := active s |},
     [Toast n; ToastLocked] ++ (if inFullscreen then [ExitFullscreen] else [])
       ++ [SignOut])
  else
    ({| violationCount := n; lastVisibilityChange := lastVisibilityChange s;
        fullScreenRequested := fullScreenRequested s;
        exam_lockout_until := exam_lockout_until s;
        active := active s |},
     [Toast n]).

(** [onVisibilityChange], with its 500 ms debounce. *)
Definition onVisibilityChange (now : Z) (hidden inFullscreen : bool) (s : State)
    : State * list Effect :=
  if now - lastVisibilityChange s <? 500 then (s, [])
  else
    let s1 :=
      {| violationCount := violationCount s; lastVisibilityChange := now;
         fullScreenRequested := fullScreenRequested s;
         exam_lockout_until := exam_lockout_until s; active := active s |} in
    if hidden then handleViolation now inFullscreen s1 else (s1, []).

(** [onBlur] *)
Definition onBlur (now : Z) (inFullscreen : bool) (s : State)
    : State * list Effect :=
  handleViolation now inFullscreen s.

(** [requestFullscreenIfNeeded]: nothing when the document is in
    full-screen; otherwise a request, and [fullScreenRequestedRef] is set
    when the browser grants it (a refusal is swallowed). *)
Definition requestFullscreenIfNeeded (inFullscreen granted : bool) (s : State)
    : State * list Effect :=
  if inFullscreen then (s, [])
  else if granted then
    ({| violationCount := violationCount s;
        lastVisibilityChange := lastVisibilityChange s;
        fullScreenRequested := true;
        exam_lockout_until := exam_lockout_until s; active := active s |},
     [RequestFullscreen])
  else (s, [RequestFullscreen]).

(** [onFullscreenChange] *)
Definition onFullscreenChange (now : Z) (inFullscreen granted : bool) (s : State)
    : State * list Effect :=
  if negb inFullscreen && fullScreenRequested s then
    let '(s1, fx1) := handleViolation now inFullscreen s in
    let '(s2, fx2) := requestFullscreenIfNeeded inFullscreen granted s1 in
    (s2, fx1 ++ fx2)
  else (s, []).

(** The lockout check that opens the proctoring effect:
    [Date.now() < lockoutUntil]. *)
Definition locked_out (now : Z) (s : State) : bool :=
  match exam_lockout_until s with
  | Some lockoutUntil => now <? lockoutUntil
  | None => false
  end.

(** What the proctoring effect does when it runs for a signed-in user of
    role [user]: access is blocked (a toast, [signOut()], no listener), or
    full-screen is asked for, the counter starts at 0 and the listeners are
    registered. *)
Inductive Mounted :=
| Blocked
| Proctored (s : State) (fx : list Effect).

Definition mount (now : Z) (inFullscreen granted : bool) (s : State) : Mounted :=
  if locked_out now s then Blocked
  else
    let '(s1, fx) :=
      requestFullscreenIfNeeded inFullscreen granted
        {| violationCount := 0;
           lastVisibilityChange := lastVisibilityChange s;
           fullScreenRequested := fullScreenRequested s;
           exam_lockout_until := exam_lockout_until s; active := true |} in
    Proctored s1 fx.

(** What happens to the component while the effect is in place: one of
    the three listeners receives an event, at the instant [Date.now()] and
    with the document in full-screen or not, or the store clears [user]
    (the awaited sign-out has returned, or the user signed out by hand) and
    the clean-up of the effect removes the listeners. *)
Inductive Event :=
| VisibilityChange (hidden : bool)
| Blur
| FullscreenChange (granted : bool)
| UserCleared.

(** An event reaches its listener only while the listeners are
    registered. *)
Definition handle (now : Z) (inFullscreen : bool) (ev : Event) (s : State)
    : State * list Effect :=
  match ev with
  | UserCleared =>
      ({| violationCount := violationCount s;
          lastVisibilityChange := lastVisibilityChange s;
          fullScreenRequested := fullScreenRequested s;
          exam_lockout_until := exam_lockout_until s; active := false |}, [])
  | VisibilityChange hidden =>
      if active s then onVisibilityChange now hidden inFullscreen s else (s, [])
  | Blur => if active s then onBlur now inFullscreen s else (s, [])
  | FullscreenChange granted =>
      if active s then onFullscreenChange now inFullscreen granted s else (s, [])
  end.

Fixpoint run (evs : list (Z * bool * Event)) (s : State) : State * list Effect :=
  match evs with
  | [] => (s, [])
  | (now, inFullscreen, ev) :: rest =>
      let '(s1, fx1) := handle now inFullscreen ev s in
      let '(s2, fx2) := run rest s1 in
      (s2, fx1 ++ fx2)
  end.

(** The number of calls of [signOut()] among the effects. *)
Definition is_signOut (e : Effect) : bool :=
  match e with SignOut => true | _ => false end.

Definition signOuts (fx : list Effect) : nat := length (List.filter is_signOut fx).

End Layout.

(** ** The scores table: the [ViewScores] page *)

Module ViewScores.

(** [round1.f || 0] for a numeric field [f] of [data.round1 || {}]. *)
Definition field (f : MCQ.Round1 -> Z) (data : MCQ.Response) : Z :=
  match MCQ.round1 data with
  | Some r => f r
  | None => 0
  end.

(** [round2.reduce((sum, r) => sum + (r.f || 0), 0)] *)
Definition total (f : Coding.Submission -> Z) (round2 : list Coding.Submission) : Z :=
  foldl (fun sum r => sum + f r) 0 round2.

(** [totalPossible = r1Correct + r1Wrong + r2Total] *)
Definition totalPossible (data : MCQ.Response) (round2 : list Coding.Submission) : Z :=
  field MCQ.r_correct data + field MCQ.r_wrong data + total Coding.s_total round2.

(** The scores of one element of the table. *)
Record Row := {
  totalScore : Z;
  r2Passed : Z;
  r2Total : Z;
  r2Percentage : Z;
  overallPercentage : Z;
}.

(** The body of the loop of [fetchData] for one document [data] of
    [responses] and the documents [round2] of its sub-collection. *)
Definition row (data : MCQ.Response) (round2 : list Coding.Submission) : Row :=
  let r1Score := field MCQ.score data in
  let r2Passed := total Coding.s_passed round2 in
  let r2Total := total Coding.s_total round2 in
  {| totalScore := r1Score + r2Passed;
     r2Passed := r2Passed;
     r2Total := r2Total;
     r2Percentage := Coding.percentage_of r2Passed r2Total;
     overallPercentage :=
       Coding.percentage_of (r1Score + r2Passed) (totalPossible data round2) |}.

End ViewScores.

(** ** The question form of the dashboard: [handleAdd] *)

Module QuestionForm.

Inductive QType := mcq | code.


(** An element of the [testCases] state. *)
Record CaseInput := {
  tc_input : jstr;
  tc_expectedOutput : jstr;
}.

(** An element of the [examples] state. *)
Record ExampleInput := {
  ex_input : jstr;
  ex_output : jstr;
  ex_explanation : jstr;
}.

(** The state of the form.  [startAt] and [endAt] hold the value of a
    date-time input: [None] is the empty string, [Some t] a text that
    [new Date] reads as the instant [t] (epoch milliseconds). *)
Record Form := {
  type : QType;
  title : jstr;
  description : jstr;
  difficulty : jstr;
  tags : jstr;
  options : list jstr;
  answer : jstr;
  codeTemplate : jstr;
  sampleInput : jstr;
  sampleOutput : jstr;
  testCases : list CaseInput;
  problemStatement : jstr;
  constraints : jstr;
  examples : list ExampleInput;
  selectedUsers : list string;
  selectAll : bool;
  startAt : option Z;
  endAt : option Z;
  showAddQuestion : bool;
  totalQuestions : Z;
}.

(** [!s.trim()] *)
Definition blank (s : jstr) : bool := bool_decide (trim s = []).

(** The messages of [alert]. *)
Inductive Alert :=
| TitleAndDescriptionRequired
| AllOptionsRequired
| CorrectAnswerRequired
| CodeTemplateRequired
| SampleInputOutputRequired
| ProblemStatementRequired
| ConstraintsRequired
| TestCasesIncomplete
| ExamplesIncomplete
| SelectAtLeastOneUser
| StartAndEndRequired
| QuestionAdded
| ErrorAddingQuestion.

(** The checks of [handleAdd], in order; the first that fails gives the
    alert and the handler returns. *)
Definition validate (f : Form) : option Alert :=
  if blank (title f) || blank (description f)
  then Some TitleAndDescriptionRequired
  else
    let checked_type :=
      match type f with
      | mcq =>
          if existsb blank (options f) then Some AllOptionsRequired
          else if blank (answer f) then Some CorrectAnswerRequired
          else None
      | code =>
          if blank (codeTemplate f) then Some CodeTemplateRequired
          else if blank (sampleInput f) || blank (sampleOutput f)
          then Some SampleInputOutputRequired
          else if blank (problemStatement f) then Some ProblemStatementRequired
          else if blank (constraints f) then Some ConstraintsRequired
          else if existsb (fun tc => blank (tc_input tc)
                                     || blank (tc_expectedOutput tc))
                          (testCases f)
          then Some TestCasesIncomplete
          else if existsb (fun ex => blank (ex_input ex) || blank (ex_output ex))
                          (examples f)
          then Some ExamplesIncomplete
          else None
      end in
    match checked_type with
    | Some a => Some a
    | None =>
        match selectedUsers f with
        | [] => Some SelectAtLeastOneUser
        | _ :: _ =>
            match startAt f, endAt f with
            | Some _, Some _ => None
            | _, _ => Some StartAndEndRequired
            end
        end
    end.

(** [s.split(",")]: always at least one piece. *)
Fixpoint split_comma (s : jstr) : list jstr :=
  match s with
  | [] => [[]]
  | c :: r =>
      if (c =? 44)%N then [] :: split_comma r
      else match split_comma r with
           | [] => [[c]]
           | p :: ps => (c :: p) :: ps
           end
  end.

(** An element of [data.examples]. *)
Record Example := {
  e_id : Z;
  e_input : jstr;
  e_output : jstr;
  e_explanation : jstr;
}.

(** The document [data] given to [addDoc]; [None] is an absent field. *)
Record Doc := {
  d_type : QType;
  d_title : jstr;
  d_description : jstr;
  d_difficulty : jstr;
  d_tags : list jstr;
  d_assignedTo : list string;
  d_createdAt : Z;
  d_options : option (list jstr);
  d_answer : option jstr;
  d_codeTemplate : option jstr;
  d_sampleInput : option jstr;
  d_sampleOutput : option jstr;
  d_testCases : option (list Coding.TestCase);
  d_problemStatement : option jstr;
  d_constraints : option jstr;
  d_examples : option (list Example);
  d_timeLimit : option Z;
  d_memoryLimit : option Z;
  d_startAt : option Z;
  d_endAt : option Z;
}.

(** [testCases.map((tc, i) => ({ id: i + 1, input, expectedOutput }))] *)
Definition numbered (tcs : list CaseInput) : list Coding.TestCase :=
  imap (fun i tc =>
          {| Coding.tc_id := Some (Z.of_nat i + 1);
             Coding.input := Some (tc_input tc);
             Coding.expectedOutput := Some (tc_expectedOutput tc) |}) tcs.

Definition numbered_examples (exs : list ExampleInput) : list Example :=
  imap (fun i ex =>
          {| e_id := Z.of_nat i + 1; e_input := ex_input ex;
             e_output := ex_output ex; e_explanation := ex_explanation ex |}) exs.

(** The document built from the form at instant [now]. *)
Definition build (now : Z) (f : Form) : Doc :=
  let code_only {A} (x : A) : option A :=
    match type f with mcq => None | code => Some x end in
  let mcq_only {A} (x : A) : option A :=
    match type f with mcq => Some x | code => None end in
  {| d_type := type f;
     d_title := title f;
     d_description := description f;
     d_difficulty := difficulty f;
     d_tags := map trim (split_comma (tags f));
     d_assignedTo := selectedUsers f;
     d_createdAt := now;
     d_options := mcq_only (options f);
     d_answer := mcq_only (answer f);
     d_codeTemplate := code_only (codeTemplate f);
     d_sampleInput := code_only (sampleInput f);
     d_sampleOutput := code_only (sampleOutput f);
     d_testCases := code_only (numbered (testCases f));
     d_problemStatement := code_only (problemStatement f);
     d_constraints := code_only (constraints f);
     d_examples := code_only (numbered_examples (examples f));
     d_timeLimit := code_only 2;
     d_memoryLimit := code_only 512;
     d_startAt := startAt f;
     d_endAt := endAt f |}.

(** [resetForm], followed by [setShowAddQuestion(false)] and
    [setTotalQuestions(prev => prev + 1)]; [type] is not reset. *)
Definition resetForm (f : Form) : Form :=
  {| type := type f;
     title := []; description := []; difficulty := utf16 "Easy"; tags := [];
     options := [[]; []; []; []]; answer := []; codeTemplate := [];
     sampleInput := []; sampleOutput := [];
     testCases := [{| tc_input := []; tc_expectedOutput := [] |}];
     problemStatement := []; constraints := [];
     examples := [{| ex_input := []; ex_output := []; ex_explanation := [] |}];
     selectedUsers := []; selectAll := false; startAt := None; endAt := None;
     showAddQuestion := showAddQuestion f;
     totalQuestions := totalQuestions f |}.

Definition added (f : Form) : Form :=
  let r := resetForm f in
  {| type := type r; title := title r; description := description r;
     difficulty := difficulty r; tags := tags r; options := options r;
     answer := answer r; codeTemplate := codeTemplate r;
     sampleInput := sampleInput r; sampleOutput := sampleOutput r;
     testCases := testCases r; problemStatement := problemStatement r;
     constraints := constraints r; examples := examples r;
     selectedUsers := selectedUsers r; selectAll := selectAll r;
     startAt := startAt r; endAt := endAt r;
     showAddQuestion := false;
     totalQuestions := totalQuestions f + 1 |}.

Inductive Effect :=
| ShowAlert (a : Alert)
| AddQuestion (d : Doc)
| AddActivityLog (t : QType) (title : jstr)
| ConsoleLog
| ConsoleError.

(** Whether the two writes succeed, and the clock. *)
Record Env := {
  write_ok : bool;
  log_ok : bool;
  now : Z;
}.

(** [handleAdd] *)
Definition handleAdd (env : Env) (f : Form) : Form * list Effect :=
  match validate f with
  | Some a => (f, [ShowAlert a])
  | None =>
      let data := build (now env) f in
      if write_ok env then
        (added f,
         [AddQuestion data; AddActivityLog (type f) (title f)]
           ++ (if log_ok env then [] else [ConsoleLog])
           ++ [ShowAlert QuestionAdded])
      else (f, [AddQuestion data; ConsoleError; ShowAlert ErrorAddingQuestion])
  end.

(** [handleUserSelect] *)
Definition handleUserSelect (uid : string) (f : Form) : list string :=
  let prev := selectedUsers f in
  if bool_decide (uid ∈ prev)
  then filter (fun id => id <> uid) prev
  else prev ++ [uid].


End QuestionForm.

(** ** Concrete sessions used to exercise the model *)

Module Scenario.
Import Coding.

(** The engine running [print(input())]: it prints the first stdin line. *)
Definition echo_engine (source : jstr) (lines : list jstr) : JsOutcome :=
  JsReturned [hd [] lines] [].

(** The engine on the candidate program [throw Symbol()]; any other
    program prints the first stdin line. *)
Definition symbol_engine (source : jstr) (lines : list jstr) : JsOutcome :=
  if bool_decide (source = utf16 "throw Symbol()") then JsThrew VSymbol
  else echo_engine source lines.

Definition env_of (engine : jstr -> list jstr -> JsOutcome) (ok : bool) (t : Z)
    : Env :=
  {| jsEngine := engine; pyodide := None; write_ok := ok; now := t |}.

Definition case (n : Z) (i e : string) : TestCase :=
  {| tc_id := Some n; input := Some (utf16 i); expectedOutput := Some (utf16 e) |}.

Definition question (qid : string) (tcs : list TestCase) (ends_at : option Z)
    : Question :=
  {| id := qid; type := "code"; assignedTo := Some ["alice"%string];
     startAt := None; endAt := ends_at; testCases := Some tcs;
     codeTemplate := Some (utf16 "print(input())") |}.

(** Three test cases of which the echo program passes the first and the
    third. *)
Definition three_cases : list TestCase :=
  [case 1 "1" "1"; case 2 "2" "3"; case 3 "3" "3"].

Definition two_cases : list TestCase := [case 1 "1" "1"; case 2 "2" "2"].

(** A loaded round in JavaScript, started, one second into the test. *)
Definition session (docs : list Question) (serverNow : Z)
    (saved : gmap string Submission) : Component :=
  fst (run [(env_of echo_engine true serverNow, SelectLang javascript);
            (env_of echo_engine true serverNow, SetAccepted true);
            (env_of echo_engine true serverNow, ClickStart FsGranted);
            (env_of echo_engine true serverNow, Second);
            (env_of echo_engine true serverNow, Tick)]
           (loadQuestions "alice" docs serverNow saved false)).

(** One question with three test cases, no end time. *)
Definition session_A : Component :=
  session [question "q1" three_cases None] 0 ∅.

(** Forty test cases of which the echo program passes the first 23. *)
Definition forty_cases : list TestCase :=
  map (fun n => case n "1" (if n <=? 23 then "1" else "2")) (seqZ 1 40).

(** One question with these forty test cases, no end time. *)
Definition session_forty : Component :=
  session [question "q1" forty_cases None] 0 ∅.

(** Two questions that end 2.5 s after the load; none submitted. *)
Definition session_two : Component :=
  session [question "q1" two_cases (Some 2500);
           question "q2" two_cases (Some 2500)] 0 ∅.

(** One question that ends 2.5 s after the load. *)
Definition session_one : Component :=
  session [question "q1" two_cases (Some 2500)] 0 ∅.

Definition mcq_question (qid ans : string) : MCQ.Question :=
  {| MCQ.id := qid; MCQ.title := qid; MCQ.options := ["a"; "b"]%string;
     MCQ.answer := Some ans |}.

Definition mcq_env (ok : bool) (t : Z) : MCQ.Env :=
  {| MCQ.fs_granted := true; MCQ.write_ok := ok; MCQ.now := t |}.

(** An MCQ session, started in full-screen. *)
Definition mcq_session (qs : list MCQ.Question) : MCQ.Component :=
  fst (MCQ.run [(mcq_env true 0, MCQ.SetAccepted true);
                (mcq_env true 0, MCQ.ClickStart)]
               (MCQ.initial (Some "alice"%string) qs MCQ.no_response false)).

End Scenario.

(** * Properties *)

(** A closed decidable proposition, settled by evaluating its decision. *)
Ltac decide_by_compute :=
match goal with
| |- ¬ _ => apply (proj1 (bool_decide_eq_false _)); vm_compute; reflexivity
| |- _ => apply (proj1 (bool_decide_eq_true _)); vm_compute; reflexivity
end.

(** ** Trimming *)

Section TrimFacts.

Lemma trimStart_split (s : jstr) :
  exists a, s = a ++ trimStart s /\ forallb is_space a = true.
Proof.
  induction s as [|c r [a [Hs Ha]]]; simpl.
  - exists []. split; reflexivity.
  - destruct (is_space c) eqn:Hc.
    + exists (c :: a). simpl. rewrite Hc, Ha. split; [congruence | reflexivity].
    + exists []. split; reflexivity.
Qed.

Lemma trimStart_head (s : jstr) (c : N) (r : jstr) :
  trimStart s = c :: r -> is_space c = false.
Proof.
  induction s as [|d t IH]; simpl; [discriminate |].
  destruct (is_space d) eqn:Hd; [exact IH |].
  intros [= -> _]. exact Hd.
Qed.

Lemma trimStart_idem (s : jstr) : trimStart (trimStart s) = trimStart s.
Proof.
  destruct (trimStart s) as [|c r] eqn:E; [reflexivity |].
  simpl. now rewrite (trimStart_head _ _ _ E).
Qed.

Lemma trimStart_spaces (a s : jstr) :
  forallb is_space a = true -> trimStart (a ++ s) = trimStart s.
Proof.
  induction a as [|c a IH]; simpl; [reflexivity |].
  intros [Hc Ha]%andb_prop. rewrite Hc. auto.
Qed.

Lemma trimStart_keep (c : N) (r : jstr) :
  is_space c = false -> trimStart (c :: r) = c :: r.
Proof. intros H. simpl. now rewrite H. Qed.

Lemma forallb_rev {A} (f : A -> bool) (l : list A) :
  forallb f (rev l) = forallb f l.
Proof.
  induction l as [|x l IH]; simpl; [reflexivity |].
  rewrite forallb_app, IH. simpl. rewrite andb_true_r. apply andb_comm.
Qed.

Lemma trimEnd_split (s : jstr) :
  exists b, s = trimEnd s ++ b /\ forallb is_space b = true.
Proof.
  destruct (trimStart_split (rev s)) as [a [Hs Ha]].
  exists (rev a). unfold trimEnd. split.
  - rewrite <- rev_app_distr, <- Hs. symmetry. apply rev_involutive.
  - now rewrite forallb_rev.
Qed.

(** [trim] removes a run of white space at each end and nothing else. *)
Lemma trim_split (s : jstr) :
  exists a b, s = a ++ trim s ++ b
              /\ forallb is_space a = true /\ forallb is_space b = true.
Proof.
  destruct (trimStart_split s) as [a [Hs Ha]].
  destruct (trimEnd_split (trimStart s)) as [b [Hb Hbs]].
  exists a, b. unfold trim. now rewrite <- Hb.
Qed.

Lemma trimEnd_last (s r : jstr) (c : N) :
  trimEnd s = r ++ [c] -> is_space c = false.
Proof.
  unfold trimEnd. intros H.
  apply (f_equal (@rev N)) in H.
  rewrite rev_involutive, rev_app_distr in H. simpl in H.
  exact (trimStart_head _ _ _ H).
Qed.

Lemma trimStart_snoc (l : jstr) (d : N) :
  is_space d = false -> trimStart (l ++ [d]) = trimStart l ++ [d].
Proof.
  intros Hd. induction l as [|c l IH]; simpl.
  - now rewrite Hd.
  - destruct (is_space c); [exact IH | reflexivity].
Qed.

Lemma trimStart_all_space (b : jstr) :
  forallb is_space b = true -> trimStart b = [].
Proof.
  intros H. rewrite <- (app_nil_r b). now rewrite trimStart_spaces.
Qed.

Lemma trim_first (s r : jstr) (c : N) :
  trim s = c :: r -> is_space c = false.
Proof.
  unfold trim. destruct (trimStart s) as [|d t] eqn:E; [discriminate |].
  pose proof (trimStart_head _ _ _ E) as Hd.
  unfold trimEnd. simpl. rewrite (trimStart_snoc _ _ Hd), rev_app_distr.
  simpl. now intros [= <- _].
Qed.

Lemma trim_last (s r : jstr) (c : N) :
  trim s = r ++ [c] -> is_space c = false.
Proof. unfold trim. apply trimEnd_last. Qed.

(** Conversely, a text between two runs of white space whose own ends are
    not white space is what [trim] returns. *)
Lemma trim_unique (a m b : jstr) :
  forallb is_space a = true -> forallb is_space b = true ->
  (m = [] \/ (exists c r, m = c :: r /\ is_space c = false)
             /\ (exists r c, m = r ++ [c] /\ is_space c = false)) ->
  trim (a ++ m ++ b) = m.
Proof.
  intros Ha Hb Hm. unfold trim. rewrite (trimStart_spaces _ _ Ha).
  destruct Hm as [-> | [[c [r [-> Hc]]] [r' [c' [Hr Hc']]]]].
  - simpl. now rewrite (trimStart_all_space _ Hb).
  - change ((c :: r) ++ b) with (c :: (r ++ b)).
    rewrite trimStart_keep by assumption.
    change (c :: r ++ b) with ((c :: r) ++ b). rewrite Hr.
    unfold trimEnd. rewrite !rev_app_distr. simpl.
    rewrite trimStart_spaces by now rewrite forallb_rev.
    simpl. rewrite Hc'. simpl. now rewrite rev_involutive.
Qed.

End TrimFacts.

(** ** The adapter and the evaluator of the coding round *)

Section EvaluatorFacts.
Import Coding.

Lemma str_eqb_true (a b : jstr) : str_eqb a b = true <-> a = b.
Proof. unfold str_eqb. apply bool_decide_eq_true. Qed.

Lemma judge_passed (tc : TestCase) (r : RunResult) :
  passed (judge tc r) = true
  <-> status r = OK /\ trim (stdout r) = trim (or_empty (expectedOutput tc)).
Proof.
  unfold judge. simpl. rewrite andb_true_iff, bool_decide_eq_true, str_eqb_true.
  reflexivity.
Qed.

(** What the [catch] block returns when the thrown value converts. *)
Lemma caught_converts (e : JsVal) (t : jstr) :
  toString (or_else (opt_message e) e) = Some t ->
  caught e = Normal {| stdout := []; stderr := utf16 "Runtime Error: " ++ t;
                       status := RuntimeError |}.
Proof. intros H. unfold caught. now rewrite H. Qed.

(** An [Error] with a non-empty message is reported with that message. *)
Lemma caught_Error (msg : jstr) (shown : option jstr) :
  caught (VObject (VPrim true msg) shown)
  = Normal {| stdout := []; stderr := utf16 "Runtime Error: " ++ msg;
              status := RuntimeError |}.
Proof. reflexivity. Qed.

Variable env : Env.
Variables (source : jstr) (l : Lang).

Let call (tc : TestCase) : Effect := Exec l source (or_empty (input tc)).
Let returns (tc : TestCase) (r : RunResult) : Prop :=
  runLocal env source l (or_empty (input tc)) = Normal r.

(** When every call of [runLocal] returns, the loop of [handleRun] yields
    one verdict per test case, in order, after one call per test case. *)
Lemma run_loop_returns (tcs : list TestCase) (rs : list RunResult)
    (acc : list Verdict) :
  Forall2 returns tcs rs ->
  run_loop env source l tcs acc
  = (Normal (acc ++ zip_with judge tcs rs), map call tcs).
Proof.
  intros H. revert acc.
  induction H as [|tc r tcs rs Hr _ IH]; intros acc; simpl.
  - now rewrite app_nil_r.
  - unfold returns in Hr. rewrite Hr, IH, <- app_assoc. reflexivity.
Qed.

(** An exception leaving [runLocal] ends the loop at that test case. *)
Lemma run_loop_throws (pre post : list TestCase) (tc : TestCase)
    (rs : list RunResult) (acc : list Verdict) (e : JsVal) :
  Forall2 returns pre rs ->
  runLocal env source l (or_empty (input tc)) = Throw e ->
  run_loop env source l (pre ++ tc :: post) acc
  = (Throw e, map call pre ++ [call tc]).
Proof.
  intros H He. revert acc.
  induction H as [|tc' r pre rs Hr _ IH]; intros acc; simpl.
  - now rewrite He.
  - unfold returns in Hr. rewrite Hr, IH. reflexivity.
Qed.

Lemma judge_failed_text (tc : TestCase) (r : RunResult) :
  negb (bool_decide (status r = OK))
  || negb (str_eqb (output (judge tc r)) (expected (judge tc r)))
  = negb (passed (judge tc r)).
Proof. simpl. now rewrite negb_andb. Qed.

Lemma submit_loop_returns (tcs : list TestCase) (rs : list RunResult)
    (t : Tally) :
  Forall2 returns tcs rs ->
  submit_loop env source l tcs t
  = (Normal (tally_after t (zip_with judge tcs rs)), map call tcs).
Proof.
  intros H. revert t.
  induction H as [|tc r tcs rs Hr _ IH]; intros t.
  - simpl. unfold tally_after, count_passed. simpl.
    rewrite app_nil_r, Z.add_0_r. now destruct t.
  - cbn [submit_loop]. unfold returns in Hr. rewrite Hr.
    rewrite judge_failed_text, IH. cbn [zip_with map].
    f_equal. f_equal. unfold tally_after, count_passed.
    generalize (judge tc r) as v. intros v.
    cbn [collected passedCount resultText forallb List.filter].
    rewrite <- app_assoc. cbn [app].
    destruct (passed v) eqn:E; cbn [negb andb length]; f_equal; try lia.
    now destruct (forallb passed (zip_with judge tcs rs)).
Qed.

Lemma submit_loop_throws (pre post : list TestCase) (tc : TestCase)
    (rs : list RunResult) (t : Tally) (e : JsVal) :
  Forall2 returns pre rs ->
  runLocal env source l (or_empty (input tc)) = Throw e ->
  submit_loop env source l (pre ++ tc :: post) t
  = (Throw e, map call pre ++ [call tc]).
Proof.
  intros H He. revert t.
  induction H as [|tc' r pre rs Hr _ IH]; intros t; cbn [submit_loop app].
  - now rewrite He.
  - unfold returns in Hr. rewrite Hr, IH. reflexivity.
Qed.

Lemma count_passed_bounds (vs : list Verdict) :
  0 <= count_passed vs <= Z.of_nat (length vs).
Proof.
  unfold count_passed. pose proof (List.filter_length_le passed vs). lia.
Qed.

End EvaluatorFacts.

(** ** Output comparison *)

Section Comparison.
Import Coding.

Let expecting (e : jstr) : TestCase :=
  {| tc_id := None; input := None; expectedOutput := Some e |}.
Let printed (o : jstr) (st : Status) : RunResult :=
  {| stdout := o; stderr := []; status := st |}.

(** C4: a test case passes exactly when the status is OK and the output
    equals the expected output once both are trimmed; trimming removes a
    run of white space at each end of the whole text and nothing else, so
    the comparison is sensitive to inner white space, to the ends of
    inner lines, to letter case and to numeric spelling.  An output of 5
    followed by a newline or by a space passes against 5; 5 followed by a
    tab and 5 followed by a space are different texts that trim to the same
    text, so one passes against the other. *)
Theorem C4_pass_iff_ok_and_trimmed_equal :
  (forall tc r,
      passed (judge tc r) = true
      <-> status r = OK
          /\ trim (stdout r) = trim (or_empty (expectedOutput tc)))
  /\ (forall s, exists a b,
         s = a ++ trim s ++ b
         /\ forallb is_space a = true /\ forallb is_space b = true
         /\ (forall c r, trim s = c :: r -> is_space c = false)
         /\ (forall r c, trim s = r ++ [c] -> is_space c = false))
  /\ passed (judge (expecting (utf16 "5")) (printed (utf16 "5" ++ [10%N]) OK)) = true
  /\ passed (judge (expecting (utf16 "5")) (printed (utf16 "5 ") OK)) = true
  /\ (utf16 "5" ++ [9%N] <> utf16 "5 "
      /\ trim (utf16 "5" ++ [9%N]) = trim (utf16 "5 ")
      /\ passed (judge (expecting (utf16 "5 ")) (printed (utf16 "5" ++ [9%N]) OK)) = true)
  /\ passed (judge (expecting (utf16 "5 6")) (printed (utf16 "5  6") OK)) = false
  /\ passed (judge (expecting (utf16 "1" ++ [10%N] ++ utf16 "2"))
                   (printed (utf16 "1 " ++ [10%N] ++ utf16 "2") OK)) = false
  /\ passed (judge (expecting (utf16 "Yes")) (printed (utf16 "yes") OK)) = false
  /\ passed (judge (expecting (utf16 "5")) (printed (utf16 "5.0") OK)) = false
  /\ passed (judge (expecting (utf16 "5")) (printed (utf16 "5") RuntimeError)) = false.
Proof.
  split; [exact judge_passed |].
  split.
  { intros s. destruct (trim_split s) as [a [b [Hs [Ha Hb]]]].
    exists a, b. repeat split; try assumption.
    - intros c r. apply trim_first.
    - intros r c. apply trim_last. }
  repeat split; try reflexivity.
  discriminate.
Qed.

End Comparison.

(** ** The adapter boundary *)

Section Adapter.
Import Coding.

(** C9: a program that throws a Symbol makes the [catch] block of
    [runLocal] itself throw, while it builds the message: the exception
    leaves [runLocal] instead of becoming a Runtime Error result. *)
Theorem C9_symbol_leaves_runLocal (env : Env) (source inStdin : jstr) :
  jsEngine env source (split_nl inStdin) = JsThrew VSymbol ->
  runLocal env source javascript inStdin = Throw conversion_TypeError.
Proof. intros H. unfold runLocal. now rewrite H. Qed.

Lemma C9_symbol_leaves_runLocal_witness :
  jsEngine (Scenario.env_of Scenario.symbol_engine true 0)
           (utf16 "throw Symbol()") (split_nl (utf16 "1"))
  = JsThrew VSymbol
  /\ runLocal (Scenario.env_of Scenario.symbol_engine true 0)
              (utf16 "throw Symbol()") javascript (utf16 "1")
     = Throw conversion_TypeError.
Proof.
  split; [reflexivity |].
  apply C9_symbol_leaves_runLocal. reflexivity.
Defined.

(** What does hold at the boundary: a thrown value that converts to a
    string becomes a Runtime Error result carrying that string. *)
Lemma runLocal_js_catches (env : Env) (source inStdin : jstr) (e : JsVal)
    (t : jstr) :
  jsEngine env source (split_nl inStdin) = JsThrew e ->
  toString (or_else (opt_message e) e) = Some t ->
  runLocal env source javascript inStdin
  = Normal {| stdout := []; stderr := utf16 "Runtime Error: " ++ t;
              status := RuntimeError |}.
Proof. intros H Ht. unfold runLocal. rewrite H. now apply caught_converts. Qed.

Lemma runLocal_py_catches (env : Env) py (source inStdin : jstr) (e : JsVal)
    (t : jstr) :
  pyodide env = Some py ->
  py source inStdin = PyRaised e ->
  toString (or_else (opt_message e) e) = Some t ->
  runLocal env source python inStdin
  = Normal {| stdout := []; stderr := utf16 "Runtime Error: " ++ t;
              status := RuntimeError |}.
Proof.
  intros Hp H Ht. unfold runLocal. rewrite Hp, H. now apply caught_converts.
Qed.

End Adapter.

(** ** [submit] and [handleRun] *)

Section Submit.
Import Coding.

Variable env : Env.

Let call (cl : View) (tc : TestCase) : Effect :=
  Exec (langId cl) (code cl) (or_empty (input tc)).

Lemma submit_guard (cl : View) (c : Component) (q : Question) :
  currentQuestion cl = Some q -> id q ∈ submittedQuestions cl ->
  submit env cl c = (c, []).
Proof.
  intros Hq Hin. unfold submit. rewrite Hq.
  destruct (uid cl); [| reflexivity].
  now rewrite bool_decide_eq_true_2.
Qed.

(** A submission that runs to the end: every test case is executed, the
    document is written, the verdicts are shown and the question joins
    [submittedQuestions]. *)
Lemma submit_written (cl : View) (c : Component) (q : Question) (u : string)
    (rs : list RunResult) :
  currentQuestion cl = Some q -> uid cl = Some u ->
  id q ∉ submittedQuestions cl -> write_ok env = true ->
  Forall2 (returns_for env cl) (default [] (testCases q)) rs ->
  let vs := zip_with judge (default [] (testCases q)) rs in
  submit env cl c
  = (upd_view (set_loading false)
       (upd_view (add_submitted (id q))
          (upd_view (set_perTestResults vs)
             (set_store (<[id q := doc_of env cl q vs]> (store c))
                (upd_view (set_loading true) c)))),
     map (call cl) (default [] (testCases q))
       ++ [SetDoc (id q) (doc_of env cl q vs)] ++ audio (soundEnabled cl)).
Proof.
  intros Hq Hu Hnin Hw Hrs vs. unfold submit. rewrite Hq, Hu.
  rewrite bool_decide_eq_false_2 by assumption.
  rewrite (submit_loop_returns env (code cl) (langId cl) _ rs) by exact Hrs.
  rewrite Hw. reflexivity.
Qed.

End Submit.

(** ** Scoring of a coding submission *)

Section Scoring.
Import Coding.

Lemma percentage_of_zero (p : Z) : percentage_of p 0 = 0.
Proof. reflexivity. Qed.

(** On doubles the rounding agrees with exact rounding half up of
    [100 * p / t] for every total below 40 ... *)
Lemma percentage_exact_below_40 (p t : Z) :
  0 <= p <= t -> 0 < t < 40 ->
  percentage_of p t = (200 * p + t) / (2 * t).
Proof.
  intros Hp Ht.
  assert (forallb (fun t => forallb (fun p =>
            percentage_of p t =? (200 * p + t) / (2 * t)) (seqZ 0 (t + 1)))
            (seqZ 1 39) = true) as H by (vm_compute; reflexivity).
  rewrite forallb_forall in H.
  specialize (H t). rewrite forallb_forall in H.
  apply Z.eqb_eq, H.
  - apply list_elem_of_In, elem_of_seqZ. lia.
  - apply list_elem_of_In, elem_of_seqZ. lia.
Qed.

(** ... and first departs from it at 23 passed of 40, where the double
    product is just below 57.5. *)
Lemma percentage_23_of_40 :
  percentage_of 23 40 = 57 /\ (200 * 23 + 40) / (2 * 40) = 58.
Proof. split; vm_compute; reflexivity. Qed.

(** Up to a total of 200 the stored value is the exact rounding or one
    less. *)
Lemma percentage_within_one_below_200 (p t : Z) :
  0 <= p <= t -> 0 < t <= 200 ->
  (200 * p + t) / (2 * t) - 1 <= percentage_of p t <= (200 * p + t) / (2 * t).
Proof.
  intros Hp Ht.
  assert (forallb (fun t => forallb (fun p =>
            ((200 * p + t) / (2 * t) - 1 <=? percentage_of p t)
            && (percentage_of p t <=? (200 * p + t) / (2 * t)))
            (seqZ 0 (t + 1))) (seqZ 1 200) = true) as H
    by (vm_compute; reflexivity).
  rewrite forallb_forall in H.
  specialize (H t). rewrite forallb_forall in H.
  specialize (H ltac:(apply list_elem_of_In, elem_of_seqZ; lia) p
                ltac:(apply list_elem_of_In, elem_of_seqZ; lia)).
  apply andb_true_iff in H. destruct H as [H1 H2].
  apply Z.leb_le in H1, H2. lia.
Qed.

(** C3: the document a submission writes carries the number of test cases,
    the number of passed verdicts and the percentage; the percentage is 0
    for no test cases (nothing is divided), and the result is Passed
    exactly when every verdict passed.  With three test cases of which the
    first and third pass, the document has passed = 2, total = 3,
    percentage = 67 and result Failed.  The percentage is
    [Math.round((passed / total) * 100)] evaluated on doubles, and that is
    not always the rounding of [passed / total * 100]: it is for every
    total below 40, it is that value or one less up to a total of 200, and
    for 23 passed of 40 the document says 57 where 57.5 rounds to 58. *)
Theorem C3_submission_percentage (env : Env) (cl : View) (c : Component)
    (q : Question) (u : string) (rs : list RunResult) :
  currentQuestion cl = Some q -> uid cl = Some u ->
  id q ∉ submittedQuestions cl -> write_ok env = true ->
  Forall2 (returns_for env cl) (default [] (testCases q)) rs ->
  let vs := zip_with judge (default [] (testCases q)) rs in
  exists doc,
    store (fst (submit env cl c)) !! id q = Some doc
    /\ In (SetDoc (id q) doc) (snd (submit env cl c))
    /\ s_total doc = Z.of_nat (length (default [] (testCases q)))
    /\ s_passed doc = count_passed vs
    /\ 0 <= s_passed doc <= s_total doc
    /\ (s_total doc = 0 -> s_percentage doc = 0)
    /\ (0 < s_total doc < 40 ->
        s_percentage doc
        = (200 * s_passed doc + s_total doc) / (2 * s_total doc))
    /\ (0 < s_total doc <= 200 ->
        (200 * s_passed doc + s_total doc) / (2 * s_total doc) - 1
        <= s_percentage doc
        <= (200 * s_passed doc + s_total doc) / (2 * s_total doc))
    /\ (s_passed doc = 23 -> s_total doc = 40 ->
        s_percentage doc = 57 /\ (200 * 23 + 40) / (2 * 40) = 58)
    /\ (s_result doc = Passed <-> forallb passed vs = true)
    /\ (map passed vs = [true; false; true] ->
        s_passed doc = 2 /\ s_total doc = 3 /\ s_percentage doc = 67
        /\ s_result doc = FailedText).
Proof.
  intros Hq Hu Hnin Hw Hrs vs.
  rewrite (submit_written env cl c q u rs Hq Hu Hnin Hw Hrs). fold vs.
  exists (doc_of env cl q vs). cbn [fst snd].
  assert (Hlen : length vs = length (default [] (testCases q))).
  { unfold vs. rewrite length_zip_with. apply Forall2_length in Hrs. lia. }
  assert (Hb : 0 <= s_passed (doc_of env cl q vs) <= s_total (doc_of env cl q vs)).
  { cbn [doc_of s_passed s_total tally_after passedCount].
    pose proof (count_passed_bounds vs). lia. }
  assert (Hpc : s_percentage (doc_of env cl q vs)
                = percentage_of (s_passed (doc_of env cl q vs))
                                (s_total (doc_of env cl q vs))) by reflexivity.
  split; [cbn; apply lookup_insert_eq |].
  split; [apply in_or_app; right; left; reflexivity |].
  split; [reflexivity |].
  split; [reflexivity |].
  split; [exact Hb |].
  split; [intros H0; rewrite Hpc, H0; apply percentage_of_zero |].
  split; [intros H0; rewrite Hpc; now apply percentage_exact_below_40 |].
  split; [intros H0; rewrite Hpc; now apply percentage_within_one_below_200 |].
  split; [intros H1 H2; rewrite Hpc, H1, H2; apply percentage_23_of_40 |].
  split.
  { cbn [doc_of s_result tally_after resultText].
    destruct (forallb passed vs); split; congruence. }
  intros Hp.
  assert (length vs = 3%nat) as H3
    by (rewrite <- (length_map passed), Hp; reflexivity).
  cbn [doc_of s_passed s_total s_percentage s_result tally_after
       passedCount resultText].
  rewrite <- Hlen, H3.
  assert (count_passed vs = 2) as ->.
  { unfold count_passed.
    destruct vs as [|v1 [|v2 [|v3 [|]]]]; try discriminate.
    injection Hp as H1 H2 H3'. simpl. now rewrite H1, H2, H3'. }
  assert (forallb passed vs = false) as ->.
  { destruct vs as [|v1 [|v2 [|v3 [|]]]]; try discriminate.
    injection Hp as H1 H2 H3'. simpl. now rewrite H1, H2. }
  repeat split; reflexivity.
Qed.

Lemma C3_submission_percentage_witness :
  let env := Scenario.env_of Scenario.echo_engine true 7 in
  (exists doc,
     store (fst (submit env (view Scenario.session_A) Scenario.session_A))
       !! "q1"%string = Some doc
     /\ s_passed doc = 2 /\ s_total doc = 3 /\ s_percentage doc = 67
     /\ s_result doc = FailedText)
  /\ (exists doc,
        store (fst (submit env (view Scenario.session_forty) Scenario.session_forty))
          !! "q1"%string = Some doc
        /\ s_passed doc = 23 /\ s_total doc = 40 /\ s_percentage doc = 57).
Proof.
  intros env. split.
  - destruct (C3_submission_percentage env (view Scenario.session_A)
                Scenario.session_A
                (Scenario.question "q1" Scenario.three_cases None) "alice"
                [ {| stdout := utf16 "1"; stderr := []; status := OK |};
                  {| stdout := utf16 "2"; stderr := []; status := OK |};
                  {| stdout := utf16 "3"; stderr := []; status := OK |} ])
      as (doc & Hs & _ & _ & _ & _ & _ & _ & _ & _ & _ & H).
    + reflexivity.
    + reflexivity.
    + decide_by_compute.
    + reflexivity.
    + repeat constructor.
    + exists doc. split; [exact Hs |]. apply H. reflexivity.
  - destruct (C3_submission_percentage env (view Scenario.session_forty)
                Scenario.session_forty
                (Scenario.question "q1" Scenario.forty_cases None) "alice"
                (replicate 40 {| stdout := utf16 "1"; stderr := []; status := OK |}))
      as (doc & Hs & _ & Ht & Hp & _ & _ & _ & _ & H & _).
    + reflexivity.
    + reflexivity.
    + decide_by_compute.
    + reflexivity.
    + vm_compute. repeat constructor.
    + assert (H23 : s_passed doc = 23) by (rewrite Hp; vm_compute; reflexivity).
      assert (H40 : s_total doc = 40) by (rewrite Ht; reflexivity).
      exists doc. split; [exact Hs |]. split; [exact H23 |]. split; [exact H40 |].
      apply (H H23 H40).
Defined.

End Scoring.

(** ** One verdict per test case *)

Section Verdicts.
Import Coding.

(** When every call of [runLocal] returns (with whatever status),
    [handleRun] shows exactly one verdict per test case, in order, the
    verdict of a case being a function of that case and its own result, and
    all cases are executed. *)
Lemma handleRun_one_verdict_per_case (env : Env) (cl : View) (c : Component)
    (q : Question) (rs : list RunResult) :
  currentQuestion cl = Some q ->
  Forall2 (returns_for env cl) (default [] (testCases q)) rs ->
  perTestResults (view (fst (handleRun env cl c)))
  = zip_with judge (default [] (testCases q)) rs
  /\ snd (handleRun env cl c)
     = audio (soundEnabled cl)
       ++ map (fun tc => Exec (langId cl) (code cl) (or_empty (input tc)))
              (default [] (testCases q)).
Proof.
  intros Hq Hrs. unfold handleRun. rewrite Hq.
  rewrite (run_loop_returns env (code cl) (langId cl) _ rs) by exact Hrs.
  cbn [fst snd app]. split; reflexivity.
Qed.

(** C5: with two test cases and the candidate program [throw Symbol()],
    the exception that leaves [runLocal] on the first case ends the loop:
    Run executes one case only, shows no verdict and stays in the running
    state with an unhandled rejection; Submit executes one case only and
    writes nothing. *)
Theorem C5_thrown_symbol_ends_the_loop :
  let env := Scenario.env_of Scenario.symbol_engine true 0 in
  let c := fst (step env (Edit (utf16 "throw Symbol()")) Scenario.session_one) in
  (exists q, currentQuestion (view c) = Some q
             /\ length (default [] (testCases q)) = 2%nat)
  /\ perTestResults (view (fst (step env ClickRun c))) = []
  /\ runningNow (view (fst (step env ClickRun c))) = true
  /\ snd (step env ClickRun c)
     = [PlayAudio; Exec javascript (utf16 "throw Symbol()") (utf16 "1");
        UnhandledRejection conversion_TypeError]
  /\ perTestResults (view (fst (step env ClickSubmit c))) = []
  /\ store (fst (step env ClickSubmit c)) !! "q1"%string = None
  /\ snd (step env ClickSubmit c)
     = [Exec javascript (utf16 "throw Symbol()") (utf16 "1"); ConsoleError].
Proof.
  intros env c. split.
  - exists (Scenario.question "q1" Scenario.two_cases (Some 2500)).
    split; vm_compute; reflexivity.
  - repeat split; vm_compute; reflexivity.
Qed.

(** The same session with a program that returns on every case: two
    verdicts, in order, the failing case not affecting the other. *)
Lemma echo_two_verdicts :
  let env := Scenario.env_of Scenario.echo_engine true 0 in
  map passed (perTestResults (view (fst (step env ClickRun Scenario.session_one))))
  = [true; true]
  /\ map passed (perTestResults (view (fst (step env ClickRun Scenario.session_A))))
     = [true; false; true].
Proof. split; vm_compute; reflexivity. Qed.

End Verdicts.

(** ** Re-submission *)

Section Resubmission.
Import Coding.

Lemma commit_view (c : Component) : view (commit c) = view c.
Proof. unfold commit. now destruct (bool_decide _). Qed.

Lemma commit_store (c : Component) : store (commit c) = store c.
Proof. unfold commit. now destruct (bool_decide _). Qed.

(** C7: [submit] for a question that is already in [submittedQuestions]
    returns at its guard: the component, and with it the stored document,
    is unchanged and there is no effect, neither a test execution nor a
    write; the same holds for the Submit button as an event. *)
Theorem C7_submit_again_is_noop (env : Env) (cl : View) (c : Component)
    (q : Question) :
  currentQuestion cl = Some q -> id q ∈ submittedQuestions cl ->
  submit env cl c = (c, [])
  /\ (cl = view c ->
      snd (step env ClickSubmit c) = []
      /\ store (fst (step env ClickSubmit c)) = store c
      /\ view (fst (step env ClickSubmit c)) = view c).
Proof.
  intros Hq Hin. split; [now apply (submit_guard env cl c q) |].
  intros ->. unfold step, handle.
  rewrite (submit_guard env (view c) c q Hq Hin). cbn [fst snd].
  now rewrite commit_view, commit_store.
Qed.

Lemma C7_submit_again_is_noop_witness :
  let env1 := Scenario.env_of Scenario.echo_engine true 7 in
  let env2 := Scenario.env_of Scenario.echo_engine true 9 in
  let c1 := fst (step env1 ClickSubmit Scenario.session_A) in
  is_Some (store c1 !! "q1"%string)
  /\ submit env2 (view c1) c1 = (c1, [])
  /\ store (fst (step env2 ClickSubmit c1)) = store c1.
Proof.
  intros env1 env2 c1.
  destruct (C7_submit_again_is_noop env2 (view c1) c1
              (Scenario.question "q1" Scenario.three_cases None))
    as [H1 H2].
  - reflexivity.
  - decide_by_compute.
  - split; [vm_compute; eauto |]. split; [exact H1 |].
    now destruct (H2 eq_refl) as [_ [H _]].
Defined.

End Resubmission.

(** ** The countdown *)

Section Countdown.
Import Coding.

(** *** What the handlers leave alone *)

Lemma submit_remainingSec (env : Env) (cl : View) (c : Component) :
  remainingSec (view (fst (submit env cl c))) = remainingSec (view c).
Proof.
  unfold submit.
  destruct (currentQuestion cl); [| reflexivity].
  destruct (uid cl); [| reflexivity].
  destruct (bool_decide _); [reflexivity |].
  destruct (submit_loop _ _ _ _ _) as [[t | e] fx]; [| reflexivity].
  destruct (write_ok env); reflexivity.
Qed.

Lemma handleRun_remainingSec (env : Env) (cl : View) (c : Component) :
  remainingSec (view (fst (handleRun env cl c))) = remainingSec (view c).
Proof.
  unfold handleRun.
  destruct (currentQuestion cl); [| reflexivity].
  destruct (run_loop _ _ _ _ _) as [[vs | e] fx]; [| reflexivity].
  destruct vs; reflexivity.
Qed.

Lemma tick_remainingSec (env : Env) (c : Component) (r : Z) :
  (forall s, remainingSec (view c) = Some s -> 0 <= s) ->
  remainingSec (view (fst (tick env c))) = Some r -> 0 <= r.
Proof.
  intros Hc. unfold tick.
  destruct (countdown c) as [cl |]; [| apply Hc].
  destruct (remainingSec (view c)) as [s |] eqn:Hs;
    [| cbn [fst]; rewrite Hs; discriminate].
  destruct (s - 1 <=? 0) eqn:Hn.
  - destruct (forced env cl _) as [c3 fx2].
    cbn. intros [= <-]. lia.
  - apply Z.leb_gt in Hn. cbn. intros [= <-]. lia.
Qed.

Lemma handle_remainingSec (env : Env) (ev : Event) (c : Component) (r : Z) :
  (forall s, remainingSec (view c) = Some s -> 0 <= s) ->
  remainingSec (view (fst (handle env ev c))) = Some r -> 0 <= r.
Proof.
  intros Hc. destruct ev; cbn [handle].
  - now apply tick_remainingSec.
  - destruct (started (view c)); apply Hc.
  - apply Hc.
  - apply Hc.
  - apply Hc.
  - apply Hc.
  - rewrite handleRun_remainingSec. apply Hc.
  - rewrite submit_remainingSec. apply Hc.
  - apply Hc.
  - apply Hc.
  - destruct fs; apply Hc.
  - destruct fs; apply Hc.
  - apply Hc.
  - destruct (started (view c) && hidden); apply Hc.
  - destruct (started (view c)); apply Hc.
  - destruct (started (view c)); [destruct inFullscreen |]; apply Hc.
Qed.

Lemma step_remainingSec (env : Env) (ev : Event) (c : Component) (r : Z) :
  (forall s, remainingSec (view c) = Some s -> 0 <= s) ->
  remainingSec (view (fst (step env ev c))) = Some r -> 0 <= r.
Proof.
  intros Hc. unfold step.
  pose proof (handle_remainingSec env ev c r Hc) as H.
  destruct (handle env ev c) as [c' fx]. cbn [fst] in *.
  now rewrite commit_view.
Qed.

Lemma run_remainingSec (evs : list (Env * Event)) (c : Component) (r : Z) :
  (forall s, remainingSec (view c) = Some s -> 0 <= s) ->
  remainingSec (view (fst (run evs c))) = Some r -> 0 <= r.
Proof.
  revert c. induction evs as [| [env ev] evs IH]; intros c Hc.
  - apply Hc.
  - cbn [run].
    pose proof (fun s => step_remainingSec env ev c s Hc) as H1.
    destruct (step env ev c) as [c1 fx1]. cbn [fst] in H1.
    specialize (IH c1 H1).
    destruct (run evs c1) as [c2 fx2]. exact IH.
Qed.

(** *** The initial value *)

Lemma earliest_least (e : Z) (es : list Z) :
  In (earliest e es) (e :: es) /\ Forall (fun t => earliest e es <= t) (e :: es).
Proof.
  unfold earliest. induction es as [|x es [IHin IHle]]; cbn [foldr].
  - split; [now left | repeat constructor; lia].
  - split.
    + destruct (Z.min_spec x (foldr Z.min e es)) as [[_ ->] | [_ ->]].
      * right. now left.
      * destruct IHin as [<- | Hin]; [now left | right; now right].
    + inversion IHle as [| ? ? He Hes]; subst.
      constructor; [lia |]. constructor; [lia |].
      eapply Forall_impl; [exact Hes |]. cbn. intros. lia.
Qed.

Lemma baseRemaining_spec (qs : list Question) (serverNow r : Z) :
  baseRemaining qs serverNow = Some r ->
  exists t, In t (ends qs)
            /\ Forall (fun t' => t <= t') (ends qs)
            /\ r = Z.max 0 ((t - serverNow) / 1000).
Proof.
  unfold baseRemaining. destruct (ends qs) as [|e es]; [discriminate |].
  intros [= <-]. exists (earliest e es).
  destruct (earliest_least e es) as [Hin Hle]. auto.
Qed.

Lemma baseRemaining_None (qs : list Question) (serverNow : Z) :
  baseRemaining qs serverNow = None <-> ends qs = [].
Proof. unfold baseRemaining. destruct (ends qs); split; congruence. Qed.

Lemma baseRemaining_nonneg (qs : list Question) (serverNow r : Z) :
  baseRemaining qs serverNow = Some r -> 0 <= r.
Proof.
  unfold baseRemaining. destruct (ends qs); [discriminate |].
  intros [= <-]. lia.
Qed.

(** *** A tick at zero *)

Lemma writes_app (a b : list Effect) : writes (a ++ b) = (writes a + writes b)%nat.
Proof. unfold writes. now rewrite List.filter_app, length_app. Qed.

Lemma submit_loop_no_write (env : Env) (source : jstr) (l : Lang)
    (tcs : list TestCase) (t : Tally) :
  writes (snd (submit_loop env source l tcs t)) = 0%nat.
Proof.
  revert t. induction tcs as [|tc tcs IH]; intros t; cbn [submit_loop].
  - reflexivity.
  - destruct (runLocal _ _ _ _) as [r | e]; [| reflexivity].
    specialize (IH {| collected := collected t ++ [judge tc r];
                      passedCount := if passed (judge tc r)
                                     then passedCount t + 1 else passedCount t;
                      resultText :=
                        if negb (bool_decide (status r = OK))
                           || negb (str_eqb (output (judge tc r))
                                            (expected (judge tc r)))
                        then FailedText else resultText t |}).
    destruct (submit_loop _ _ _ tcs _) as [res fx]. exact IH.
Qed.

Lemma writes_calls (l : Lang) (source : jstr) (tcs : list TestCase) :
  writes (map (fun tc => Exec l source (or_empty (input tc))) tcs) = 0%nat.
Proof. induction tcs as [|tc tcs IH]; [reflexivity | exact IH]. Qed.

Lemma audio_no_write (b : bool) : writes (audio b) = 0%nat.
Proof. now destruct b. Qed.

(** One call of [submit] attempts at most one write. *)
Lemma submit_writes_le_1 (env : Env) (cl : View) (c : Component) :
  (writes (snd (submit env cl c)) <= 1)%nat.
Proof.
  unfold submit.
  destruct (currentQuestion cl); [| cbn; lia].
  destruct (uid cl); [| cbn; lia].
  destruct (bool_decide _); [cbn; lia |].
  pose proof (submit_loop_no_write env (code cl) (langId cl)
                (default [] (testCases q))
                {| collected := []; passedCount := 0; resultText := Passed |}) as H.
  destruct (submit_loop _ _ _ _ _) as [[t | e] fx]; cbn [snd] in *.
  - destruct (write_ok env); cbn [snd]; rewrite !writes_app, H, ?audio_no_write;
      cbn; lia.
  - rewrite writes_app, H. cbn. lia.
Qed.

Lemma submit_countdown (env : Env) (cl : View) (c : Component) :
  countdown (fst (submit env cl c)) = countdown c.
Proof.
  unfold submit.
  destruct (currentQuestion cl); [| reflexivity].
  destruct (uid cl); [| reflexivity].
  destruct (bool_decide _); [reflexivity |].
  destruct (submit_loop _ _ _ _ _) as [[t | e] fx]; [| reflexivity].
  destruct (write_ok env); reflexivity.
Qed.

Lemma tick_at_zero (env : Env) (c : Component) (cl : View) (s : Z) :
  countdown c = Some cl -> remainingSec (view c) = Some s -> s <= 1 ->
  tick env c
  = (upd_view (set_remainingSec (Some 0))
       (fst (forced env cl (set_countdown None c))),
     snd (forced env cl (set_countdown None c))).
Proof.
  intros Hcl Hs Hle. unfold tick. rewrite Hcl, Hs.
  assert ((s - 1 =? 60) = false) as -> by lia.
  assert ((s - 1 <=? 0) = true) as -> by lia.
  cbn [andb app].
  now destruct (forced env cl (set_countdown None c)).
Qed.

Lemma forced_countdown (env : Env) (cl : View) (c : Component) :
  countdown (fst (forced env cl c)) = countdown c.
Proof.
  unfold forced. destruct (currentQuestion cl); [| reflexivity].
  destruct (bool_decide _); [reflexivity | apply submit_countdown].
Qed.

Lemma forced_writes_le_1 (env : Env) (cl : View) (c : Component) :
  (writes (snd (forced env cl c)) <= 1)%nat.
Proof.
  unfold forced. destruct (currentQuestion cl); [| cbn; lia].
  destruct (bool_decide _); [cbn; lia | apply submit_writes_le_1].
Qed.

(** Every step ends with the countdown effect in step with the render. *)
Lemma step_deps_in_sync (env : Env) (ev : Event) (c : Component) :
  countdownDeps (fst (step env ev c)) = deps_of (view (fst (step env ev c))).
Proof.
  unfold step. destruct (handle env ev c) as [c' fx]. cbn [fst].
  unfold commit. destruct (bool_decide _) eqn:E; [| reflexivity].
  apply bool_decide_eq_true in E. now symmetry.
Qed.

Lemma set_remainingSec_same (c : Component) (r : option Z) :
  remainingSec (view c) = r ->
  upd_view (set_remainingSec r) c = c.
Proof. destruct c as [v st w cd dp]. destruct v. cbn. now intros ->. Qed.

(** Once the current question is submitted, a tick at zero does nothing
    and leaves no interval armed. *)
Lemma tick_settled (env : Env) (c : Component) (cl : View) (q : Question) :
  countdown c = Some cl -> countdownDeps c = deps_of (view c) ->
  remainingSec (view c) = Some 0 ->
  currentQuestion cl = Some q -> id q ∈ submittedQuestions cl ->
  step env Tick c = (set_countdown None c, []).
Proof.
  intros Hcl Hd Hs Hq Hin. unfold step. cbn [handle].
  rewrite (tick_at_zero env c cl 0 Hcl Hs) by lia.
  unfold forced. rewrite Hq, bool_decide_eq_true_2 by assumption.
  cbn [fst snd]. rewrite set_remainingSec_same by exact Hs.
  unfold commit. cbn [view countdownDeps set_countdown].
  now rewrite bool_decide_eq_true_2 by (symmetry; exact Hd).
Qed.

(** C6 (amended): [remainingSec] starts as
    max(0, floor((earliest end - serverNow) / 1000)) over the loaded
    questions that have an end time ([null] when none has), and is never
    negative after any run of events.  A tick that finds it at 1 or below
    clears the interval that fired, leaves the value at 0 and calls
    [submit] for the current question when the captured set of submitted
    questions lacks it, attempting at most one write; once the current
    question is submitted, a tick at 0 has no effect and leaves no interval
    armed. *)
Theorem C6_countdown_bounds_and_expiry (u : string) (docs : list Question)
    (serverNow : Z) (saved : gmap string Submission) (completed : bool)
    (evs : list (Env * Event)) :
  let c0 := loadQuestions u docs serverNow saved completed in
  remainingSec (view c0) = baseRemaining (questions (view c0)) serverNow
  /\ (forall r, remainingSec (view c0) = Some r ->
        exists t, In t (ends (questions (view c0)))
                  /\ Forall (fun t' => t <= t') (ends (questions (view c0)))
                  /\ r = Z.max 0 ((t - serverNow) / 1000))
  /\ (remainingSec (view c0) = None <-> ends (questions (view c0)) = [])
  /\ (forall r, remainingSec (view (fst (run evs c0))) = Some r -> 0 <= r)
  /\ (forall env c cl s,
        countdown c = Some cl -> remainingSec (view c) = Some s -> s <= 1 ->
        remainingSec (view (fst (step env Tick c))) = Some 0
        /\ countdown (fst (handle env Tick c)) = None
        /\ snd (step env Tick c) = snd (forced env cl (set_countdown None c))
        /\ (writes (snd (step env Tick c)) <= 1)%nat)
  /\ (forall env c cl q,
        countdown c = Some cl -> countdownDeps c = deps_of (view c) ->
        remainingSec (view c) = Some 0 ->
        currentQuestion cl = Some q -> id q ∈ submittedQuestions cl ->
        step env Tick c = (set_countdown None c, [])).
Proof.
  intros c0.
  assert (H0 : remainingSec (view c0)
               = baseRemaining (questions (view c0)) serverNow) by reflexivity.
  split; [exact H0 |].
  split; [intros r; rewrite H0; apply baseRemaining_spec |].
  split; [rewrite H0; apply baseRemaining_None |].
  split.
  { intros r. apply run_remainingSec. intros s. rewrite H0.
    apply baseRemaining_nonneg. }
  split; [| exact tick_settled].
  intros env c cl s Hcl Hs Hle.
  unfold step. cbn [handle]. rewrite (tick_at_zero env c cl s Hcl Hs Hle).
  cbn [fst snd]. rewrite commit_view.
  split; [reflexivity |].
  split; [change (countdown (fst (forced env cl (set_countdown None c))) = None);
          now rewrite forced_countdown |].
  split; [reflexivity | apply forced_writes_le_1].
Qed.

Lemma C6_countdown_bounds_and_expiry_witness :
  let env := Scenario.env_of Scenario.echo_engine true 5 in
  let c0 := loadQuestions "alice"
              [Scenario.question "q1" Scenario.two_cases (Some 1500)] 0 ∅ false in
  remainingSec (view c0) = Some 1
  /\ remainingSec (view (fst (step env Tick c0))) = Some 0
  /\ (forall r, remainingSec (view (fst (run [(env, Tick); (env, Tick)] c0))) = Some r
                -> 0 <= r).
Proof.
  intros env c0.
  destruct (C6_countdown_bounds_and_expiry "alice"
              [Scenario.question "q1" Scenario.two_cases (Some 1500)] 0 ∅ false
              [(env, Tick); (env, Tick)])
    as (_ & _ & _ & Hnn & Hz & _).
  split; [reflexivity |].
  split; [| exact Hnn].
  destruct (Hz env c0 (view c0) 1) as [H _]; [reflexivity | reflexivity | lia |].
  exact H.
Defined.

(** C6 as first stated fails: after the value has reached 0 an interval
    is armed again, and the tick that follows forces the submission of the
    same question a second time when the first write failed; after a
    successful forced submission, moving to another question makes the
    next tick force that one too. *)
Lemma C6_counterexample_forced_again :
  let failing := Scenario.env_of Scenario.echo_engine false 1 in
  let ok := Scenario.env_of Scenario.echo_engine true 2 in
  let r1 := step failing Tick Scenario.session_one in
  let r2 := step ok Tick (fst r1) in
  let s1 := step ok Tick Scenario.session_two in
  let s2 := step ok Next (fst s1) in
  let s3 := step ok Tick (fst s2) in
  (remainingSec (view Scenario.session_one) = Some 1
   /\ remainingSec (view (fst r1)) = Some 0
   /\ countdown (fst r1) <> None
   /\ writes (snd r1) = 1%nat /\ writes (snd r2) = 1%nat)
  /\ (remainingSec (view (fst s1)) = Some 0
      /\ writes (snd s1) = 1%nat /\ writes (snd s3) = 1%nat
      /\ is_Some (store (fst s3) !! "q1"%string)
      /\ is_Some (store (fst s3) !! "q2"%string)).
Proof.
  cbv zeta. split.
  - repeat split; try (vm_compute; reflexivity). vm_compute. discriminate.
  - repeat split; try (vm_compute; reflexivity); vm_compute; eauto.
Qed.

(** *** Expiry with several questions *)

(** The interval submits the buffer of the render it captured: an edit
    made after the last tick is not part of the forced submission. *)
Lemma expiry_uses_captured_buffer :
  let env := Scenario.env_of Scenario.echo_engine true 5 in
  let c := fst (step env (Edit (utf16 "print(1)")) Scenario.session_one) in
  let c' := fst (step env Tick c) in
  code (view c) = utf16 "print(1)"
  /\ s_code <$> (store c' !! "q1"%string) = Some (utf16 "print(input())").
Proof. cbv zeta. split; vm_compute; reflexivity. Qed.


End Countdown.

(** ** The MCQ round *)

Section McqViolations.
Import MCQ.

(** Evaluate both handlers on a state whose flags are known. *)
Local Ltac crunch :=
  vm_compute; repeat split; auto;
  try (intros [? | ?]; try discriminate; vm_compute; auto).

Lemma commit_view_mcq (c : Component) : view (commit c) = view c.
Proof. unfold commit. now destruct (bool_decide _). Qed.

Lemma commit_response (c : Component) : response (commit c) = response c.
Proof. unfold commit. now destruct (bool_decide _). Qed.

(** The first violation: counted, warned, full-screen requested again when
    it was lost, still running; the listeners are registered anew by the
    render that has [violations = 1]. *)
Lemma first_violation (env : Env) (c : Component) (ev : Event) (u : string) :
  running_in_sync c -> user (view c) = Some u ->
  warningGiven (view c) = false -> is_violation ev = true ->
  let c1 := fst (step env ev c) in
  violations (view c1) = violations (view c) + 1
  /\ warningMsg (view c1) = Some first_warning
  /\ warningGiven (view c1) = true
  /\ running_in_sync c1 /\ user (view c1) = Some u
  /\ (fullscreenElement c = false \/ ev = FullscreenChange false ->
      In RequestFullscreen (snd (step env ev c))).
Proof.
  intros (Hl & Hd & Hst & Hsub) Hu Hw Hev c1. subst c1.
  destruct c as [v resp fs lst deps]. destruct v.
  cbn in Hl, Hd, Hst, Hsub, Hu, Hw. subst.
  unfold running_in_sync.
  destruct env as [granted wok t].
  destruct ev; try discriminate Hev; cbn in Hev.
  - subst hidden. destruct fs, granted, soundEnabled0; crunch.
  - destruct inFullscreen; [discriminate |].
    destruct granted, soundEnabled0; crunch.
  - apply bool_decide_eq_true in Hev. subst key.
    destruct fs, granted, soundEnabled0; crunch.
Qed.

(** The second violation, once the warning has been given: [handleReject]
    runs and the session is rejected; the record it writes carries the
    [violations] of the render that registered the listeners, one less than
    the live counter. *)
Lemma second_violation (env : Env) (c : Component) (ev : Event) (u : string) :
  running_in_sync c -> user (view c) = Some u ->
  warningGiven (view c) = true -> is_violation ev = true ->
  write_ok env = true ->
  let c2 := fst (step env ev c) in
  submitted (view c2) = true
  /\ violations (view c2) = violations (view c) + 1
  /\ warningMsg (view c2) = Some rejection_notice
  /\ round1Submitted (response c2) = Some true
  /\ round1Rejected (response c2) = Some true
  /\ doc_violations (response c2) = Some (violations (view c))
  /\ listeners c2 = None
  /\ In (Navigate "/rejected") (snd (step env ev c)).
Proof.
  intros (Hl & Hd & Hst & Hsub) Hu Hw Hev Hok c2. subst c2.
  destruct c as [v resp fs lst deps]. destruct v.
  cbn in Hl, Hd, Hst, Hsub, Hu, Hw. subst.
  destruct env as [granted wok t]. cbn in Hok. subst wok.
  destruct ev; try discriminate Hev; cbn in Hev.
  - subst hidden. destruct fs, soundEnabled0; crunch.
  - destruct inFullscreen; [discriminate |]. destruct soundEnabled0; crunch.
  - apply bool_decide_eq_true in Hev. subst key.
    destruct fs, soundEnabled0; crunch.
Qed.

(** C1: in a started, unsubmitted MCQ session the first violation makes
    [violations] 1, shows the warning, asks for full-screen again when it
    was lost and leaves the session running; the second violation calls
    [handleReject] and the session is rejected, with the live counter at 2.
    The rejection record, however, is written by the [handleReject] of the
    render that registered the listeners, where [violations] is still 1:
    the record contains 1, not 2. *)
Theorem C1_rejection_record_violations (env1 env2 : Env) (c : Component)
    (ev1 ev2 : Event) (u : string) :
  running_in_sync c -> user (view c) = Some u ->
  warningGiven (view c) = false -> violations (view c) = 0 ->
  is_violation ev1 = true -> is_violation ev2 = true ->
  write_ok env2 = true ->
  let c1 := fst (step env1 ev1 c) in
  let c2 := fst (step env2 ev2 c1) in
  (violations (view c1) = 1
   /\ warningMsg (view c1) = Some first_warning
   /\ started (view c1) = true /\ submitted (view c1) = false
   /\ (fullscreenElement c = false \/ ev1 = FullscreenChange false ->
       In RequestFullscreen (snd (step env1 ev1 c))))
  /\ (submitted (view c2) = true
      /\ violations (view c2) = 2
      /\ round1Rejected (response c2) = Some true
      /\ In (Navigate "/rejected") (snd (step env2 ev2 c1))
      /\ doc_violations (response c2) = Some 1).
Proof.
  intros Hsync Hu Hw Hv0 He1 He2 Hok c1 c2.
  destruct (first_violation env1 c ev1 u Hsync Hu Hw He1)
    as (Hv1 & Hm1 & Hw1 & Hsync1 & Hu1 & Hfs).
  fold c1 in Hv1, Hm1, Hw1, Hsync1, Hu1.
  destruct (second_violation env2 c1 ev2 u Hsync1 Hu1 Hw1 He2 Hok)
    as (Hs2 & Hv2 & _ & _ & Hr2 & Hd2 & _ & Hn2).
  fold c2 in Hs2, Hv2, Hr2, Hd2.
  destruct Hsync1 as (_ & _ & Hst1 & Hsub1).
  rewrite Hv0 in Hv1. rewrite Hv1 in Hv2, Hd2.
  repeat split; assumption.
Qed.

Lemma C1_rejection_record_violations_witness :
  let c := Scenario.mcq_session [Scenario.mcq_question "q1" "a"] in
  let c1 := fst (step (Scenario.mcq_env true 1000) (VisibilityChange 1000 true) c) in
  let c2 := fst (step (Scenario.mcq_env true 9000) (VisibilityChange 9000 true) c1) in
  violations (view c1) = 1 /\ submitted (view c1) = false
  /\ submitted (view c2) = true /\ violations (view c2) = 2
  /\ doc_violations (response c2) = Some 1.
Proof.
  intros c c1 c2.
  destruct (C1_rejection_record_violations
              (Scenario.mcq_env true 1000) (Scenario.mcq_env true 9000) c
              (VisibilityChange 1000 true) (VisibilityChange 9000 true) "alice")
    as ((H1 & _ & _ & H2 & _) & (H3 & H4 & _ & _ & H5)).
  - repeat split; vm_compute; reflexivity.
  - reflexivity.
  - reflexivity.
  - reflexivity.
  - reflexivity.
  - reflexivity.
  - reflexivity.
  - repeat split; assumption.
Defined.

(** Two visibility events 100 ms apart are two violations for the MCQ
    round: the second one rejects the exam. *)
Lemma mcq_duplicate_visibility_rejects (env1 env2 : Env) (c : Component)
    (t : Z) (u : string) :
  running_in_sync c -> user (view c) = Some u ->
  warningGiven (view c) = false -> write_ok env2 = true ->
  submitted (view (fst (run [(env1, VisibilityChange t true);
                             (env2, VisibilityChange (t + 100) true)] c))) = true.
Proof.
  intros Hsync Hu Hw Hok. cbn [run].
  destruct (first_violation env1 c (VisibilityChange t true) u Hsync Hu Hw eq_refl)
    as (_ & _ & Hw1 & Hsync1 & Hu1 & _).
  destruct (step env1 (VisibilityChange t true) c) as [c1 fx1]. cbn [fst] in *.
  destruct (second_violation env2 c1 (VisibilityChange (t + 100) true) u
              Hsync1 Hu1 Hw1 eq_refl Hok) as (Hs2 & _).
  destruct (step env2 (VisibilityChange (t + 100) true) c1) as [c2 fx2].
  exact Hs2.
Qed.

End McqViolations.

(** ** Debouncing of visibility events *)

Section Debounce.

Lemma coding_visibility_counts (env : Coding.Env) (c : Coding.Component) (t : Z) :
  Coding.started (Coding.view c) = true ->
  Coding.violations
    (Coding.view (fst (Coding.step env (Coding.VisibilityChange t true) c)))
  = Coding.violations (Coding.view c) + 1
  /\ Coding.started
       (Coding.view (fst (Coding.step env (Coding.VisibilityChange t true) c)))
     = true.
Proof.
  intros Hst. unfold Coding.step. cbn [Coding.handle]. rewrite Hst.
  cbn [andb]. unfold Coding.on_view, Coding.bumpViolation. cbn [fst].
  rewrite commit_view. cbn. split; [reflexivity | exact Hst].
Qed.

(** C8: the coding round counts every visibility event that reports a
    hidden document; two such events less than 500 ms apart raise
    [violations] by two. *)
Theorem C8_coding_visibility_not_debounced (env1 env2 : Coding.Env)
    (c : Coding.Component) (t1 t2 : Z) :
  Coding.started (Coding.view c) = true ->
  t1 <= t2 < t1 + 500 ->
  Coding.violations
    (Coding.view
       (fst (Coding.run [(env1, Coding.VisibilityChange t1 true);
                         (env2, Coding.VisibilityChange t2 true)] c)))
  = Coding.violations (Coding.view c) + 2.
Proof.
  intros Hst _. cbn [Coding.run].
  destruct (coding_visibility_counts env1 c t1 Hst) as [Hv1 Hst1].
  destruct (Coding.step env1 (Coding.VisibilityChange t1 true) c) as [c1 fx1].
  cbn [fst] in Hv1, Hst1.
  destruct (coding_visibility_counts env2 c1 t2 Hst1) as [Hv2 _].
  destruct (Coding.step env2 (Coding.VisibilityChange t2 true) c1) as [c2 fx2].
  cbn [fst] in Hv2 |- *. lia.
Qed.

Lemma C8_coding_visibility_not_debounced_witness :
  let env := Scenario.env_of Scenario.echo_engine true 0 in
  Coding.violations (Coding.view Scenario.session_one) = 0
  /\ Coding.violations
       (Coding.view
          (fst (Coding.run [(env, Coding.VisibilityChange 1000 true);
                            (env, Coding.VisibilityChange 1100 true)]
                           Scenario.session_one))) = 2.
Proof.
  intros env. split; [vm_compute; reflexivity |].
  rewrite (C8_coding_visibility_not_debounced env env Scenario.session_one 1000 1100).
  - vm_compute; reflexivity.
  - vm_compute; reflexivity.
  - lia.
Defined.

(** The layout component does debounce: of two visibility events less than
    500 ms apart only the first is looked at. *)
Lemma layout_visibility_debounced (s : Layout.State) (t1 t2 : Z)
    (hidden1 hidden2 fs1 fs2 : bool) :
  500 <= t1 - Layout.lastVisibilityChange s ->
  t1 <= t2 < t1 + 500 ->
  Layout.onVisibilityChange t2 hidden2 fs2
    (fst (Layout.onVisibilityChange t1 hidden1 fs1 s))
  = (fst (Layout.onVisibilityChange t1 hidden1 fs1 s), []).
Proof.
  intros H1 H2.
  assert (Hd1 : (t1 - Layout.lastVisibilityChange s <? 500) = false) by lia.
  assert (Hd2 : (t2 - t1 <? 500) = true) by lia.
  unfold Layout.onVisibilityChange, Layout.handleViolation. cbv zeta.
  rewrite Hd1.
  destruct hidden1; cbn;
    [destruct (5 <=? Layout.violationCount s + 1) |];
    cbn; rewrite ?Hd2; reflexivity.
Qed.

(** The debounce covers the visibility signal only: the blur and the
    visibility event of one tab switch are counted separately. *)
Lemma layout_blur_then_hidden (s : Layout.State) (t : Z) (fs : bool) :
  Layout.violationCount s + 2 < 5 ->
  500 <= t - Layout.lastVisibilityChange s ->
  Layout.violationCount
    (fst (Layout.onVisibilityChange t true fs (fst (Layout.onBlur t fs s))))
  = Layout.violationCount s + 2.
Proof.
  intros Hn Ht.
  assert (Hd : (t - Layout.lastVisibilityChange s <? 500) = false) by lia.
  assert (H1 : (5 <=? Layout.violationCount s + 1) = false) by lia.
  assert (H2 : (5 <=? Layout.violationCount s + 1 + 1) = false) by lia.
  unfold Layout.onBlur, Layout.onVisibilityChange, Layout.handleViolation.
  cbv zeta. rewrite H1. cbn.
  rewrite Hd. cbn. rewrite H2. cbn. lia.
Qed.

End Debounce.

(** ** Scoring of the MCQ round *)

Section McqScoring.
Import MCQ.

Lemma grade_counts (answers : gmap string string) (qs : list Question) (t : Tally) :
  let t' := foldl (grade answers) t qs in
  wrongCount t' = wrongCount t + Z.of_nat (length (List.filter (is_wrong answers) qs))
  /\ correctCount t' + wrongCount t'
     = correctCount t + wrongCount t + Z.of_nat (length qs).
Proof.
  revert t. induction qs as [|q qs IH]; intros t; cbv zeta; cbn [foldl].
  - cbn. lia.
  - destruct (IH (grade answers t q)) as [Hw Hs]. clear IH.
    assert (Hq : wrongCount (grade answers t q)
                 = wrongCount t + (if is_wrong answers q then 1 else 0)
                 /\ correctCount (grade answers t q) + wrongCount (grade answers t q)
                    = correctCount t + wrongCount t + 1).
    { unfold grade, is_wrong. cbn [wrongCount correctCount].
      destruct (bool_decide _); cbn [negb]; lia. }
    destruct Hq as [Hq1 Hq2].
    cbn [List.filter length]. destruct (is_wrong answers q); cbn [length]; lia.
Qed.

Lemma exitFullscreen_response (c : Component) :
  response (fst (exitFullscreen c)) = response c.
Proof. unfold exitFullscreen. now destruct (fullscreenElement c). Qed.

End McqScoring.

(** * Further properties of the coding round *)

Section JudgeAndRun.
Import Coding.

(** White space around a text does not change what [trim] returns. *)
Lemma trim_padding (a s b : jstr) :
  forallb is_space a = true -> forallb is_space b = true ->
  trim (a ++ s ++ b) = trim s.
Proof.
  intros Ha Hb.
  destruct (trim_split s) as [a' [b' [Hs [Ha' Hb']]]].
  rewrite Hs at 1.
  replace (a ++ (a' ++ trim s ++ b') ++ b)
    with ((a ++ a') ++ trim s ++ (b' ++ b))
    by (now rewrite <- !app_assoc).
  apply trim_unique.
  - rewrite forallb_app, Ha, Ha'. reflexivity.
  - rewrite forallb_app, Hb, Hb'. reflexivity.
  - destruct (trim s) as [|c r] eqn:E; [now left | right]. split.
    + exists c, r. split; [reflexivity |]. exact (trim_first s r c E).
    + destruct (exists_last (l := c :: r)) as [r' [c' Hr]]; [discriminate |].
      exists r', c'. split; [exact Hr |].
      apply (trim_last s r' c'). now rewrite E.
Qed.

(** X1: padding the program's output, or the expected output of the test
    case, with white space at either end changes nothing in the verdict. *)
Theorem X1_verdict_ignores_outer_whitespace (tc : TestCase) (r : RunResult)
    (a b a' b' : jstr) :
  forallb is_space a = true -> forallb is_space b = true ->
  forallb is_space a' = true -> forallb is_space b' = true ->
  judge {| tc_id := tc_id tc; input := input tc;
           expectedOutput := Some (a' ++ or_empty (expectedOutput tc) ++ b') |}
        {| stdout := a ++ stdout r ++ b; stderr := stderr r; status := status r |}
  = judge tc r.
Proof.
  intros Ha Hb Ha' Hb'. unfold judge.
  cbn [stdout stderr status tc_id input expectedOutput].
  change (or_empty (Some (a' ++ or_empty (expectedOutput tc) ++ b')))
    with (a' ++ or_empty (expectedOutput tc) ++ b').
  now rewrite (trim_padding a _ b Ha Hb), (trim_padding a' _ b' Ha' Hb').
Qed.

Lemma X1_verdict_ignores_outer_whitespace_witness :
  passed (judge {| tc_id := Some 1; input := Some (utf16 "2");
                   expectedOutput := Some ([10%N] ++ utf16 "4" ++ [32%N; 32%N]) |}
                {| stdout := [9%N] ++ utf16 "4" ++ [13%N; 10%N]; stderr := [];
                   status := OK |}) = true.
Proof.
  exact (f_equal passed
           (X1_verdict_ignores_outer_whitespace
              {| tc_id := Some 1; input := Some (utf16 "2");
                 expectedOutput := Some (utf16 "4") |}
              {| stdout := utf16 "4"; stderr := []; status := OK |}
              [9%N] [13%N; 10%N] [10%N] [32%N; 32%N]
              eq_refl eq_refl eq_refl eq_refl)).
Defined.

Lemma zip_with_const {A B C} (f : A -> B -> C) (l : list A) (b : B) :
  zip_with f l (map (fun _ => b) l) = map (fun a => f a b) l.
Proof. induction l as [|x l IH]; cbn; [reflexivity | now rewrite IH]. Qed.

Lemma Forall2_const_map {A B} (P : A -> B -> Prop) (l : list A) (b : B) :
  (forall a, P a b) -> Forall2 P l (map (fun _ => b) l).
Proof. intros H. induction l; cbn; constructor; auto. Qed.

Lemma runLocal_not_ready (env : Env) (source inStdin : jstr) :
  pyodide env = None -> runLocal env source python inStdin = Normal not_ready.
Proof. intros H. unfold runLocal. now rewrite H. Qed.

Lemma calls_no_rejection (l : Lang) (source : jstr) (tcs : list TestCase) (e : JsVal) :
  ~ In (UnhandledRejection e)
       (map (fun tc => Exec l source (or_empty (input tc))) tcs).
Proof. induction tcs as [|tc tcs IH]; cbn; [tauto |]. intros [H | H]; [discriminate | auto]. Qed.

(** X2: while the Python runtime is not loaded, Run in Python does not
    fail: every test case gets a failed verdict with empty output and the
    message "Python runtime not ready", the status shown is Failed as soon
    as there is a test case, nothing is rejected or written, and the
    running flag is reset. *)
Theorem X2_run_before_python_is_ready (env : Env) (cl : View) (c : Component)
    (q : Question) :
  pyodide env = None -> langId cl = python -> currentQuestion cl = Some q ->
  let c' := fst (handleRun env cl c) in
  perTestResults (view c')
  = map (fun tc => judge tc not_ready) (default [] (testCases q))
  /\ Forall (fun v => passed v = false /\ output v = []
                      /\ v_stderr v = Some (utf16 "Python runtime not ready"))
            (perTestResults (view c'))
  /\ runningNow (view c') = false
  /\ (default [] (testCases q) <> [] ->
      statusText (panels (view c')) = "Failed"%string)
  /\ (forall e, ~ In (UnhandledRejection e) (snd (handleRun env cl c)))
  /\ writes (snd (handleRun env cl c)) = 0%nat
  /\ store c' = store c.
Proof.
  intros Hpy Hl Hq c'.
  assert (Hrs : Forall2 (returns_for env cl) (default [] (testCases q))
                        (map (fun _ => not_ready) (default [] (testCases q)))).
  { apply Forall2_const_map. intros tc. unfold returns_for. rewrite Hl.
    now apply runLocal_not_ready. }
  subst c'. unfold handleRun. rewrite Hq.
  rewrite (run_loop_returns env (code cl) (langId cl) _ _ [] Hrs).
  cbn [app]. rewrite zip_with_const.
  set (tcs := default [] (testCases q)).
  assert (Hall : Forall (fun v => passed v = false /\ output v = []
                      /\ v_stderr v = Some (utf16 "Python runtime not ready"))
                   (map (fun tc => judge tc not_ready) tcs)).
  { apply Forall_map, Forall_forall. intros tc _. repeat split; reflexivity. }
  cbn [fst snd].
  split; [reflexivity |].
  split; [exact Hall |].
  split; [reflexivity |].
  split.
  { intros Hne. destruct tcs as [|tc tcs']; [contradiction |]. reflexivity. }
  split.
  { intros e Hin. apply in_app_or in Hin. destruct Hin as [Hin | Hin].
    - destruct (soundEnabled cl); cbn in Hin; [destruct Hin as [? | []]; discriminate | tauto].
    - exact (calls_no_rejection _ _ _ _ Hin). }
  split; [| reflexivity].
  rewrite writes_app, audio_no_write, writes_calls. reflexivity.
Qed.

Lemma X2_run_before_python_is_ready_witness :
  let env := Scenario.env_of Scenario.echo_engine true 0 in
  let c := fst (step env (SelectLang python) Scenario.session_A) in
  map passed (perTestResults (view (fst (handleRun env (view c) c))))
  = [false; false; false]
  /\ statusText (panels (view (fst (handleRun env (view c) c)))) = "Failed"%string.
Proof.
  intros env c.
  destruct (X2_run_before_python_is_ready env (view c) c
              (Scenario.question "q1" Scenario.three_cases None))
    as (Hv & _ & _ & Hs & _); try (vm_compute; reflexivity).
  split; [rewrite Hv; reflexivity | apply Hs; discriminate].
Defined.

(** X3: a question without test cases: Run shows no verdict and the status
    OK; Submit executes nothing and writes a document with result Passed,
    passed 0, total 0 and percentage 0. *)
Theorem X3_question_without_test_cases (env : Env) (cl : View) (c : Component)
    (q : Question) (u : string) :
  currentQuestion cl = Some q -> default [] (testCases q) = [] ->
  (perTestResults (view (fst (handleRun env cl c))) = []
   /\ statusText (panels (view (fst (handleRun env cl c)))) = "OK"%string
   /\ execs (snd (handleRun env cl c)) = 0%nat)
  /\ (uid cl = Some u -> id q ∉ submittedQuestions cl -> write_ok env = true ->
      exists doc,
        store (fst (submit env cl c)) !! id q = Some doc
        /\ s_result doc = Passed /\ s_passed doc = 0 /\ s_total doc = 0
        /\ s_percentage doc = 0
        /\ execs (snd (submit env cl c)) = 0%nat).
Proof.
  intros Hq Hnil. split.
  - unfold handleRun. rewrite Hq, Hnil. cbn.
    repeat split; try reflexivity. now destruct (soundEnabled cl).
  - intros Hu Hnin Hw.
    assert (Hrs : Forall2 (returns_for env cl) (default [] (testCases q)) [])
      by (rewrite Hnil; constructor).
    rewrite (submit_written env cl c q u [] Hq Hu Hnin Hw Hrs).
    rewrite Hnil. cbn [zip_with map app fst snd].
    eexists. split; [cbn; apply lookup_insert_eq |].
    unfold doc_of. rewrite Hnil. cbn.
    repeat split; try reflexivity. now destruct (soundEnabled cl).
Qed.

Lemma X3_question_without_test_cases_witness :
  let env := Scenario.env_of Scenario.echo_engine true 0 in
  let c := Scenario.session [Scenario.question "q0" [] None] 0 ∅ in
  statusText (panels (view (fst (handleRun env (view c) c)))) = "OK"%string
  /\ exists doc, store (fst (submit env (view c) c)) !! "q0"%string = Some doc
                 /\ s_result doc = Passed /\ s_percentage doc = 0.
Proof.
  intros env c.
  destruct (X3_question_without_test_cases env (view c) c
              (Scenario.question "q0" [] None) "alice")
    as ((_ & Hs & _) & Hsub); try (vm_compute; reflexivity).
  split; [exact Hs |].
  destruct Hsub as (doc & Hd & Hr & _ & _ & Hp & _);
    try (vm_compute; reflexivity); [decide_by_compute |].
  exists doc. auto.
Defined.

End JudgeAndRun.

Section SubmitOutcomes.
Import Coding.

Lemma execs_app (a b : list Effect) : execs (a ++ b) = (execs a + execs b)%nat.
Proof. unfold execs. now rewrite List.filter_app, length_app. Qed.

Lemma execs_calls (l : Lang) (source : jstr) (tcs : list TestCase) :
  execs (map (fun tc => Exec l source (or_empty (input tc))) tcs) = length tcs.
Proof.
  induction tcs as [|tc tcs IH]; [reflexivity |].
  cbn [map]. unfold execs in *. cbn. now rewrite IH.
Qed.

Lemma execs_audio (b : bool) : execs (audio b) = 0%nat.
Proof. now destruct b. Qed.

Lemma calls_no_SetDoc (l : Lang) (source : jstr) (tcs : list TestCase) k d :
  ~ In (SetDoc k d) (map (fun tc => Exec l source (or_empty (input tc))) tcs).
Proof.
  induction tcs as [|tc tcs IH]; cbn; [tauto |].
  intros [H | H]; [discriminate | auto].
Qed.

(** A loop that ends normally has called the adapter once per test case,
    and its tally stays in range. *)
Lemma submit_loop_normal (env : Env) (source : jstr) (l : Lang)
    (tcs : list TestCase) (t t' : Tally) (fx : list Effect) :
  submit_loop env source l tcs t = (Normal t', fx) ->
  fx = map (fun tc => Exec l source (or_empty (input tc))) tcs
  /\ passedCount t <= passedCount t' <= passedCount t + Z.of_nat (length tcs)
  /\ length (collected t') = (length (collected t) + length tcs)%nat.
Proof.
  revert t fx. induction tcs as [|tc tcs IH]; intros t fx; cbn [submit_loop].
  - intros [= <- <-]. cbn. repeat split; lia.
  - destruct (runLocal _ _ _ _) as [r | e]; [| discriminate].
    destruct (submit_loop _ _ _ tcs _) as [res fx'] eqn:E.
    intros [= -> <-]. destruct (IH _ _ E) as (-> & Hp & Hl).
    cbn [passedCount collected] in Hp, Hl. rewrite length_app in Hl.
    cbn [map length] in *. split; [reflexivity |].
    destruct (passed (judge tc r)); split; lia.
Qed.

(** A loop that ends with an exception has written nothing to report. *)
Lemma submit_loop_throw_effects (env : Env) (source : jstr) (l : Lang)
    (tcs : list TestCase) (t : Tally) (e : JsVal) (fx : list Effect) k d :
  submit_loop env source l tcs t = (Throw e, fx) -> ~ In (SetDoc k d) fx.
Proof.
  revert t fx. induction tcs as [|tc tcs IH]; intros t fx; cbn [submit_loop].
  - discriminate.
  - destruct (runLocal _ _ _ _) as [r | e'].
    + destruct (submit_loop _ _ _ tcs _) as [res fx'] eqn:E.
      intros [= -> <-]. intros [H | H]; [discriminate |]. exact (IH _ _ E H).
    + intros [= _ <-]. intros [H | []]. discriminate.
Qed.

(** The four ways [submit] ends. *)
Lemma submit_cases (env : Env) (cl : View) (c : Component) :
  submit env cl c = (c, [])
  \/ (exists fx, submit env cl c
                 = (upd_view (set_loading false) (upd_view (set_loading true) c), fx)
                 /\ (forall k d, In (SetDoc k d) fx -> write_ok env = false))
  \/ (exists q t,
        currentQuestion cl = Some q
        /\ write_ok env = true
        /\ let tcs := default [] (testCases q) in
           let calls := map (fun tc => Exec (langId cl) (code cl) (or_empty (input tc))) tcs in
           let doc :=
             {| s_code := code cl; s_language := langId cl; s_result := resultText t;
                s_percentage := percentage_of (passedCount t) (Z.of_nat (length tcs));
                s_passed := passedCount t; s_total := Z.of_nat (length tcs);
                s_problemId := id q; s_submittedAt := now env;
                s_examViolations := violations cl; s_durationSec := timerSec cl |} in
           0 <= passedCount t <= Z.of_nat (length tcs)
           /\ length (collected t) = length tcs
           /\ submit env cl c
              = (upd_view (set_loading false)
                   (upd_view (add_submitted (id q))
                      (upd_view (set_perTestResults (collected t))
                         (set_store (<[id q := doc]> (store c))
                            (upd_view (set_loading true) c)))),
                 calls ++ [SetDoc (id q) doc] ++ audio (soundEnabled cl))).
Proof.
  unfold submit.
  destruct (currentQuestion cl) as [q |]; [| now left].
  destruct (uid cl); [| now left].
  destruct (bool_decide _); [now left |].
  destruct (submit_loop _ _ _ _ _) as [[t | e] fx] eqn:E.
  - destruct (submit_loop_normal _ _ _ _ _ _ _ E) as (-> & Hp & Hl).
    cbn [passedCount collected length] in Hp, Hl. cbn [plus] in Hl.
    destruct (write_ok env) eqn:Hw.
    + right. right. exists q, t. cbv zeta.
      split; [reflexivity |]. split; [reflexivity |].
      split; [lia |]. split; [exact Hl | reflexivity].
    + right. left. eexists. split; [reflexivity |]. reflexivity.
  - right. left. eexists. split; [reflexivity |].
    intros k d Hin. apply in_app_or in Hin. destruct Hin as [Hin | [Hin | []]].
    + exfalso. exact (submit_loop_throw_effects _ _ _ _ _ _ _ _ _ E Hin).
    + discriminate.
Qed.

Lemma submit_write_fails (env : Env) (cl : View) (c : Component) (q : Question)
    (u : string) (rs : list RunResult) :
  currentQuestion cl = Some q -> uid cl = Some u ->
  id q ∉ submittedQuestions cl -> write_ok env = false ->
  Forall2 (returns_for env cl) (default [] (testCases q)) rs ->
  let vs := zip_with judge (default [] (testCases q)) rs in
  submit env cl c
  = (upd_view (set_loading false) (upd_view (set_loading true) c),
     map (fun tc => Exec (langId cl) (code cl) (or_empty (input tc)))
         (default [] (testCases q))
       ++ [SetDoc (id q) (doc_of env cl q vs); ConsoleError]).
Proof.
  intros Hq Hu Hnin Hw Hrs vs. unfold submit. rewrite Hq, Hu.
  rewrite bool_decide_eq_false_2 by assumption.
  rewrite (submit_loop_returns env (code cl) (langId cl) _ rs) by exact Hrs.
  rewrite Hw. reflexivity.
Qed.

(** X4: when the document write fails, the submission does not count: the
    store, [submittedQuestions] and the shown verdicts are as before,
    [loading] is reset and the failure is logged, after every test case was
    executed and one write attempted.  The guard is still open, so submitting
    again once writes succeed stores the document. *)
Theorem X4_failed_write_is_not_a_submission (env env' : Env) (cl : View)
    (c : Component) (q : Question) (u : string) (rs rs' : list RunResult) :
  currentQuestion cl = Some q -> uid cl = Some u ->
  id q ∉ submittedQuestions cl -> write_ok env = false ->
  Forall2 (returns_for env cl) (default [] (testCases q)) rs ->
  let c' := fst (submit env cl c) in
  let fx := snd (submit env cl c) in
  store c' = store c
  /\ submittedQuestions (view c') = submittedQuestions (view c)
  /\ perTestResults (view c') = perTestResults (view c)
  /\ loading (view c') = false
  /\ execs fx = length (default [] (testCases q))
  /\ writes fx = 1%nat /\ In ConsoleError fx
  /\ (write_ok env' = true ->
      Forall2 (returns_for env' cl) (default [] (testCases q)) rs' ->
      store (fst (submit env' cl c')) !! id q
      = Some (doc_of env' cl q (zip_with judge (default [] (testCases q)) rs'))).
Proof.
  intros Hq Hu Hnin Hw Hrs c' fx. subst c' fx.
  rewrite (submit_write_fails env cl c q u rs Hq Hu Hnin Hw Hrs). cbn [fst snd].
  split; [reflexivity |]. split; [reflexivity |]. split; [reflexivity |].
  split; [reflexivity |].
  split; [rewrite execs_app, execs_calls; cbn; lia |].
  split; [rewrite writes_app, writes_calls; reflexivity |].
  split; [apply in_or_app; right; right; now left |].
  intros Hw' Hrs'.
  rewrite (submit_written env' cl _ q u rs' Hq Hu Hnin Hw' Hrs').
  cbn. apply lookup_insert_eq.
Qed.

Lemma X4_failed_write_is_not_a_submission_witness :
  let failing := Scenario.env_of Scenario.echo_engine false 3 in
  let ok := Scenario.env_of Scenario.echo_engine true 4 in
  let c := Scenario.session_A in
  store (fst (submit failing (view c) c)) = store c
  /\ is_Some (store (fst (submit ok (view c) (fst (submit failing (view c) c))))
              !! "q1"%string).
Proof.
  intros failing ok c.
  pose (rs := [ {| stdout := utf16 "1"; stderr := []; status := OK |};
                {| stdout := utf16 "2"; stderr := []; status := OK |};
                {| stdout := utf16 "3"; stderr := []; status := OK |} ]).
  destruct (X4_failed_write_is_not_a_submission failing ok (view c) c
              (Scenario.question "q1" Scenario.three_cases None) "alice" rs rs)
    as (Hs & _ & _ & _ & _ & _ & _ & Hretry).
  - vm_compute; reflexivity.
  - vm_compute; reflexivity.
  - decide_by_compute.
  - reflexivity.
  - repeat constructor.
  - split; [exact Hs |]. eexists. apply Hretry; [reflexivity | repeat constructor].
Defined.

(** X5: [submit] writes only after a complete evaluation: whenever a write
    is attempted, it is for the current question, under its id, after exactly
    one interpreter call per test case, with [total] the number of test cases
    and [passed] within it; and the store changes only by that document. *)
Theorem X5_write_only_after_full_evaluation (env : Env) (cl : View)
    (c : Component) (q : Question) :
  currentQuestion cl = Some q ->
  (forall k d, In (SetDoc k d) (snd (submit env cl c)) ->
     k = id q /\ s_problemId d = id q
     /\ execs (snd (submit env cl c)) = length (default [] (testCases q))
     /\ s_total d = Z.of_nat (length (default [] (testCases q)))
     /\ 0 <= s_passed d <= s_total d)
  /\ (store (fst (submit env cl c)) = store c
      \/ exists d, In (SetDoc (id q) d) (snd (submit env cl c))
                   /\ store (fst (submit env cl c)) = <[id q := d]> (store c)).
Proof.
  intros Hq. unfold submit. rewrite Hq.
  destruct (uid cl); [| split; [intros ? ? [] | now left]].
  destruct (bool_decide _); [split; [intros ? ? [] | now left] |].
  destruct (submit_loop _ _ _ _ _) as [[t | e] fx] eqn:E.
  - destruct (submit_loop_normal _ _ _ _ _ _ _ E) as (-> & Hp & Hl).
    cbn [passedCount collected length] in Hp.
    assert (Hin : forall k d fx',
              In (SetDoc k d)
                 (map (fun tc => Exec (langId cl) (code cl) (or_empty (input tc)))
                      (default [] (testCases q)) ++ SetDoc (id q)
                      {| s_code := code cl; s_language := langId cl;
                         s_result := resultText t;
                         s_percentage := percentage_of (passedCount t)
                           (Z.of_nat (length (default [] (testCases q))));
                         s_passed := passedCount t;
                         s_total := Z.of_nat (length (default [] (testCases q)));
                         s_problemId := id q; s_submittedAt := now env;
                         s_examViolations := violations cl;
                         s_durationSec := timerSec cl |} :: fx') ->
              (forall k' d', ~ In (SetDoc k' d') fx') ->
              k = id q /\ s_problemId d = id q
              /\ s_total d = Z.of_nat (length (default [] (testCases q)))
              /\ 0 <= s_passed d <= s_total d).
    { intros k d fx' Hin Hno. apply in_app_or in Hin.
      destruct Hin as [Hin | [Hin | Hin]].
      - exfalso. exact (calls_no_SetDoc _ _ _ _ _ Hin).
      - injection Hin as <- <-. cbn. repeat split; lia.
      - exfalso. exact (Hno _ _ Hin). }
    destruct (write_ok env); cbn [fst snd].
    + split.
      * intros k d Hk.
        destruct (Hin k d (audio (soundEnabled cl)) Hk) as (H1 & H2 & H3 & H4).
        { intros k' d'. destruct (soundEnabled cl); cbn; [intros [? | []]; discriminate | tauto]. }
        repeat split; try assumption; try lia.
        rewrite execs_app, execs_calls. cbn [app]. change (SetDoc ?a ?b :: ?l) with ([SetDoc a b] ++ l).
        rewrite execs_app, execs_audio. cbn. lia.
      * right. eexists. split; [apply in_or_app; right; now left | reflexivity].
    + split; [| now left].
      intros k d Hk.
      destruct (Hin k d [ConsoleError] Hk) as (H1 & H2 & H3 & H4).
      { intros k' d' [? | []]. discriminate. }
      repeat split; try assumption; try lia.
      rewrite execs_app, execs_calls. cbn. lia.
  - cbn [fst snd]. split; [| now left].
    intros k d Hin. exfalso. apply in_app_or in Hin. destruct Hin as [Hin | [Hin | []]].
    + exact (submit_loop_throw_effects _ _ _ _ _ _ _ _ _ E Hin).
    + discriminate.
Qed.

Lemma X5_write_only_after_full_evaluation_witness :
  let env := Scenario.env_of Scenario.echo_engine true 3 in
  let c := Scenario.session_A in
  exists d, In (SetDoc "q1" d) (snd (submit env (view c) c))
            /\ execs (snd (submit env (view c) c)) = 3%nat /\ s_total d = 3.
Proof.
  intros env c.
  destruct (X5_write_only_after_full_evaluation env (view c) c
              (Scenario.question "q1" Scenario.three_cases None))
    as [Hall [Hst | (d & Hin & _)]].
  - vm_compute; reflexivity.
  - exfalso. assert (H : store (fst (submit env (view c) c)) !! "q1"%string
                         = store c !! "q1"%string) by now rewrite Hst.
    vm_compute in H. discriminate.
  - exists d. destruct (Hall _ _ Hin) as (_ & _ & He & Ht & _). auto.
Defined.

Lemma run_loop_effects (env : Env) (source : jstr) (l : Lang)
    (tcs : list TestCase) (acc : list Verdict) :
  writes (snd (run_loop env source l tcs acc)) = 0%nat.
Proof.
  revert acc. induction tcs as [|tc tcs IH]; intros acc; cbn [run_loop].
  - reflexivity.
  - destruct (runLocal _ _ _ _) as [r | e]; [| reflexivity].
    specialize (IH (acc ++ [judge tc r])).
    destruct (run_loop _ _ _ tcs _) as [res fx]. exact IH.
Qed.

End SubmitOutcomes.

Section SessionInvariants.
Import Coding.

Lemma same_session_refl (v : View) : same_session v v.
Proof. repeat split. Qed.

Lemma submit_same_session (env : Env) (cl : View) (c : Component) :
  same_session (view c) (view (fst (submit env cl c))).
Proof.
  destruct (submit_cases env cl c) as [-> | [(fx & -> & _) | (q & t & _ & _ & H)]].
  - apply same_session_refl.
  - repeat split.
  - cbv zeta in H. destruct H as (_ & _ & ->). repeat split.
Qed.

Lemma handleRun_same_session (env : Env) (cl : View) (c : Component) :
  same_session (view c) (view (fst (handleRun env cl c)))
  /\ store (fst (handleRun env cl c)) = store c
  /\ submittedQuestions (view (fst (handleRun env cl c))) = submittedQuestions (view c)
  /\ countdown (fst (handleRun env cl c)) = countdown c
  /\ writes (snd (handleRun env cl c)) = 0%nat.
Proof.
  unfold handleRun.
  destruct (currentQuestion cl) as [q |]; [| repeat split].
  pose proof (run_loop_effects env (code cl) (langId cl)
                (default [] (testCases q)) []) as Hfx.
  destruct (run_loop _ _ _ _ _) as [[vs | e] fx]; cbn [snd] in Hfx.
  - destruct vs; repeat split; cbn [snd]; now rewrite writes_app, audio_no_write, Hfx.
  - repeat split. cbn [snd]. now rewrite !writes_app, audio_no_write, Hfx.
Qed.

Lemma forced_same_session (env : Env) (cl : View) (c : Component) :
  same_session (view c) (view (fst (forced env cl c))).
Proof.
  unfold forced. destruct (currentQuestion cl); [| apply same_session_refl].
  destruct (bool_decide _); [apply same_session_refl | apply submit_same_session].
Qed.

Lemma tick_same_session (env : Env) (c : Component) :
  same_session (view c) (view (fst (tick env c))).
Proof.
  unfold tick. destruct (countdown c) as [cl |]; [| apply same_session_refl].
  destruct (remainingSec (view c)) as [s |]; [| apply same_session_refl].
  destruct (s - 1 <=? 0).
  - match goal with
    | |- context [forced env cl ?x] =>
        pose proof (forced_same_session env cl x) as H;
        destruct (forced env cl x) as [c3 fx2]
    end.
    cbn [fst] in *. destruct (_ && _); exact H.
  - destruct (_ && _); repeat split.
Qed.

Local Ltac keeps :=
  cbn in *; repeat split; try reflexivity; try lia; try assumption;
  try congruence;
  try match goal with
      | H : forall fs, ClickStart ?x <> ClickStart fs |- _ =>
          exfalso; eapply H; reflexivity
      end;
  try (intros Hs Hne;
       first [ discriminate Hs
             | exfalso; eapply Hne; reflexivity
             | repeat split; solve [reflexivity | lia | assumption | congruence] ]).

(** What every event keeps, whatever the environment answers. *)
Lemma handle_keeps (env : Env) (ev : Event) (c : Component) :
  let v := view c in
  let v' := view (fst (handle env ev c)) in
  questions v' = questions v /\ uid v' = uid v
  /\ violations v <= violations v' /\ timerSec v <= timerSec v'
  /\ (0 <= idx v < Z.of_nat (length (questions v)) ->
      0 <= idx v' < Z.of_nat (length (questions v)))
  /\ (started v = false -> (forall fs, ev <> ClickStart fs) ->
      violations v' = violations v /\ timerSec v' = timerSec v
      /\ started v' = false).
Proof.
  cbv zeta. destruct c as [v st w cd dp]. destruct v.
  destruct ev; cbn [handle].
  - match goal with
    | |- context [tick env ?x] =>
        destruct (tick_same_session env x) as (H1 & H2 & _ & _ & H3 & H4 & H5 & H6 & _)
    end.
    rewrite H1, H2, H3, H4, H5, H6. keeps.
  - cbn [view started]. destruct started0; keeps.
  - keeps.
  - keeps.
  - keeps.
  - keeps.
  - match goal with
    | |- context [handleRun env ?y ?x] =>
        destruct (handleRun_same_session env y x)
          as ((H1 & H2 & _ & _ & H3 & H4 & H5 & H6 & _) & _)
    end.
    rewrite H1, H2, H3, H4, H5, H6. keeps.
  - match goal with
    | |- context [submit env ?y ?x] =>
        destruct (submit_same_session env y x)
          as (H1 & H2 & _ & _ & H3 & H4 & H5 & H6 & _)
    end.
    rewrite H1, H2, H3, H4, H5, H6. keeps.
  - keeps.
  - keeps.
  - destruct fs; keeps.
  - destruct fs; keeps.
  - keeps.
  - cbn [view started]. destruct started0; [destruct hidden |]; keeps.
  - cbn [view started]. destruct started0; keeps.
  - cbn [view started]. destruct started0; [destruct inFullscreen |]; keeps.
Qed.

Lemma step_keeps (env : Env) (ev : Event) (c : Component) :
  let v := view c in
  let v' := view (fst (step env ev c)) in
  questions v' = questions v /\ uid v' = uid v
  /\ violations v <= violations v' /\ timerSec v <= timerSec v'
  /\ (0 <= idx v < Z.of_nat (length (questions v)) ->
      0 <= idx v' < Z.of_nat (length (questions v)))
  /\ (started v = false -> (forall fs, ev <> ClickStart fs) ->
      violations v' = violations v /\ timerSec v' = timerSec v
      /\ started v' = false).
Proof.
  cbv zeta. unfold step. pose proof (handle_keeps env ev c) as H. cbv zeta in H.
  destruct (handle env ev c) as [c' fx]. cbn [fst] in *.
  now rewrite commit_view.
Qed.

(** X6: the exam counters only grow: through any run of events [violations]
    and the elapsed seconds never decrease, the loaded questions and the
    candidate stay the same, and as long as Start has not been clicked
    neither counter moves at all. *)
Theorem X6_counters_only_grow (evs : list (Env * Event)) (c : Component) :
  let c' := fst (run evs c) in
  violations (view c) <= violations (view c')
  /\ timerSec (view c) <= timerSec (view c')
  /\ questions (view c') = questions (view c) /\ uid (view c') = uid (view c)
  /\ (started (view c) = false -> no_start evs ->
      violations (view c') = violations (view c)
      /\ timerSec (view c') = timerSec (view c)
      /\ started (view c') = false).
Proof.
  revert c. induction evs as [| [env ev] evs IH]; intros c; cbn [run].
  - cbn. repeat split; auto; lia.
  - destruct (step_keeps env ev c) as (Hq & Hu & Hv & Ht & _ & Hns).
    destruct (step env ev c) as [c1 fx1]. cbn [fst] in *.
    specialize (IH c1). cbv zeta in IH.
    destruct (run evs c1) as [c2 fx2]. cbn [fst] in *.
    destruct IH as (Hv' & Ht' & Hq' & Hu' & Hns').
    split; [etransitivity; eassumption |].
    split; [etransitivity; eassumption |].
    split; [congruence |]. split; [congruence |].
    intros Hs Hno. inversion Hno as [| p ps Hp Hps]; subst.
    destruct (Hns Hs Hp) as (E1 & E2 & E3).
    destruct (Hns' E3 Hps) as (F1 & F2 & F3).
    repeat split; congruence.
Qed.

(** X7: navigation stays inside the list: if the position is a valid index
    into the loaded questions, it is one after any run of events, so there
    is always a current question. *)
Theorem X7_position_stays_in_range (evs : list (Env * Event)) (c : Component) :
  0 <= idx (view c) < Z.of_nat (length (questions (view c))) ->
  let c' := fst (run evs c) in
  0 <= idx (view c') < Z.of_nat (length (questions (view c')))
  /\ is_Some (currentQuestion (view c')).
Proof.
  intros H. cbv zeta.
  assert (Hr : 0 <= idx (view (fst (run evs c)))
               < Z.of_nat (length (questions (view c)))
               /\ questions (view (fst (run evs c))) = questions (view c)).
  { revert c H. induction evs as [| [env ev] evs IH]; intros c H; cbn [run].
    - cbn. auto.
    - destruct (step_keeps env ev c) as (Hq & _ & _ & _ & Hi & _).
      destruct (step env ev c) as [c1 fx1]. cbn [fst] in *.
      specialize (Hi H). rewrite <- Hq in Hi.
      specialize (IH c1 Hi).
      destruct (run evs c1) as [c2 fx2]. cbn [fst] in *.
      destruct IH as [IH1 IH2]. rewrite Hq in IH1. split; congruence. }
  destruct Hr as [Hr Hq]. rewrite Hq. split; [exact Hr |].
  unfold currentQuestion.
  destruct (idx (view (fst (run evs c))) <? 0) eqn:E.
  - apply Z.ltb_lt in E. destruct Hr as [Hr _]. exfalso.
    apply (Zlt_not_le _ _ E Hr).
  - apply lookup_lt_is_Some. rewrite Hq. destruct Hr as [Hr1 Hr2].
    apply Nat2Z.inj_lt. rewrite Z2Nat.id by exact Hr1. exact Hr2.
Qed.

Lemma X7_position_stays_in_range_witness :
  let env := Scenario.env_of Scenario.echo_engine true 0 in
  is_Some (currentQuestion
             (view (fst (run [(env, Next); (env, Next); (env, Next); (env, Prev)]
                             Scenario.session_two)))).
Proof.
  intros env.
  apply (X7_position_stays_in_range
           [(env, Next); (env, Next); (env, Next); (env, Prev)] Scenario.session_two).
  vm_compute. split; [discriminate | reflexivity].
Defined.

Lemma X6_counters_only_grow_witness :
  let env := Scenario.env_of Scenario.echo_engine true 0 in
  let c0 := loadQuestions "alice"
              [Scenario.question "q1" Scenario.two_cases None] 0 ∅ false in
  let evs := [(env, VisibilityChange 10 true); (env, Blur); (env, Second);
              (env, FullscreenChange false)] in
  violations (view (fst (run evs c0))) = 0
  /\ timerSec (view (fst (run evs c0))) = 0.
Proof.
  intros env c0 evs.
  destruct (X6_counters_only_grow evs c0) as (_ & _ & _ & _ & H).
  destruct H as (H1 & H2 & _).
  - reflexivity.
  - repeat constructor; cbn; discriminate.
  - split; [exact H1 | exact H2].
Defined.

(** *** The stored documents *)

Lemma submit_sound_store (env : Env) (cl : View) (c : Component) :
  sound_store (store c) -> sound_store (store (fst (submit env cl c))).
Proof.
  intros Hs.
  destruct (submit_cases env cl c) as [-> | [(fx & -> & _) | (q & t & _ & _ & H)]];
    [exact Hs | exact Hs |].
  cbv zeta in H. destruct H as (Hp & _ & ->). cbn [fst].
  intros k d. cbn. destruct (decide (id q = k)) as [<- | Hne].
  - rewrite lookup_insert_eq. intros [= <-]. unfold sound_doc. cbn.
    split; [reflexivity |]. split; [lia |].
    intros ->. apply percentage_of_zero.
  - rewrite lookup_insert_ne by exact Hne. apply Hs.
Qed.

Lemma tick_sound_store (env : Env) (c : Component) :
  sound_store (store c) -> sound_store (store (fst (tick env c))).
Proof.
  intros Hs. unfold tick.
  destruct (countdown c) as [cl |]; [| exact Hs].
  destruct (remainingSec (view c)) as [s |]; [| exact Hs].
  destruct (s - 1 <=? 0).
  - match goal with
    | |- context [forced env cl ?x] =>
        assert (H : sound_store (store (fst (forced env cl x))));
        [| destruct (forced env cl x) as [c3 fx2]; exact H]
    end.
    unfold forced. destruct (currentQuestion cl); [| now destruct (_ && _)].
    destruct (bool_decide _); [now destruct (_ && _) |].
    apply submit_sound_store. now destruct (_ && _).
  - now destruct (_ && _).
Qed.

Lemma handle_sound_store (env : Env) (ev : Event) (c : Component) :
  sound_store (store c) -> sound_store (store (fst (handle env ev c))).
Proof.
  intros Hs. destruct ev; cbn [handle]; try exact Hs.
  - now apply tick_sound_store.
  - now destruct (started (view c)).
  - destruct (handleRun_same_session env (view c) c) as (_ & -> & _). exact Hs.
  - now apply submit_sound_store.
  - now destruct fs.
  - now destruct fs.
  - now destruct (started (view c) && hidden).
  - now destruct (started (view c)).
  - destruct (started (view c)); [destruct inFullscreen |]; exact Hs.
Qed.

(** X8: every stored submission is consistent: if the documents found at
    load time sit under the id of their problem with
    [0 <= passed <= total] (and percentage 0 when total is 0), so do the
    documents after any run of events, whatever the interpreters and the
    store answer. *)
Theorem X8_stored_submissions_stay_consistent (evs : list (Env * Event))
    (c : Component) :
  sound_store (store c) -> sound_store (store (fst (run evs c))).
Proof.
  revert c. induction evs as [| [env ev] evs IH]; intros c Hs; cbn [run].
  - exact Hs.
  - assert (H1 : sound_store (store (fst (step env ev c)))).
    { unfold step. pose proof (handle_sound_store env ev c Hs) as H.
      destruct (handle env ev c) as [c' fx]. cbn [fst] in *.
      now rewrite commit_store. }
    destruct (step env ev c) as [c1 fx1]. cbn [fst] in H1.
    specialize (IH c1 H1). now destruct (run evs c1).
Qed.

Lemma X8_stored_submissions_stay_consistent_witness :
  let env := Scenario.env_of Scenario.echo_engine true 3 in
  exists d, store (fst (run [(env, ClickSubmit); (env, Tick)] Scenario.session_A))
              !! "q1"%string = Some d
            /\ s_problemId d = "q1"%string /\ 0 <= s_passed d <= s_total d.
Proof.
  intros env.
  assert (Hs : sound_store (store Scenario.session_A)).
  { intros k d H. vm_compute in H. discriminate. }
  pose proof (X8_stored_submissions_stay_consistent
                [(env, ClickSubmit); (env, Tick)] Scenario.session_A Hs) as H.
  destruct (store (fst (run [(env, ClickSubmit); (env, Tick)] Scenario.session_A))
              !! "q1"%string) as [d |] eqn:E.
  - exists d. destruct (H _ _ E) as (H1 & H2 & _). auto.
  - vm_compute in E. discriminate.
Defined.

(** *** Ticks above zero, and sessions without an end time *)

(** X9: a tick that finds more than one second left only counts down: the
    value decreases by one, nothing is executed, written or submitted, the
    one-minute cue sounds exactly when the new value is 60 and the cue was
    not given before (and then the flag stays set), and the interval is
    armed again with the new render. *)
Theorem X9_tick_above_one_only_counts_down (env : Env) (c : Component)
    (cl : View) (s : Z) :
  countdown c = Some cl -> countdownDeps c = deps_of (view c) ->
  roundCompleted (view c) = false ->
  remainingSec (view c) = Some s -> 1 < s ->
  let c' := fst (step env Tick c) in
  remainingSec (view c') = Some (s - 1)
  /\ store c' = store c
  /\ submittedQuestions (view c') = submittedQuestions (view c)
  /\ same_session (view c) (view c')
  /\ snd (step env Tick c)
     = (if (s - 1 =? 60) && negb (warnShownRef c)
        then audio (soundEnabled cl) else [])
  /\ warnShownRef c' = warnShownRef c || (s - 1 =? 60)
  /\ countdown c' = Some (view c').
Proof.
  intros Hcl Hd Hrc Hs Hlt c'. subst c'. unfold step. cbn [handle].
  unfold tick. rewrite Hcl, Hs.
  assert ((s - 1 <=? 0) = false) as -> by lia.
  destruct c as [v st w cd dp]. cbn in Hcl, Hd, Hrc, Hs |- *.
  destruct v. cbn in Hd, Hrc, Hs |- *. subst.
  unfold commit. cbn.
  rewrite bool_decide_eq_false_2.
  - destruct (s - 1 =? 60), w; cbn; repeat split; reflexivity.
  - destruct (s - 1 =? 60), w; cbn; unfold deps_of; cbn;
      intros [= H]; lia.
Qed.

Lemma X9_tick_above_one_only_counts_down_witness :
  let env := Scenario.env_of Scenario.echo_engine true 0 in
  let c := Scenario.session [Scenario.question "q1" Scenario.two_cases (Some 62500)] 0 ∅ in
  remainingSec (view c) = Some 61
  /\ remainingSec (view (fst (step env Tick c))) = Some 60
  /\ snd (step env Tick c) = [PlayAudio]
  /\ warnShownRef (fst (step env Tick c)) = true.
Proof.
  intros env c.
  destruct (X9_tick_above_one_only_counts_down env c (view c) 61)
    as (H1 & _ & _ & _ & H2 & H3 & _); try (vm_compute; reflexivity).
  split; [vm_compute; reflexivity |]. split; [exact H1 |].
  split; [rewrite H2; vm_compute; reflexivity | rewrite H3; vm_compute; reflexivity].
Defined.

Lemma handle_countdown_idle (env : Env) (ev : Event) (c : Component) :
  remainingSec (view c) = None -> countdown c = None ->
  remainingSec (view (fst (handle env ev c))) = None
  /\ countdown (fst (handle env ev c)) = None
  /\ (ev = Tick -> handle env ev c = (c, [])).
Proof.
  intros Hr Hc.
  assert (Hfin : forall c', remainingSec (view c') = remainingSec (view c) ->
                            countdown c' = countdown c ->
                            forall fx : list Effect, ev <> Tick ->
                            remainingSec (view (fst (c', fx))) = None
                            /\ countdown (fst (c', fx)) = None
                            /\ (ev = Tick -> (c', fx) = (c, []))).
  { intros c' H1 H2 fx Hne. cbn [fst]. rewrite H1, H2. repeat split; auto.
    intros ->. now destruct Hne. }
  destruct ev; cbn [handle].
  - unfold tick. rewrite Hc. auto.
  - destruct (started (view c)); apply Hfin; try reflexivity; discriminate.
  - apply Hfin; try reflexivity; discriminate.
  - apply Hfin; try reflexivity; discriminate.
  - apply Hfin; try reflexivity; discriminate.
  - apply Hfin; try reflexivity; discriminate.
  - pose proof (handleRun_remainingSec env (view c) c) as H1.
    destruct (handleRun_same_session env (view c) c) as (_ & _ & _ & H2 & _).
    destruct (handleRun env (view c) c) as [c' fx].
    apply Hfin; [exact H1 | exact H2 | discriminate].
  - pose proof (submit_remainingSec env (view c) c) as H1.
    pose proof (submit_countdown env (view c) c) as H2.
    destruct (submit env (view c) c) as [c' fx].
    apply Hfin; [exact H1 | exact H2 | discriminate].
  - apply Hfin; try reflexivity; discriminate.
  - apply Hfin; try reflexivity; discriminate.
  - destruct fs; apply Hfin; try reflexivity; discriminate.
  - destruct fs; apply Hfin; try reflexivity; discriminate.
  - apply Hfin; try reflexivity; discriminate.
  - destruct (started (view c) && hidden); apply Hfin; try reflexivity; discriminate.
  - destruct (started (view c)); apply Hfin; try reflexivity; discriminate.
  - destruct (started (view c)); [destruct inFullscreen |];
      apply Hfin; try reflexivity; discriminate.
Qed.

Lemma commit_countdown_idle (c : Component) :
  remainingSec (view c) = None -> countdown c = None ->
  countdown (commit c) = None.
Proof.
  intros Hr Hc. unfold commit. destruct (bool_decide _); [exact Hc |].
  cbn. unfold arm. rewrite Hr. now destruct (roundCompleted (view c)).
Qed.

(** X10: without an end time there is no countdown: when no loaded question
    has an end time, [remainingSec] is [null] after the load and after any
    run of events, no interval is ever armed, and a timer tick submits and
    writes nothing. *)
Theorem X10_no_end_time_no_forced_submission (u : string) (docs : list Question)
    (serverNow : Z) (saved : gmap string Submission) (completed : bool)
    (evs : list (Env * Event)) (env : Env) :
  let c0 := loadQuestions u docs serverNow saved completed in
  ends (questions (view c0)) = [] ->
  let c := fst (run evs c0) in
  remainingSec (view c) = None /\ countdown c = None
  /\ snd (step env Tick c) = []
  /\ store (fst (step env Tick c)) = store c.
Proof.
  intros c0 Hends.
  assert (H0 : remainingSec (view c0) = None /\ countdown c0 = None).
  { assert (Hr : remainingSec (view c0) = None).
    { change (baseRemaining (questions (view c0)) serverNow = None).
      now apply baseRemaining_None. }
    split; [exact Hr |].
    change (arm (view c0) = None). unfold arm. rewrite Hr.
    now destruct (roundCompleted (view c0)). }
  clearbody c0. clear Hends.
  assert (Hrun : remainingSec (view (fst (run evs c0))) = None
                 /\ countdown (fst (run evs c0)) = None).
  { revert c0 H0. induction evs as [| [env' ev] evs IH]; intros c0 [Hr Hc]; cbn [run].
    - auto.
    - assert (H1 : remainingSec (view (fst (step env' ev c0))) = None
                   /\ countdown (fst (step env' ev c0)) = None).
      { unfold step. destruct (handle_countdown_idle env' ev c0 Hr Hc) as (A & B & _).
        destruct (handle env' ev c0) as [c' fx]. cbn [fst] in *.
        rewrite commit_view. split; [exact A | now apply commit_countdown_idle]. }
      destruct (step env' ev c0) as [c1 fx1]. cbn [fst] in H1.
      specialize (IH c1 H1). now destruct (run evs c1). }
  cbv zeta. destruct Hrun as [Hr Hc]. split; [exact Hr |]. split; [exact Hc |].
  unfold step.
  destruct (handle_countdown_idle env Tick _ Hr Hc) as (_ & _ & Ht).
  rewrite (Ht eq_refl). cbn [fst snd]. split; [reflexivity | apply commit_store].
Qed.

Lemma X10_no_end_time_no_forced_submission_witness :
  let env := Scenario.env_of Scenario.echo_engine true 0 in
  let c0 := loadQuestions "alice"
              [Scenario.question "q1" Scenario.two_cases None] 0 ∅ false in
  let c := fst (run [(env, ClickStart FsGranted); (env, Second); (env, Tick)] c0) in
  remainingSec (view c) = None /\ snd (step env Tick c) = [].
Proof.
  intros env c0 c.
  destruct (X10_no_end_time_no_forced_submission "alice"
              [Scenario.question "q1" Scenario.two_cases None] 0 ∅ false
              [(env, ClickStart FsGranted); (env, Second); (env, Tick)] env)
    as (H1 & _ & H2 & _).
  - reflexivity.
  - split; [exact H1 | exact H2].
Defined.

End SessionInvariants.

Section CodeBuffers.
Import Coding.

Lemma chars_append (a b : string) :
  list_ascii_of_string (a ++ b)
  = (list_ascii_of_string a ++ list_ascii_of_string b)%list.
Proof. induction a as [|x a IH]; simpl; [reflexivity | f_equal; exact IH]. Qed.

Lemma chars_inj (a b : string) :
  list_ascii_of_string a = list_ascii_of_string b -> a = b.
Proof.
  intros H. rewrite <- (string_of_list_ascii_of_string a),
    <- (string_of_list_ascii_of_string b). now rewrite H.
Qed.

(** X11: the keys of the code buffers do not clash: two keys are equal only
    for the same question id and the same language, and no key is empty. *)
Theorem X11_buffer_keys_are_distinct (q1 q2 : string) (l1 l2 : Lang) :
  (key_of q1 l1 = key_of q2 l2 -> q1 = q2 /\ l1 = l2)
  /\ key_of q1 l1 <> ""%string.
Proof.
  split.
  - unfold key_of. intros H. apply (f_equal list_ascii_of_string) in H.
    rewrite !chars_append in H.
    destruct l1, l2; cbn [lang_id] in H.
    + apply app_inv_tail in H. split; [now apply chars_inj | reflexivity].
    + apply (f_equal (@rev ascii)) in H. rewrite !rev_app_distr in H.
      cbn in H. discriminate.
    + apply (f_equal (@rev ascii)) in H. rewrite !rev_app_distr in H.
      cbn in H. discriminate.
    + apply app_inv_tail in H. split; [now apply chars_inj | reflexivity].
  - unfold key_of. destruct q1; discriminate.
Qed.

Lemma key_of_inj (q1 q2 : string) (l1 l2 : Lang) :
  key_of q1 l1 = key_of q2 l2 -> q1 = q2 /\ l1 = l2.
Proof.
  unfold key_of. intros H. apply (f_equal list_ascii_of_string) in H.
  rewrite !chars_append in H.
  destruct l1, l2; cbn [lang_id] in H.
  - apply app_inv_tail in H. split; [now apply chars_inj | reflexivity].
  - apply (f_equal (@rev ascii)) in H. rewrite !rev_app_distr in H.
    cbn in H. discriminate.
  - apply (f_equal (@rev ascii)) in H. rewrite !rev_app_distr in H.
    cbn in H. discriminate.
  - apply app_inv_tail in H. split; [now apply chars_inj | reflexivity].
Qed.

Lemma key_of_nonempty (q : string) (l : Lang) : key_of q l <> ""%string.
Proof. unfold key_of. destruct q; discriminate. Qed.

Lemma codeKey_key_of (v : View) (q : Question) :
  currentQuestion v = Some q -> codeKey v = key_of (id q) (langId v).
Proof. intros H. unfold codeKey. now rewrite H. Qed.

Lemma code_lookup (v : View) (q : Question) :
  currentQuestion v = Some q ->
  code v = default [] (codeMap v !! key_of (id q) (langId v)).
Proof.
  intros H. unfold code. rewrite (codeKey_key_of v q H).
  rewrite bool_decide_eq_false_2 by apply key_of_nonempty. reflexivity.
Qed.

(** X12: the editor keeps one buffer per question and language: after an
    edit the current buffer is the text typed, every other buffer is
    untouched, and switching to another language and back shows the typed
    text again. *)
Theorem X12_edit_changes_one_buffer (env env1 env2 : Env) (c : Component)
    (q : Question) (val : jstr) (l' : Lang) :
  currentQuestion (view c) = Some q ->
  let c1 := fst (step env (Edit val) c) in
  code (view c1) = val
  /\ (forall qid l, (qid, l) <> (id q, langId (view c)) ->
        codeMap (view c1) !! key_of qid l = codeMap (view c) !! key_of qid l)
  /\ code (view (fst (run [(env1, SelectLang l');
                           (env2, SelectLang (langId (view c)))] c1))) = val.
Proof.
  intros Hq c1.
  assert (Hv : view c1 = set_codeMap (<[key_of (id q) (langId (view c)) := val]>
                                        (codeMap (view c))) (view c)).
  { subst c1. unfold step. cbn [handle fst]. rewrite commit_view.
    rewrite (codeKey_key_of _ _ Hq). reflexivity. }
  assert (Hq1 : currentQuestion (view c1) = Some q) by (rewrite Hv; exact Hq).
  split.
  { rewrite (code_lookup _ _ Hq1), Hv. cbn. now rewrite lookup_insert_eq. }
  split.
  { intros qid l Hne. rewrite Hv. cbn. apply lookup_insert_ne.
    intros H. apply key_of_inj in H. destruct H as [H1 H2]. apply Hne.
    now rewrite <- H1, <- H2. }
  set (c2 := fst (run _ c1)).
  assert (Hv2 : view c2 = set_langId (langId (view c)) (set_langId l' (view c1))).
  { subst c2. cbn [run]. unfold step. cbn [handle fst]. rewrite commit_view.
    change (view (upd_view (set_langId (langId (view c)))
                    (commit (upd_view (set_langId l') c1))))
      with (set_langId (langId (view c))
              (view (commit (upd_view (set_langId l') c1)))).
    rewrite commit_view. reflexivity. }
  assert (Hq2 : currentQuestion (view c2) = Some q) by (rewrite Hv2; exact Hq1).
  rewrite (code_lookup _ _ Hq2), Hv2, Hv. cbn. now rewrite lookup_insert_eq.
Qed.

Lemma X12_edit_changes_one_buffer_witness :
  let env := Scenario.env_of Scenario.echo_engine true 0 in
  let c1 := fst (step env (Edit (utf16 "print(7)")) Scenario.session_two) in
  code (view c1) = utf16 "print(7)"
  /\ code (view (fst (step env Next c1))) = utf16 "print(input())".
Proof.
  intros env c1.
  destruct (X12_edit_changes_one_buffer env env env Scenario.session_two
              (Scenario.question "q1" Scenario.two_cases (Some 2500))
              (utf16 "print(7)") python) as (H1 & _ & _).
  - vm_compute; reflexivity.
  - split; [exact H1 | vm_compute; reflexivity].
Defined.

(** The two buffers [initialCode] installs for one question. *)
Lemma initialCode_step_other (m : gmap string jstr) (q : Question)
    (qid : string) (l : Lang) :
  qid <> id q ->
  foldl (fun m l0 => <[(id q ++ "_" ++ lang_id l0)%string :=
                         match codeTemplate q with
                         | Some (c :: t) => c :: t
                         | _ => template l0
                         end]> m) m [python; javascript] !! key_of qid l
  = m !! key_of qid l.
Proof.
  intros Hne. cbn [foldl].
  change (id q ++ "_" ++ lang_id python)%string with (key_of (id q) python).
  change (id q ++ "_" ++ lang_id javascript)%string with (key_of (id q) javascript).
  rewrite !lookup_insert_ne; [reflexivity | |];
    intros H; apply key_of_inj in H; destruct H as [H _]; now apply Hne.
Qed.

Lemma initialCode_step_same (m : gmap string jstr) (q : Question) (l : Lang) :
  foldl (fun m l0 => <[(id q ++ "_" ++ lang_id l0)%string :=
                         match codeTemplate q with
                         | Some (c :: t) => c :: t
                         | _ => template l0
                         end]> m) m [python; javascript] !! key_of (id q) l
  = Some (starter q l).
Proof.
  cbn [foldl].
  change (id q ++ "_" ++ lang_id python)%string with (key_of (id q) python).
  change (id q ++ "_" ++ lang_id javascript)%string with (key_of (id q) javascript).
  destruct l.
  - rewrite lookup_insert_ne, lookup_insert_eq; [reflexivity |].
    intros H. apply key_of_inj in H. destruct H as [_ H]. discriminate.
  - now rewrite lookup_insert_eq.
Qed.

Lemma initialCode_from_other (qs : list Question) (m : gmap string jstr)
    (qid : string) (l : Lang) :
  qid ∉ map id qs ->
  foldl (fun m q =>
           foldl (fun m l0 => <[(id q ++ "_" ++ lang_id l0)%string :=
                                  match codeTemplate q with
                                  | Some (c :: t) => c :: t
                                  | _ => template l0
                                  end]> m) m [python; javascript]) m qs
    !! key_of qid l
  = m !! key_of qid l.
Proof.
  revert m. induction qs as [|q qs IH]; intros m Hnin; [reflexivity |].
  cbn [foldl map] in *. apply not_elem_of_cons in Hnin. destruct Hnin as [Hne Hnin].
  rewrite IH by exact Hnin. now apply initialCode_step_other.
Qed.

Lemma initialCode_from_same (qs : list Question) (m : gmap string jstr)
    (q : Question) (l : Lang) :
  NoDup (map id qs) -> q ∈ qs ->
  foldl (fun m q =>
           foldl (fun m l0 => <[(id q ++ "_" ++ lang_id l0)%string :=
                                  match codeTemplate q with
                                  | Some (c :: t) => c :: t
                                  | _ => template l0
                                  end]> m) m [python; javascript]) m qs
    !! key_of (id q) l
  = Some (starter q l).
Proof.
  revert m. induction qs as [|q0 qs IH]; intros m Hnd Hin;
    [now apply elem_of_nil in Hin |].
  cbn [map] in Hnd. apply NoDup_cons in Hnd. destruct Hnd as [Hq0 Hnd].
  cbn [foldl]. apply elem_of_cons in Hin. destruct Hin as [-> | Hin].
  - rewrite initialCode_from_other by exact Hq0. apply initialCode_step_same.
  - now apply IH.
Qed.

(** X13: after the load every question has a starting buffer in both
    languages: when the loaded questions have distinct ids, the buffer of
    question [q] in language [l] is the question's own template if it has a
    non-empty one and the template of the language otherwise; there is no
    buffer for an id that was not loaded, and the editor first shows the
    Python starting buffer of the first question. *)
Theorem X13_starting_buffers (u : string) (docs : list Question) (serverNow : Z)
    (saved : gmap string Submission) (completed : bool) :
  let c0 := loadQuestions u docs serverNow saved completed in
  NoDup (map id (questions (view c0))) ->
  (forall q l, q ∈ questions (view c0) ->
     codeMap (view c0) !! key_of (id q) l = Some (starter q l))
  /\ (forall qid l, qid ∉ map id (questions (view c0)) ->
        codeMap (view c0) !! key_of qid l = None)
  /\ (forall q, currentQuestion (view c0) = Some q ->
        code (view c0) = starter q python).
Proof.
  intros c0 Hnd.
  assert (H1 : forall q l, q ∈ questions (view c0) ->
            codeMap (view c0) !! key_of (id q) l = Some (starter q l)).
  { intros q l Hin. exact (initialCode_from_same _ ∅ q l Hnd Hin). }
  split; [exact H1 |]. split.
  - intros qid l Hnin.
    change (codeMap (view c0)) with (initialCode (questions (view c0))).
    unfold initialCode. rewrite initialCode_from_other by exact Hnin.
    apply lookup_empty.
  - intros q Hq. rewrite (code_lookup _ _ Hq).
    change (langId (view c0)) with python. rewrite H1; [reflexivity |].
    unfold currentQuestion in Hq. destruct (idx (view c0) <? 0); [discriminate |].
    apply list_elem_of_lookup. eauto.
Qed.

Lemma X13_starting_buffers_witness :
  let c0 := loadQuestions "alice"
              [Scenario.question "q1" Scenario.two_cases None;
               {| id := "q2"; type := "code"; assignedTo := Some ["alice"%string];
                  startAt := None; endAt := None; testCases := None;
                  codeTemplate := None |}] 0 ∅ false in
  code (view c0) = utf16 "print(input())"
  /\ codeMap (view c0) !! key_of "q2" javascript = Some (template javascript).
Proof.
  intros c0.
  destruct (X13_starting_buffers "alice"
              [Scenario.question "q1" Scenario.two_cases None;
               {| id := "q2"; type := "code"; assignedTo := Some ["alice"%string];
                  startAt := None; endAt := None; testCases := None;
                  codeTemplate := None |}] 0 ∅ false) as (H1 & _ & H3).
  - decide_by_compute.
  - split.
    + apply (H3 (Scenario.question "q1" Scenario.two_cases None)).
      vm_compute; reflexivity.
    + apply (H1 {| id := "q2"; type := "code"; assignedTo := Some ["alice"%string];
                   startAt := None; endAt := None; testCases := None;
                   codeTemplate := None |} javascript).
      apply list_elem_of_lookup. exists 1%nat. vm_compute; reflexivity.
Defined.

End CodeBuffers.

Section CompletedRound.
Import Coding.

Lemma handle_completed (env : Env) (ev : Event) (c : Component) :
  countdown c = None ->
  roundCompleted (view (fst (handle env ev c))) = roundCompleted (view c)
  /\ countdown (fst (handle env ev c)) = None
  /\ (ev = Tick -> handle env ev c = (c, [])).
Proof.
  intros Hc.
  assert (Hfin : forall c', roundCompleted (view c') = roundCompleted (view c) ->
                            countdown c' = countdown c ->
                            forall fx : list Effect, ev <> Tick ->
                            roundCompleted (view (fst (c', fx)))
                            = roundCompleted (view c)
                            /\ countdown (fst (c', fx)) = None
                            /\ (ev = Tick -> (c', fx) = (c, []))).
  { intros c' H1 H2 fx Hne. cbn [fst]. rewrite H1, H2. repeat split; auto.
    intros ->. now destruct Hne. }
  destruct ev; cbn [handle].
  - unfold tick. rewrite Hc. auto.
  - destruct (started (view c)); apply Hfin; try reflexivity; discriminate.
  - apply Hfin; try reflexivity; discriminate.
  - apply Hfin; try reflexivity; discriminate.
  - apply Hfin; try reflexivity; discriminate.
  - apply Hfin; try reflexivity; discriminate.
  - destruct (handleRun_same_session env (view c) c) as (H1 & _ & _ & H2 & _).
    destruct H1 as (_ & _ & _ & _ & _ & _ & _ & _ & _ & _ & H1).
    destruct (handleRun env (view c) c) as [c' fx].
    apply Hfin; [exact H1 | exact H2 | discriminate].
  - pose proof (submit_same_session env (view c) c) as H1.
    destruct H1 as (_ & _ & _ & _ & _ & _ & _ & _ & _ & _ & H1).
    pose proof (submit_countdown env (view c) c) as H2.
    destruct (submit env (view c) c) as [c' fx].
    apply Hfin; [exact H1 | exact H2 | discriminate].
  - apply Hfin; try reflexivity; discriminate.
  - apply Hfin; try reflexivity; discriminate.
  - destruct fs; apply Hfin; try reflexivity; discriminate.
  - destruct fs; apply Hfin; try reflexivity; discriminate.
  - apply Hfin; try reflexivity; discriminate.
  - destruct (started (view c) && hidden); apply Hfin; try reflexivity; discriminate.
  - destruct (started (view c)); apply Hfin; try reflexivity; discriminate.
  - destruct (started (view c)); [destruct inFullscreen |];
      apply Hfin; try reflexivity; discriminate.
Qed.

Lemma step_completed (env : Env) (ev : Event) (c : Component) :
  roundCompleted (view c) = true -> countdown c = None ->
  roundCompleted (view (fst (step env ev c))) = true
  /\ countdown (fst (step env ev c)) = None
  /\ (ev = Tick -> snd (step env ev c) = []
                   /\ view (fst (step env ev c)) = view c
                   /\ store (fst (step env ev c)) = store c).
Proof.
  intros Hr Hc. unfold step.
  destruct (handle_completed env ev c Hc) as (A & B & C).
  destruct (handle env ev c) as [c' fx]. cbn [fst snd] in *.
  rewrite commit_view, commit_store. rewrite Hr in A.
  split; [exact A |]. split.
  - unfold commit. destruct (bool_decide _); [exact B |].
    cbn. unfold arm. now rewrite A.
  - intros E. specialize (C E). injection C as -> ->. auto.
Qed.

(** X14: a round that the load finds completed stays inert.  The load marks
    the round completed when the user's result document says so, or when
    there are saved submissions and as many of them as loaded questions.
    From then on, whatever events follow, the round stays completed, no
    countdown interval is armed, and a timer tick changes nothing: no
    effect, the same render, the same stored documents. *)
Theorem X14_completed_round_is_inert (u : string) (docs : list Question)
    (serverNow : Z) (saved : gmap string Submission) (completed : bool)
    (evs : list (Env * Event)) (env : Env) :
  let c0 := loadQuestions u docs serverNow saved completed in
  completed = true
  \/ (saved <> ∅ /\ size (dom saved) = length (questions (view c0))) ->
  let c := fst (run evs c0) in
  roundCompleted (view c) = true /\ countdown c = None
  /\ snd (step env Tick c) = []
  /\ view (fst (step env Tick c)) = view c
  /\ store (fst (step env Tick c)) = store c.
Proof.
  intros c0 Hload.
  assert (H0 : roundCompleted (view c0) = true /\ countdown c0 = None).
  { assert (Hr : roundCompleted (view c0) = true).
    { change (completed
              || negb (bool_decide (saved = ∅))
                 && bool_decide (size (dom saved) = length (questions (view c0)))
              = true).
      destruct Hload as [-> | [Hne Hsz]]; [reflexivity |].
      rewrite (bool_decide_eq_false_2 _ Hne), (bool_decide_eq_true_2 _ Hsz).
      now destruct completed. }
    split; [exact Hr |].
    change (arm (view c0) = None). unfold arm. now rewrite Hr. }
  clearbody c0. clear Hload.
  assert (Hrun : roundCompleted (view (fst (run evs c0))) = true
                 /\ countdown (fst (run evs c0)) = None).
  { revert c0 H0. induction evs as [| [env' ev] evs IH]; intros c0 [Hr Hc]; cbn [run].
    - auto.
    - destruct (step_completed env' ev c0 Hr Hc) as (A & B & _).
      destruct (step env' ev c0) as [c1 fx1]. cbn [fst] in *.
      specialize (IH c1 (conj A B)).
      destruct (run evs c1) as [c2 fx2]. exact IH. }
  cbv zeta. destruct Hrun as [Hr Hc].
  destruct (step_completed env Tick _ Hr Hc) as (_ & _ & C).
  specialize (C eq_refl). tauto.
Qed.

Lemma X14_completed_round_is_inert_witness :
  let env := Scenario.env_of Scenario.echo_engine true 0 in
  let d := {| s_code := utf16 "print(input())"; s_language := python;
              s_result := Passed; s_percentage := 100; s_passed := 2;
              s_total := 2; s_problemId := "q1"; s_submittedAt := 0;
              s_examViolations := 0; s_durationSec := 5 |} in
  let c0 := loadQuestions "alice"
              [Scenario.question "q1" Scenario.two_cases (Some 2500)] 0
              {["q1"%string := d]} false in
  let c := fst (run [(env, SetAccepted true); (env, ClickStart FsGranted);
                     (env, Second)] c0) in
  roundCompleted (view c) = true /\ snd (step env Tick c) = [].
Proof.
  intros env d c0 c.
  destruct (X14_completed_round_is_inert "alice"
              [Scenario.question "q1" Scenario.two_cases (Some 2500)] 0
              {["q1"%string := d]} false
              [(env, SetAccepted true); (env, ClickStart FsGranted); (env, Second)]
              env) as (H1 & _ & H2 & _).
  - right. split; [| vm_compute; reflexivity].
    intros H. apply (f_equal (fun m => m !! "q1"%string)) in H.
    vm_compute in H. discriminate.
  - split; [exact H1 | exact H2].
Defined.

End CompletedRound.

(** * Further properties of the MCQ round *)

Section McqInvariants.
Import MCQ.

Local Ltac esc :=
  unfold escalation in *; cbn in *;
  repeat match goal with
         | H : _ /\ _ |- _ => destruct H
         end;
  repeat split; try reflexivity; try assumption; try lia; try congruence;
  try (intros; lia); try (intros; congruence);
  try (intuition (try lia; try congruence));
  try (now repeat constructor).

(** No handler touches the registered listeners, the user or the
    questions, and none reopens a submitted session. *)
Lemma handle_frame (env : Env) (ev : Event) (c : Component) :
  let c' := fst (handle env ev c) in
  listeners c' = listeners c /\ listenerDeps c' = listenerDeps c
  /\ user (view c') = user (view c)
  /\ questions (view c') = questions (view c)
  /\ (submitted (view c) = true -> submitted (view c') = true).
Proof.
  destruct c as [v r fs l d]. destruct v. destruct env as [g w t].
  assert (Hv : forall cl c0, let c' := fst (handleViolation (Build_Env g w t) cl c0) in
            listeners c' = listeners c0 /\ listenerDeps c' = listenerDeps c0
            /\ user (view c') = user (view c0)
            /\ questions (view c') = questions (view c0)
            /\ (submitted (view c0) = true -> submitted (view c') = true)).
  { intros cl c0. destruct c0 as [v0 r0 fs0 l0 d0]. destruct v0.
    unfold handleViolation. destruct (negb (started cl) || submitted cl); [esc |].
    destruct (negb (warningGiven cl)); cbn.
    - unfold reEnterFullscreen. cbn. destruct fs0; [| destruct g]; esc.
    - unfold handleReject. cbn. destruct (user cl); [| esc].
      destruct w; cbn; [| esc]. unfold exitFullscreen. cbn. destruct fs0; esc. }
  destruct ev; cbn [handle view fst].
  - esc.
  - unfold reEnterFullscreen. cbn. destruct fs; [| destruct g]; esc.
  - cbn. destruct (started0 && negb submitted0); esc.
  - cbn. destruct submitted0; esc.
  - unfold handleSubmit. cbn. destruct user0; [| esc]. destruct loading0; [esc |].
    destruct w; [| esc].
    unfold exitFullscreen. cbn. destruct fs; esc.
  - esc.
  - esc.
  - unfold listening. cbn. destruct l as [cl |]; [| esc].
    destruct hidden; [| esc]. apply Hv.
  - unfold listening. cbn. destruct l as [cl |]; [| esc].
    destruct inFullscreen; [esc |].
    match goal with |- context [handleViolation _ cl ?x] => apply (Hv cl x) end.
  - unfold listening. cbn. destruct l as [cl |]; [| esc].
    destruct (bool_decide (key = "Escape"%string)); [| esc]. apply Hv.
Qed.

Lemma commit_listeners (c : Component) :
  listenerDeps (commit c) = deps_of (view c)
  /\ (listeners (commit c) = register (view c)
      \/ (deps_of (view c) = listenerDeps c /\ listeners (commit c) = listeners c)).
Proof.
  unfold commit. destruct (bool_decide _) eqn:E.
  - apply bool_decide_eq_true in E. auto.
  - cbn. auto.
Qed.

Lemma register_synced (c : Component) :
  listenerDeps c = deps_of (view c) -> listeners c = register (view c) ->
  synced c.
Proof.
  intros Hd Hl. split; [exact Hd |]. rewrite Hl. unfold register.
  destruct (started (view c) && negb (submitted (view c))) eqn:E; [| reflexivity].
  apply andb_true_iff in E. destruct E as [E1 E2].
  apply negb_true_iff in E2. auto.
Qed.

Lemma step_synced (env : Env) (ev : Event) (c : Component) :
  synced c -> synced (fst (step env ev c)).
Proof.
  intros [Hd Hl]. unfold step.
  pose proof (handle_frame env ev c) as (F1 & F2 & F3 & _). cbv zeta in F1, F2, F3.
  destruct (handle env ev c) as [c' fx]. cbn [fst] in *.
  destruct (commit_listeners c') as [C1 [C2 | [C2 C3]]].
  - apply register_synced; rewrite commit_view_mcq; assumption.
  - split; rewrite commit_view_mcq; [exact C1 |].
    rewrite C3, F1. rewrite F2, Hd in C2.
    destruct (listeners c) as [cl |].
    + destruct Hl as (L1 & L2 & L3 & L4). repeat split; congruence.
    + unfold deps_of in C2. injection C2 as -> -> _ _. exact Hl.
Qed.

Lemma initial_synced (u : option string) (qs : list Question) (saved : Response)
    (fs : bool) : synced (initial u qs saved fs).
Proof. apply register_synced; reflexivity. Qed.

Lemma run_synced (evs : list (Env * Event)) (c : Component) :
  synced c -> synced (fst (run evs c)).
Proof.
  revert c. induction evs as [| [env ev] evs IH]; intros c H; cbn [run].
  - exact H.
  - pose proof (step_synced env ev c H) as H1.
    destruct (step env ev c) as [c1 fx1]. cbn [fst] in H1.
    specialize (IH c1 H1). destruct (run evs c1) as [c2 fx2]. exact IH.
Qed.

Lemma handle_escalation (env : Env) (ev : Event) (c : Component) (u : string) :
  synced c -> user (view c) = Some u -> escalation c ->
  escalation (fst (handle env ev c)).
Proof.
  destruct c as [v r fs l d]. destruct v. destruct env as [g w t].
  unfold synced. cbn. intros (Hd & Hl) Hu He.
  destruct ev; cbn [handle view fst].
  - esc.
  - unfold reEnterFullscreen. cbn. destruct fs; [| destruct g]; esc.
  - cbn. destruct (started0 && negb submitted0); esc.
  - cbn. destruct submitted0; esc.
  - unfold handleSubmit. cbn. rewrite Hu. destruct loading0; [esc |].
    destruct w; [| esc].
    unfold exitFullscreen. cbn. destruct fs; esc.
  - esc.
  - esc.
  - unfold listening. cbn. destruct l as [cl |]; [| esc].
    destruct cl. cbn in Hl. destruct Hl as (Hl1 & Hl2 & Hl3 & Hl4).
    injection Hl1 as -> -> -> ->. subst.
    destruct hidden; [| esc].
    unfold handleViolation. cbn.
    destruct warningGiven0; cbn.
    + unfold handleReject. cbn. destruct w; cbn.
      * unfold exitFullscreen. cbn. destruct fs; esc.
      * esc.
    + unfold reEnterFullscreen. cbn. destruct fs; [| destruct g]; esc.
  - unfold listening. cbn. destruct l as [cl |]; [| esc].
    destruct cl. cbn in Hl. destruct Hl as (Hl1 & Hl2 & Hl3 & Hl4).
    injection Hl1 as -> -> -> ->. subst.
    destruct inFullscreen; [esc |].
    unfold handleViolation. cbn.
    destruct warningGiven0; cbn.
    + unfold handleReject. cbn. destruct w; cbn; esc.
    + unfold reEnterFullscreen. cbn. destruct g; esc.
  - unfold listening. cbn. destruct l as [cl |]; [| esc].
    destruct cl. cbn in Hl. destruct Hl as (Hl1 & Hl2 & Hl3 & Hl4).
    injection Hl1 as -> -> -> ->. subst.
    destruct (bool_decide (key = "Escape"%string)); [| esc].
    unfold handleViolation. cbn.
    destruct warningGiven0; cbn.
    + unfold handleReject. cbn. destruct w; cbn.
      * unfold exitFullscreen. cbn. destruct fs; esc.
      * esc.
    + unfold reEnterFullscreen. cbn. destruct fs; [| destruct g]; esc.
Qed.

Lemma step_escalation (env : Env) (ev : Event) (c : Component) (u : string) :
  synced c -> user (view c) = Some u -> escalation c ->
  user (view (fst (step env ev c))) = Some u
  /\ escalation (fst (step env ev c)).
Proof.
  intros Hs Hu He. unfold step.
  pose proof (handle_escalation env ev c u Hs Hu He) as H.
  pose proof (handle_frame env ev c) as (_ & _ & F & _). cbv zeta in F.
  destruct (handle env ev c) as [c' fx]. cbn [fst] in *.
  unfold escalation. rewrite commit_view_mcq, commit_response.
  split; [congruence | exact H].
Qed.

(** X15: a signed-in candidate is never rejected at the first violation.
    In every session that starts from a document not yet marked rejected,
    whatever events occur, the violation counter stays between 0 and 2, it
    reaches 2 only in a closed session, and the document is marked rejected
    only when the counter is 2 and the warning has been given. *)
Theorem X15_no_rejection_before_second_violation (u : string)
    (qs : list Question) (saved : Response) (fs : bool)
    (evs : list (Env * Event)) :
  round1Rejected saved <> Some true ->
  let c := fst (run evs (initial (Some u) qs saved fs)) in
  0 <= violations (view c) <= 2
  /\ (violations (view c) = 2 -> submitted (view c) = true)
  /\ (round1Rejected (response c) = Some true ->
      violations (view c) = 2 /\ warningGiven (view c) = true).
Proof.
  intros Hsaved.
  assert (H0 : synced (initial (Some u) qs saved fs)
               /\ user (view (initial (Some u) qs saved fs)) = Some u
               /\ escalation (initial (Some u) qs saved fs)).
  { split; [apply initial_synced |]. split; [reflexivity |].
    unfold escalation. cbn. repeat split; try lia; try discriminate.
    all: intros; congruence. }
  generalize dependent (initial (Some u) qs saved fs). intros c0 H0.
  assert (H : escalation (fst (run evs c0))).
  { revert c0 H0. induction evs as [| [env ev] evs IH]; intros c0 (Hs & Hu & He);
      cbn [run].
    - exact He.
    - pose proof (step_synced env ev c0 Hs) as H1.
      pose proof (step_escalation env ev c0 u Hs Hu He) as [H2 H3].
      destruct (step env ev c0) as [c1 fx1]. cbn [fst] in *.
      specialize (IH c1 (conj H1 (conj H2 H3))).
      destruct (run evs c1) as [c2 fx2]. exact IH. }
  cbv zeta. destruct H as (A & _ & _ & B & C). repeat split; try tauto; try lia.
Qed.

Lemma X15_no_rejection_before_second_violation_witness :
  let env := Scenario.mcq_env true 5 in
  let c := fst (run [(env, SetAccepted true); (env, ClickStart);
                     (env, VisibilityChange 5 true); (env, KeyDown "Escape")]
                    (initial (Some "alice"%string)
                       [Scenario.mcq_question "q1" "a"] no_response false)) in
  round1Rejected (response c) = Some true /\ violations (view c) = 2.
Proof.
  intros env c.
  destruct (X15_no_rejection_before_second_violation "alice"
              [Scenario.mcq_question "q1" "a"] no_response false
              [(env, SetAccepted true); (env, ClickStart);
               (env, VisibilityChange 5 true); (env, KeyDown "Escape")])
    as (_ & _ & H).
  - discriminate.
  - assert (Hr : round1Rejected (response c) = Some true) by (vm_compute; reflexivity).
    split; [exact Hr | apply (H Hr)].
Defined.

(** In a closed session the handlers other than [handleSubmit] leave the
    answers, the counters and the document alone; at most a full-screen
    request comes out. *)
Lemma handle_closed (env : Env) (ev : Event) (c : Component) :
  submitted (view c) = true -> listeners c = None -> ev <> ClickSubmit ->
  let c' := fst (handle env ev c) in
  answers (view c') = answers (view c)
  /\ violations (view c') = violations (view c)
  /\ timerSec (view c') = timerSec (view c)
  /\ response c' = response c
  /\ Forall (fun e => e = RequestFullscreen) (snd (handle env ev c)).
Proof.
  destruct c as [v r fs l d]. destruct v. destruct env as [g w t].
  cbn. intros -> -> Hev.
  destruct ev; cbn [handle view fst]; try (now destruct Hev).
  - esc.
  - unfold reEnterFullscreen. cbn. destruct fs; [| destruct g]; esc.
  - cbn. rewrite andb_false_r. esc.
  - esc.
  - esc.
  - esc.
  - esc.
  - esc.
  - esc.
Qed.

(** X16: a submitted session is closed.  Once [submitted] is true, in a
    session reached from the load, no event other than a click on Submit
    (whose button is no longer rendered) changes the answers, the violation
    counter, the timer or the stored document, and nothing is written:
    the only effect left is a full-screen request. *)
Theorem X16_submitted_session_is_closed (u : option string)
    (qs : list Question) (saved : Response) (fs : bool)
    (evs0 evs : list (Env * Event)) :
  let c := fst (run evs0 (initial u qs saved fs)) in
  submitted (view c) = true ->
  Forall (fun p => snd p <> ClickSubmit) evs ->
  let c' := fst (run evs c) in
  submitted (view c') = true
  /\ answers (view c') = answers (view c)
  /\ violations (view c') = violations (view c)
  /\ timerSec (view c') = timerSec (view c)
  /\ response c' = response c
  /\ Forall (fun e => e = RequestFullscreen) (snd (run evs c)).
Proof.
  intros c Hsub Hevs.
  assert (Hs : synced c) by apply run_synced, initial_synced.
  clearbody c. cbv zeta. revert c Hsub Hs.
  induction Hevs as [| [env ev] evs Hev _ IH]; intros c Hsub Hs; cbn [run].
  - repeat split; auto.
  - cbn [snd] in Hev.
    assert (Hl : listeners c = None).
    { destruct Hs as [Hd Hl]. destruct (listeners c) as [cl |]; [| reflexivity].
      destruct Hl as (L1 & _ & _ & L4). unfold deps_of in L1.
      injection L1 as _ L1 _ _. congruence. }
    pose proof (step_synced env ev c Hs) as Hs1.
    pose proof (handle_closed env ev c Hsub Hl Hev) as (A1 & A2 & A3 & A4 & A5).
    pose proof (handle_frame env ev c) as (_ & _ & _ & _ & F).
    cbv zeta in A1, A2, A3, A4, F. specialize (F Hsub).
    unfold step in *. destruct (handle env ev c) as [c1 fx1]. cbn [fst snd] in *.
    rewrite <- (commit_view_mcq c1) in A1, A2, A3, F.
    rewrite <- (commit_response c1) in A4.
    destruct (IH (commit c1) F Hs1) as (B0 & B1 & B2 & B3 & B4 & B5).
    destruct (run evs (commit c1)) as [c2 fx2]. cbn [fst snd] in *.
    repeat split; try congruence.
    apply Forall_app. split; assumption.
Qed.

Lemma X16_submitted_session_is_closed_witness :
  let env := Scenario.mcq_env true 7 in
  let evs0 := [(env, SetAccepted true); (env, ClickStart);
               (env, Select "q1" "a"); (env, ClickSubmit)] in
  let c := fst (run evs0 (initial (Some "alice"%string)
                            [Scenario.mcq_question "q1" "a"] no_response false)) in
  let c' := fst (run [(env, VisibilityChange 7 true); (env, Select "q1" "b");
                      (env, Second)] c) in
  submitted (view c) = true
  /\ response c' = response c /\ violations (view c') = 0.
Proof.
  intros env evs0 c c'.
  assert (Hsub : submitted (view c) = true) by (vm_compute; reflexivity).
  destruct (X16_submitted_session_is_closed (Some "alice"%string)
              [Scenario.mcq_question "q1" "a"] no_response false evs0
              [(env, VisibilityChange 7 true); (env, Select "q1" "b"); (env, Second)]
              Hsub) as (_ & _ & H2 & _ & H4 & _).
  - repeat constructor; discriminate.
  - split; [exact Hsub |]. split; [exact H4 |].
    fold c in H2. fold c' in H2. rewrite H2. vm_compute; reflexivity.
Defined.

Lemma handle_idle (env : Env) (ev : Event) (c : Component) :
  idle c -> ev <> ClickStart ->
  let c' := fst (handle env ev c) in
  started (view c') = false
  /\ (ev <> ClickSubmit ->
      violations (view c') = violations (view c)
      /\ timerSec (view c') = timerSec (view c)
      /\ submitted (view c') = submitted (view c)
      /\ response c' = response c
      /\ snd (handle env ev c) = []).
Proof.
  destruct c as [v r fs l d]. destruct v. destruct env as [g w t].
  unfold idle. cbn. intros (-> & -> & ->) Hev.
  destruct ev; cbn [handle view fst]; try (now destruct Hev).
  - esc.
  - esc.
  - cbn. destruct submitted0; esc.
  - unfold handleSubmit. cbn. destruct user0; [| esc]. destruct loading0; [esc |].
    destruct w; [| esc].
    unfold exitFullscreen. cbn. destruct fs; esc.
  - esc.
  - esc.
  - esc.
  - esc.
  - esc.
Qed.

Lemma step_idle (env : Env) (ev : Event) (c : Component) :
  idle c -> ev <> ClickStart -> idle (fst (step env ev c)).
Proof.
  intros Hi Hev. pose proof (handle_idle env ev c Hi Hev) as [H _].
  pose proof (handle_frame env ev c) as (F1 & F2 & _). cbv zeta in H, F1, F2.
  destruct Hi as (I1 & I2 & I3).
  unfold step. destruct (handle env ev c) as [c1 fx1]. cbn [fst] in *.
  unfold idle. rewrite commit_view_mcq.
  destruct (commit_listeners c1) as [C1 [C2 | [C2 C3]]].
  - repeat split; [exact H | | exact C1].
    rewrite C2. unfold register. now rewrite H.
  - repeat split; [exact H | congruence | exact C1].
Qed.

(** X17: nothing counts before the test is started.  From the load until
    the click on Start, events (a click on Submit apart, whose button is not
    rendered yet) leave the violation counter and the timer at 0 and the
    stored document as it was, and have no effect; the click on Start then
    registers the listeners with the render that has [started] true,
    whether or not the browser grants full-screen. *)
Theorem X17_nothing_counts_before_start (u : option string)
    (qs : list Question) (saved : Response) (fs : bool)
    (evs : list (Env * Event)) (env : Env) :
  Forall (fun p => snd p <> ClickStart /\ snd p <> ClickSubmit) evs ->
  let c := fst (run evs (initial u qs saved fs)) in
  started (view c) = false
  /\ violations (view c) = 0 /\ timerSec (view c) = 0
  /\ response c = saved
  /\ snd (run evs (initial u qs saved fs)) = []
  /\ (submitted (view c) = false -> running_in_sync (fst (step env ClickStart c))).
Proof.
  intros Hevs.
  assert (H0 : idle (initial u qs saved fs)
               /\ violations (view (initial u qs saved fs)) = 0
               /\ timerSec (view (initial u qs saved fs)) = 0
               /\ response (initial u qs saved fs) = saved).
  { repeat split. }
  generalize dependent (initial u qs saved fs). intros c0 H0.
  assert (H : idle (fst (run evs c0))
              /\ violations (view (fst (run evs c0))) = 0
              /\ timerSec (view (fst (run evs c0))) = 0
              /\ response (fst (run evs c0)) = saved
              /\ snd (run evs c0) = []).
  { revert c0 H0.
    induction Hevs as [| [env' ev] evs [Hev1 Hev2] _ IH];
      intros c0 (Hi & Hv & Ht & Hr); cbn [run].
    - auto.
    - cbn [snd] in Hev1, Hev2.
      pose proof (step_idle env' ev c0 Hi Hev1) as Hi1.
      pose proof (handle_idle env' ev c0 Hi Hev1) as [_ H].
      specialize (H Hev2). cbv zeta in H. destruct H as (A1 & A2 & _ & A4 & A5).
      unfold step in *. destruct (handle env' ev c0) as [c1 fx1]. cbn [fst snd] in *.
      subst fx1.
      rewrite <- (commit_view_mcq c1) in A1, A2.
      rewrite <- (commit_response c1) in A4.
      assert (H1 : idle (commit c1) /\ violations (view (commit c1)) = 0
                   /\ timerSec (view (commit c1)) = 0
                   /\ response (commit c1) = saved)
        by (repeat split; try apply Hi1; congruence).
      specialize (IH (commit c1) H1).
      destruct (run evs (commit c1)) as [c2 fx2]. exact IH. }
  cbv zeta. destruct H as (Hi & Hv & Ht & Hr & Hfx).
  destruct Hi as (I1 & I2 & I3).
  do 5 (split; [assumption |]).
  intros Hsub. destruct (fst (run evs c0)) as [v r f l d]. destruct v.
  destruct env as [g w t]. cbn in *. subst.
  unfold running_in_sync.
  destruct f; [| destruct g]; vm_compute; auto.
Qed.

Lemma X17_nothing_counts_before_start_witness :
  let env := Scenario.mcq_env true 3 in
  let c := fst (run [(env, VisibilityChange 3 true); (env, KeyDown "Escape");
                     (env, Second)]
                    (initial (Some "alice"%string)
                       [Scenario.mcq_question "q1" "a"] no_response false)) in
  violations (view c) = 0 /\ timerSec (view c) = 0 /\ response c = no_response.
Proof.
  intros env c.
  destruct (X17_nothing_counts_before_start (Some "alice"%string)
              [Scenario.mcq_question "q1" "a"] no_response false
              [(env, VisibilityChange 3 true); (env, KeyDown "Escape"); (env, Second)]
              env) as (_ & H1 & H2 & H3 & _).
  - repeat constructor; discriminate.
  - auto.
Defined.

End McqInvariants.

Section McqSubmission.
Import MCQ.

Lemma grade_details_other (a : gmap string string) (qs : list Question)
    (t : Tally) (i : string) :
  i ∉ map id qs ->
  answerDetails (foldl (grade a) t qs) !! i = answerDetails t !! i.
Proof.
  revert t. induction qs as [| q qs IH]; intros t Hnin; [reflexivity |].
  cbn [foldl map] in *. apply not_elem_of_cons in Hnin. destruct Hnin as [Hne Hnin].
  rewrite IH by exact Hnin. cbn. now apply lookup_insert_ne.
Qed.

Lemma grade_details (a : gmap string string) (qs : list Question)
    (t : Tally) (q : Question) :
  NoDup (map id qs) -> q ∈ qs ->
  answerDetails (foldl (grade a) t qs) !! id q = Some (detail a q).
Proof.
  revert t. induction qs as [| q0 qs IH]; intros t Hnd Hin.
  - now apply elem_of_nil in Hin.
  - cbn [map] in Hnd. apply NoDup_cons in Hnd. destruct Hnd as [Hq0 Hnd].
    cbn [foldl]. apply elem_of_cons in Hin. destruct Hin as [-> | Hin].
    + rewrite grade_details_other by exact Hq0. cbn. apply lookup_insert_eq.
    + now apply IH.
Qed.

Lemma run_two (e1 e2 : Env) (ev1 ev2 : Event) (c : Component) :
  fst (run [(e1, ev1); (e2, ev2)] c) = fst (step e2 ev2 (fst (step e1 ev1 c))).
Proof.
  cbn [run]. destruct (step e1 ev1 c) as [c1 fx1]. cbn [fst].
  now destruct (step e2 ev2 c1).
Qed.

Lemma handleSubmit_written (env : Env) (cl : View) (c : Component) (u : string) :
  user cl = Some u -> loading cl = false -> write_ok env = true ->
  let c' := fst (handleSubmit env cl c) in
  let t := grade_all (questions cl) (answers cl) in
  round1 (response c')
  = Some {| submittedAt := now env; score := correctCount t;
            r_correct := correctCount t; r_wrong := wrongCount t;
            r_answers := answerDetails t; examDuration := timerSec cl;
            r_violations := violations cl |}
  /\ round1Submitted (response c') = Some true
  /\ submitted (view c') = true /\ loading (view c') = false.
Proof.
  intros Hu Hl Hok. unfold handleSubmit. rewrite Hu, Hl, Hok.
  unfold exitFullscreen. destruct c as [v r fs l d]. destruct v.
  cbn. destruct fs; cbn; auto.
Qed.

(** X18: a failed write does not close the MCQ round, and the submission
    can be repeated.  When the write of [handleSubmit] fails, the stored
    document, the answers and [submitted] are as before, [loading] is back
    to false, the message asks to try again and nothing navigates; a second
    click whose write succeeds then stores the graded result and closes the
    round. *)
Theorem X18_failed_submission_can_be_repeated (env env2 : Env) (c : Component)
    (u : string) :
  user (view c) = Some u -> loading (view c) = false ->
  write_ok env = false -> write_ok env2 = true ->
  let c1 := fst (step env ClickSubmit c) in
  let c2 := fst (step env2 ClickSubmit c1) in
  response c1 = response c
  /\ submitted (view c1) = submitted (view c)
  /\ answers (view c1) = answers (view c)
  /\ loading (view c1) = false
  /\ warningMsg (view c1) = Some "Submission failed. Please try again."%string
  /\ (forall p, ~ In (Navigate p) (snd (step env ClickSubmit c))
                /\ ~ In (NavigateLater p) (snd (step env ClickSubmit c)))
  /\ submitted (view c2) = true
  /\ round1Submitted (response c2) = Some true
  /\ exists r, round1 (response c2) = Some r
               /\ score r = correctCount (grade_all (questions (view c))
                                                    (answers (view c))).
Proof.
  intros Hu Hl Hw Hok c1 c2.
  assert (H1 : handle env ClickSubmit c
               = (upd_view (fun v =>
                    set_loading false
                      (set_warningMsg
                         (Some "Submission failed. Please try again."%string) v))
                    (upd_view (set_loading true) c),
                  [SetDoc
                     {| round1 :=
                          Some {| submittedAt := now env;
                                  score := correctCount (grade_all (questions (view c))
                                                                   (answers (view c)));
                                  r_correct := correctCount (grade_all (questions (view c))
                                                                       (answers (view c)));
                                  r_wrong := wrongCount (grade_all (questions (view c))
                                                                   (answers (view c)));
                                  r_answers := answerDetails (grade_all (questions (view c))
                                                                        (answers (view c)));
                                  examDuration := timerSec (view c);
                                  r_violations := violations (view c) |};
                        round1Submitted := Some true; round1Rejected := None;
                        rejectedAt := None; doc_violations := None |};
                   ConsoleError])).
  { cbn [handle]. unfold handleSubmit. now rewrite Hu, Hl, Hw. }
  assert (Hv1 : view c1 = set_loading false
                   (set_warningMsg (Some "Submission failed. Please try again."%string)
                      (set_loading true (view c)))).
  { subst c1. unfold step. rewrite H1. cbn [fst]. now rewrite commit_view_mcq. }
  assert (Hr1 : response c1 = response c).
  { subst c1. unfold step. rewrite H1. cbn [fst]. now rewrite commit_response. }
  assert (Hfx : snd (step env ClickSubmit c) = snd (handle env ClickSubmit c)).
  { unfold step. now destruct (handle env ClickSubmit c). }
  split; [exact Hr1 |].
  split; [now rewrite Hv1 |]. split; [now rewrite Hv1 |].
  split; [now rewrite Hv1 |]. split; [now rewrite Hv1 |].
  split.
  { intros p. rewrite Hfx, H1. cbn.
    split; intros [H | [H | H]]; try discriminate; exact H. }
  assert (Hu1 : user (view c1) = Some u) by (now rewrite Hv1).
  assert (Hl1 : loading (view c1) = false) by (now rewrite Hv1).
  pose proof (handleSubmit_written env2 (view c1) c1 u Hu1 Hl1 Hok) as H2.
  cbv zeta in H2. destruct H2 as (A & B & C & _).
  assert (E2 : view c2 = view (fst (handleSubmit env2 (view c1) c1))
               /\ response c2 = response (fst (handleSubmit env2 (view c1) c1))).
  { subst c2. unfold step. cbn [handle].
    destruct (handleSubmit env2 (view c1) c1) as [c' fx]. cbn [fst].
    now rewrite commit_view_mcq, commit_response. }
  destruct E2 as [E2 E3]. rewrite E2, E3.
  split; [exact C |]. split; [exact B |].
  eexists. split; [exact A |]. cbn [score]. now rewrite Hv1.
Qed.

Lemma X18_failed_submission_can_be_repeated_witness :
  let c := Scenario.mcq_session [Scenario.mcq_question "q1" "a"] in
  let c1 := fst (step (Scenario.mcq_env false 4) ClickSubmit c) in
  let c2 := fst (step (Scenario.mcq_env true 9) ClickSubmit c1) in
  response c1 = no_response /\ submitted (view c1) = false
  /\ submitted (view c2) = true.
Proof.
  intros c c1 c2.
  destruct (X18_failed_submission_can_be_repeated
              (Scenario.mcq_env false 4) (Scenario.mcq_env true 9) c "alice")
    as (H1 & H2 & _ & _ & _ & _ & H3 & _).
  - reflexivity.
  - reflexivity.
  - reflexivity.
  - reflexivity.
  - split; [exact H1 |]. split; [exact H2 | exact H3].
Defined.

(** X19: the option selected last is the one that is graded.  In an open
    session whose questions have distinct ids, selecting [opt] for question
    [q] and then submitting stores, for [q], the entry with [selected = opt]
    and [isCorrect] true exactly when [opt] is the stored answer; the entry
    of every other question is the one of the answers as they were. *)
Theorem X19_selected_option_is_graded (env1 env2 : Env) (c : Component)
    (q : Question) (opt u : string) :
  user (view c) = Some u -> loading (view c) = false ->
  submitted (view c) = false -> write_ok env2 = true ->
  NoDup (map id (questions (view c))) -> q ∈ questions (view c) ->
  let c2 := fst (run [(env1, Select (id q) opt); (env2, ClickSubmit)] c) in
  exists r,
    round1 (response c2) = Some r
    /\ r_answers r !! id q
       = Some {| d_question := title q; selected := opt; correct := answer q;
                 isCorrect := bool_decide (Some opt = answer q) |}
    /\ (forall q', q' ∈ questions (view c) -> id q' <> id q ->
          r_answers r !! id q' = Some (detail (answers (view c)) q')).
Proof.
  intros Hu Hl Hsub Hok Hnd Hin c2.
  set (c1 := fst (step env1 (Select (id q) opt) c)).
  assert (Hv1 : view c1 = set_answers (<[id q := opt]> (answers (view c))) (view c)).
  { subst c1. unfold step. cbn [handle]. rewrite Hsub. cbn [fst].
    now rewrite commit_view_mcq. }
  assert (Hu1 : user (view c1) = Some u) by (now rewrite Hv1).
  assert (Hl1 : loading (view c1) = false) by (now rewrite Hv1).
  pose proof (handleSubmit_written env2 (view c1) c1 u Hu1 Hl1 Hok) as H2.
  cbv zeta in H2. destruct H2 as (A & _).
  assert (E : response c2 = response (fst (handleSubmit env2 (view c1) c1))).
  { subst c2. rewrite run_two. fold c1. unfold step. cbn [handle].
    destruct (handleSubmit env2 (view c1) c1) as [c' fx]. cbn [fst].
    now rewrite commit_response. }
  rewrite E. eexists. split; [exact A |]. cbn [r_answers].
  assert (Hq : questions (view c1) = questions (view c)) by (now rewrite Hv1).
  assert (Ha : answers (view c1) = <[id q := opt]> (answers (view c)))
    by (now rewrite Hv1).
  unfold grade_all. rewrite Hq, Ha. split.
  - rewrite (grade_details _ _ _ q Hnd Hin). unfold detail.
    now rewrite lookup_insert_eq.
  - intros q' Hin' Hne. rewrite (grade_details _ _ _ q' Hnd Hin'). unfold detail.
    rewrite lookup_insert_ne by congruence. reflexivity.
Qed.

Lemma X19_selected_option_is_graded_witness :
  let c := Scenario.mcq_session [Scenario.mcq_question "q1" "a";
                                 Scenario.mcq_question "q2" "b"] in
  let c2 := fst (run [(Scenario.mcq_env true 4, Select "q1" "a");
                      (Scenario.mcq_env true 9, ClickSubmit)] c) in
  exists r, round1 (response c2) = Some r
            /\ isCorrect <$> (r_answers r !! "q1"%string) = Some true.
Proof.
  intros c c2.
  destruct (X19_selected_option_is_graded
              (Scenario.mcq_env true 4) (Scenario.mcq_env true 9) c
              (Scenario.mcq_question "q1" "a") "a" "alice")
    as (r & H1 & H2 & _).
  - reflexivity.
  - reflexivity.
  - reflexivity.
  - reflexivity.
  - decide_by_compute.
  - apply list_elem_of_lookup. exists 0%nat. vm_compute; reflexivity.
  - exists r. split; [exact H1 |].
    change (id (Scenario.mcq_question "q1" "a")) with "q1"%string in H2.
    rewrite H2. reflexivity.
Defined.

End McqSubmission.

(** * Further properties of the layout proctoring *)

Section LayoutLockout.
Import Layout.

Lemma handleViolation_cases (now : Z) (fs : bool) (s : State) :
  let s' := fst (handleViolation now fs s) in
  let fx := snd (handleViolation now fs s) in
  violationCount s' = violationCount s + 1
  /\ fullScreenRequested s' = fullScreenRequested s
  /\ active s' = active s
  /\ (violationCount s + 1 < 5 ->
      exam_lockout_until s' = exam_lockout_until s /\ signOuts fx = 0%nat)
  /\ (5 <= violationCount s + 1 ->
      exam_lockout_until s' = Some (now + 600000) /\ signOuts fx = 1%nat).
Proof.
  unfold handleViolation. destruct (5 <=? violationCount s + 1) eqn:E.
  - apply Z.leb_le in E. cbn. repeat split; try lia.
    destruct fs; reflexivity.
  - apply Z.leb_gt in E. cbn. repeat split; try lia.
Qed.

(** One event: the counter stays or grows by one; when it grows to less
    than 5 the lockout entry is untouched and [signOut] is not called, when
    it grows to 5 or more the entry is set to ten minutes after the event
    and [signOut] is called once. *)
Lemma handle_cases (now : Z) (fs : bool) (ev : Event) (s : State) :
  let s' := fst (handle now fs ev s) in
  let fx := snd (handle now fs ev s) in
  (violationCount s' = violationCount s
   /\ exam_lockout_until s' = exam_lockout_until s /\ signOuts fx = 0%nat)
  \/ (violationCount s' = violationCount s + 1
      /\ (violationCount s' < 5 ->
          exam_lockout_until s' = exam_lockout_until s /\ signOuts fx = 0%nat)
      /\ (5 <= violationCount s' ->
          exam_lockout_until s' = Some (now + 600000) /\ signOuts fx = 1%nat)).
Proof.
  assert (Hviol : forall s1 : State,
            violationCount s1 = violationCount s ->
            exam_lockout_until s1 = exam_lockout_until s ->
            violationCount (fst (handleViolation now fs s1)) = violationCount s + 1
            /\ (violationCount (fst (handleViolation now fs s1)) < 5 ->
                exam_lockout_until (fst (handleViolation now fs s1))
                = exam_lockout_until s
                /\ signOuts (snd (handleViolation now fs s1)) = 0%nat)
            /\ (5 <= violationCount (fst (handleViolation now fs s1)) ->
                exam_lockout_until (fst (handleViolation now fs s1))
                = Some (now + 600000)
                /\ signOuts (snd (handleViolation now fs s1)) = 1%nat)).
  { intros s1 H1 H2.
    destruct (handleViolation_cases now fs s1) as (A & _ & _ & B & C).
    cbv zeta in A, B, C. rewrite A, H1 in *.
    split; [reflexivity |]. split.
    - intros Hlt. destruct (B Hlt) as [B1 B2]. split; congruence.
    - intros Hge. apply C. lia. }
  destruct ev; cbn [handle].
  - destruct (active s); [| left; auto].
    unfold onVisibilityChange.
    destruct (now - lastVisibilityChange s <? 500); [left; auto |].
    destruct hidden; [right; apply Hviol; reflexivity | left; auto].
  - destruct (active s); [| left; auto].
    right. unfold onBlur. now apply Hviol.
  - destruct (active s); [| left; auto].
    unfold onFullscreenChange.
    destruct (negb fs && fullScreenRequested s) eqn:E; [| left; auto].
    specialize (Hviol s eq_refl eq_refl).
    destruct (handleViolation now fs s) as [s1 fx1]. cbn [fst snd] in Hviol.
    destruct Hviol as (V1 & V2 & V3).
    assert (Hso : forall fx2, signOuts fx2 = 0%nat ->
                              signOuts (fx1 ++ fx2) = signOuts fx1).
    { intros fx2 H. unfold signOuts in *. rewrite List.filter_app, length_app. lia. }
    right. unfold requestFullscreenIfNeeded.
    destruct fs; [discriminate |].
    destruct granted; cbn [fst snd violationCount exam_lockout_until];
      rewrite Hso by reflexivity; auto.
  - left. cbn. auto.
Qed.

Lemma run_inactive (evs : list (Z * bool * Event)) (s : State) :
  active s = false -> run evs s = (s, []).
Proof.
  intros Ha. induction evs as [| [[now fs] ev] evs IH]; [reflexivity |].
  cbn [run].
  assert (H : handle now fs ev s = (s, [])).
  { destruct ev; cbn [handle]; rewrite ?Ha; try reflexivity.
    destruct s; cbn in *; now subst. }
  rewrite H, IH. reflexivity.
Qed.

Lemma signOuts_app (fx1 fx2 : list Effect) :
  signOuts (fx1 ++ fx2) = (signOuts fx1 + signOuts fx2)%nat.
Proof. unfold signOuts. now rewrite List.filter_app, length_app. Qed.

(** X20: the layout signs the user out and sets the lockout at every
    violation from the fifth on, and at none before.  In a proctored
    session that starts with the counter at 0, whatever the listeners
    receive: [signOut()] has been called once for each violation from the
    fifth on, so not at all while the counter is below 5, and then the
    lockout entry is untouched; once the counter is 5 or more the lockout
    entry is ten minutes after the instant of one of the events; the
    counter is not capped at 5, since the listeners stay until the
    sign-out has cleared the user; and once they are removed no event
    changes anything. *)
Theorem X20_lockout_from_fifth_violation (evs : list (Z * bool * Event))
    (s0 : State) :
  violationCount s0 = 0 ->
  let s := fst (run evs s0) in
  let fx := snd (run evs s0) in
  0 <= violationCount s
  /\ signOuts fx = Z.to_nat (violationCount s - 4)
  /\ (violationCount s < 5 -> exam_lockout_until s = exam_lockout_until s0)
  /\ (5 <= violationCount s ->
      exists t, In t (map (fun p => fst (fst p)) evs)
                /\ exam_lockout_until s = Some (t + 10 * 60 * 1000))
  /\ (active s = false -> forall evs', run evs' s = (s, [])).
Proof.
  intros H0.
  assert (G : forall s0, 0 <= violationCount s0 ->
            let s := fst (run evs s0) in
            let fx := snd (run evs s0) in
            violationCount s0 <= violationCount s
            /\ signOuts fx
               = Z.to_nat (Z.max 4 (violationCount s) - Z.max 4 (violationCount s0))
            /\ (violationCount s < 5 \/ violationCount s = violationCount s0 ->
                exam_lockout_until s = exam_lockout_until s0)
            /\ (5 <= violationCount s -> violationCount s0 < violationCount s ->
                exists t, In t (map (fun p => fst (fst p)) evs)
                          /\ exam_lockout_until s = Some (t + 10 * 60 * 1000))).
  { clear s0 H0. induction evs as [| [[now fs] ev] evs IH]; intros s0 Hc.
    - cbn. repeat split; try lia; auto.
    - cbn [run map fst].
      pose proof (handle_cases now fs ev s0) as Hstep. cbv zeta in Hstep.
      destruct (handle now fs ev s0) as [s1 fx1]. cbn [fst snd] in Hstep.
      assert (Hc1 : 0 <= violationCount s1) by (destruct Hstep as [(A & _) | (A & _)]; lia).
      specialize (IH s1 Hc1). cbv zeta in IH.
      destruct (run evs s1) as [s2 fx2]. cbn [fst snd] in IH |- *.
      destruct IH as (I1 & I2 & I3 & I4). rewrite signOuts_app, I2.
      destruct Hstep as [(A & B & C) | (A & B & C)].
      + rewrite C, A, <- B. split; [lia |]. split; [lia |].
        split; [intros H; apply I3; lia |].
        intros H5 Hlt. destruct (I4 H5 ltac:(lia)) as (t & Ht & Hl).
        exists t. split; [now right | exact Hl].
      + split; [lia |]. split.
        { destruct (Z.lt_ge_cases (violationCount s1) 5) as [Hlt | Hge].
          - destruct (B Hlt) as [_ ->]. lia.
          - destruct (C Hge) as [_ ->]. lia. }
        split.
        { intros [H | H]; [| lia].
          rewrite I3 by (left; exact H). apply B. lia. }
        intros H5 _.
        destruct (Z.eq_dec (violationCount s2) (violationCount s1)) as [E | N].
        * exists now. split; [now left |].
          rewrite I3 by (right; exact E). apply C. lia.
        * destruct (I4 H5 ltac:(lia)) as (t & Ht & Hl).
          exists t. split; [now right | exact Hl]. }
  specialize (G s0 ltac:(lia)). cbv zeta in G |- *. rewrite H0 in G.
  destruct G as (G1 & G2 & G3 & G4).
  split; [exact G1 |]. split; [rewrite G2; lia |].
  split; [intros H; apply G3; now left |].
  split; [intros H; apply G4; lia |].
  intros Ha evs'. now apply run_inactive.
Qed.

Lemma X20_lockout_from_fifth_violation_witness :
  let s0 := {| violationCount := 0; lastVisibilityChange := 0;
               fullScreenRequested := true; exam_lockout_until := None;
               active := true |} in
  let evs := [(1000, true, Blur); (2000, true, VisibilityChange true);
              (2100, true, VisibilityChange true); (3000, false, FullscreenChange true);
              (4000, true, Blur); (5000, true, Blur); (5003, true, Blur);
              (5010, true, UserCleared); (6000, true, Blur)] in
  violationCount (fst (run evs s0)) = 6
  /\ signOuts (snd (run evs s0)) = 2%nat
  /\ exam_lockout_until (fst (run evs s0)) = Some 605003.
Proof.
  intros s0 evs.
  destruct (X20_lockout_from_fifth_violation evs s0) as (_ & H & _).
  - reflexivity.
  - assert (E : violationCount (fst (run evs s0)) = 6) by (vm_compute; reflexivity).
    split; [exact E |]. split; [rewrite H, E; reflexivity | vm_compute; reflexivity].
Defined.

(** X21: the lockout lasts ten minutes.  After the violation that signs the
    user out at instant [now], the proctoring effect of a later sign-in
    blocks access exactly while the clock is before [now] plus 600000 ms;
    from then on it starts a fresh session with the counter at 0. *)
Theorem X21_lockout_lasts_ten_minutes (now t : Z) (fs fs' granted : bool)
    (s : State) :
  active s = true -> violationCount s = 4 ->
  let s' := fst (onBlur now fs s) in
  (t < now + 600000 -> mount t fs' granted s' = Blocked)
  /\ (now + 600000 <= t ->
      exists s1 fx, mount t fs' granted s' = Proctored s1 fx
                    /\ violationCount s1 = 0 /\ active s1 = true
                    /\ locked_out t s1 = false).
Proof.
  intros Ha Hc. unfold onBlur.
  destruct (handleViolation_cases now fs s) as (_ & _ & _ & _ & C).
  cbv zeta in C. destruct (C ltac:(lia)) as (Hl & _). clear C.
  destruct (handleViolation now fs s) as [s' fx']. cbn [fst] in *.
  unfold mount, locked_out. rewrite Hl. split.
  - intros Hlt. apply Z.ltb_lt in Hlt. now rewrite Hlt.
  - intros Hge. apply Z.ltb_ge in Hge. rewrite Hge.
    unfold requestFullscreenIfNeeded. destruct fs'; [| destruct granted];
      do 2 eexists; (split; [reflexivity |]);
      cbn [violationCount active exam_lockout_until]; rewrite ?Hl, Hge; auto.
Qed.

Lemma X21_lockout_lasts_ten_minutes_witness :
  let s := {| violationCount := 4; lastVisibilityChange := 0;
              fullScreenRequested := true; exam_lockout_until := None;
              active := true |} in
  mount 600999 false true (fst (onBlur 1000 true s)) = Blocked.
Proof.
  intros s.
  apply (X21_lockout_lasts_ten_minutes 1000 600999 true false true s);
    [reflexivity | reflexivity | lia].
Defined.

End LayoutLockout.

(** * Further properties of the load and of the scores table *)

Section LoadWindow.
Import Coding.

(** X22: the load keeps exactly the coding questions that are assigned to
    the user and open at the server time, so the end the countdown starts
    from is never in the past: [remainingSec] is the number of whole
    seconds from the server time to the end of a loaded question, and the
    clamp at 0 never applies. *)
Theorem X22_loaded_questions_are_open (u : string) (docs : list Question)
    (serverNow : Z) (saved : gmap string Submission) (completed : bool) :
  let c0 := loadQuestions u docs serverNow saved completed in
  (forall q, q ∈ questions (view c0) <->
     q ∈ docs /\ type q = "code"%string /\ u ∈ default [] (assignedTo q)
     /\ (forall t, startAt q = Some t -> t <= serverNow)
     /\ (forall t, endAt q = Some t -> serverNow <= t))
  /\ (forall r, remainingSec (view c0) = Some r ->
        exists q t, q ∈ questions (view c0) /\ endAt q = Some t
                    /\ serverNow <= t
                    /\ (forall q' t', q' ∈ questions (view c0) ->
                                      endAt q' = Some t' -> t <= t')
                    /\ r = (t - serverNow) / 1000).
Proof.
  intros c0.
  assert (Hmem : forall q, q ∈ questions (view c0) <->
     q ∈ docs /\ type q = "code"%string /\ u ∈ default [] (assignedTo q)
     /\ (forall t, startAt q = Some t -> t <= serverNow)
     /\ (forall t, endAt q = Some t -> serverNow <= t)).
  { intros q.
    change (questions (view c0))
      with (filter (fun q => assigned_now u serverNow q = true) docs).
    rewrite list_elem_of_filter. unfold assigned_now.
    rewrite !andb_true_iff, !bool_decide_eq_true.
    split.
    - intros ([[[H1 H2] H3] H4] & Hin). repeat split; try assumption.
      + intros t Ht. rewrite Ht in H3. now apply Z.leb_le.
      + intros t Ht. rewrite Ht in H4. now apply Z.leb_le.
    - intros (Hin & H1 & H2 & H3 & H4). repeat split; try assumption.
      + destruct (startAt q) as [t |]; [| reflexivity]. apply Z.leb_le. now apply H3.
      + destruct (endAt q) as [t |]; [| reflexivity]. apply Z.leb_le. now apply H4. }
  split; [exact Hmem |].
  intros r Hr.
  change (baseRemaining (questions (view c0)) serverNow = Some r) in Hr.
  apply baseRemaining_spec in Hr. destruct Hr as (t & Hin & Hle & ->).
  unfold ends in Hin, Hle.
  apply list_elem_of_In, list_elem_of_omap in Hin.
  destruct Hin as (q & Hq & Hend).
  assert (Hopen : serverNow <= t).
  { apply Hmem in Hq. destruct Hq as (_ & _ & _ & _ & H). now apply H. }
  exists q, t. repeat split; try assumption.
  - intros q' t' Hq' Hend'. rewrite Forall_forall in Hle. apply Hle.
    apply list_elem_of_omap. eauto.
  - apply Z.max_r. apply Z.div_pos; lia.
Qed.

End LoadWindow.

Section Scores.
Import ViewScores.

Lemma total_shift (f : Coding.Submission -> Z) (l : list Coding.Submission) (a : Z) :
  foldl (fun sum r => sum + f r) a l = a + total f l.
Proof.
  unfold total. revert a. induction l as [| d l IH]; intros a; cbn [foldl].
  - lia.
  - rewrite (IH (a + f d)), (IH (0 + f d)). lia.
Qed.

Lemma total_cons (f : Coding.Submission -> Z) (d : Coding.Submission)
    (l : list Coding.Submission) :
  total f (d :: l) = f d + total f l.
Proof. unfold total at 1. cbn [foldl]. rewrite total_shift. lia. Qed.

Lemma totals_bounded (l : list Coding.Submission) :
  Forall (fun d => 0 <= Coding.s_passed d <= Coding.s_total d) l ->
  0 <= total Coding.s_passed l <= total Coding.s_total l.
Proof.
  induction 1 as [| d l Hd _ IH]; [cbn; lia |].
  rewrite !total_cons. lia.
Qed.

(** X23: the scores table adds up what the two rounds stored.  For a
    candidate whose [round1] was written by the MCQ submission and whose
    [round2] documents are those of a consistent store of coding
    submissions, the total score is the number of correct MCQ answers plus
    the passed test cases, it lies between 0 and the total possible, which
    is the number of MCQ questions plus the number of test cases; both
    percentages are 0 when their denominator is 0. *)
Theorem X23_scores_add_up (env : MCQ.Env) (cl : MCQ.View) (c : MCQ.Component)
    (u : string) (st : gmap string Coding.Submission)
    (round2 : list Coding.Submission) :
  MCQ.user cl = Some u -> MCQ.loading cl = false -> MCQ.write_ok env = true ->
  Coding.sound_store st -> round2 ≡ₚ (map_to_list st).*2 ->
  let data := MCQ.response (fst (MCQ.handleSubmit env cl c)) in
  let t := MCQ.grade_all (MCQ.questions cl) (MCQ.answers cl) in
  let w := row data round2 in
  totalScore w = MCQ.correctCount t + total Coding.s_passed round2
  /\ totalPossible data round2
     = Z.of_nat (length (MCQ.questions cl)) + total Coding.s_total round2
  /\ 0 <= totalScore w <= totalPossible data round2
  /\ (r2Total w = 0 -> r2Percentage w = 0)
  /\ (totalPossible data round2 = 0 -> overallPercentage w = 0).
Proof.
  intros Hu Hl Hok Hst Hperm data t w.
  assert (Hb : 0 <= total Coding.s_passed round2 <= total Coding.s_total round2).
  { apply totals_bounded. apply Forall_forall. intros d Hd.
    rewrite Hperm in Hd.
    apply list_elem_of_fmap in Hd. destruct Hd as ([k d'] & -> & Hd).
    apply elem_of_map_to_list in Hd. destruct (Hst k d' Hd) as (_ & H & _).
    exact H. }
  destruct (handleSubmit_written env cl c u Hu Hl Hok) as (Hr & _).
  cbv zeta in Hr. fold data in Hr. fold t in Hr.
  destruct (grade_counts (MCQ.answers cl) (MCQ.questions cl)
              {| MCQ.correctCount := 0; MCQ.wrongCount := 0;
                 MCQ.answerDetails := ∅ |}) as [Hw Hs].
  fold (MCQ.grade_all (MCQ.questions cl) (MCQ.answers cl)) in Hw, Hs.
  fold t in Hw, Hs. cbn [MCQ.correctCount MCQ.wrongCount] in Hw, Hs.
  pose proof (List.filter_length_le (MCQ.is_wrong (MCQ.answers cl))
                (MCQ.questions cl)) as Hfl.
  assert (Hf1 : field MCQ.score data = MCQ.correctCount t)
    by (unfold field; now rewrite Hr).
  assert (Hf2 : field MCQ.r_correct data = MCQ.correctCount t)
    by (unfold field; now rewrite Hr).
  assert (Hf3 : field MCQ.r_wrong data = MCQ.wrongCount t)
    by (unfold field; now rewrite Hr).
  assert (Hp : totalPossible data round2
               = Z.of_nat (length (MCQ.questions cl)) + total Coding.s_total round2).
  { unfold totalPossible. rewrite Hf2, Hf3. lia. }
  assert (Hts : totalScore w = MCQ.correctCount t + total Coding.s_passed round2).
  { subst w. unfold row. cbn [totalScore]. now rewrite Hf1. }
  split; [exact Hts |]. split; [exact Hp |]. split; [rewrite Hts, Hp; lia |].
  split.
  - subst w. unfold row. cbn [r2Total r2Percentage]. intros ->.
    apply percentage_of_zero.
  - subst w. unfold row. cbn [overallPercentage]. intros ->.
    apply percentage_of_zero.
Qed.

Lemma X23_scores_add_up_witness :
  let c := Scenario.mcq_session [Scenario.mcq_question "q1" "a"] in
  let d := {| Coding.s_code := utf16 "print(input())";
              Coding.s_language := Coding.python;
              Coding.s_result := Coding.FailedText; Coding.s_percentage := 67;
              Coding.s_passed := 2; Coding.s_total := 3;
              Coding.s_problemId := "p1"; Coding.s_submittedAt := 0;
              Coding.s_examViolations := 0; Coding.s_durationSec := 5 |} in
  let data := MCQ.response
                (fst (MCQ.handleSubmit (Scenario.mcq_env true 9) (MCQ.view c) c)) in
  totalScore (row data [d]) = 2 /\ totalPossible data [d] = 4.
Proof.
  intros c d data.
  destruct (X23_scores_add_up (Scenario.mcq_env true 9) (MCQ.view c) c "alice"
              {["p1"%string := d]} [d]) as (H1 & H2 & _).
  - reflexivity.
  - reflexivity.
  - reflexivity.
  - intros k d' H. apply lookup_singleton_Some in H. destruct H as [<- <-].
    repeat split; cbn; lia.
  - now rewrite map_to_list_singleton.
  - fold data in H1, H2. rewrite H1, H2. split; vm_compute; reflexivity.
Defined.

End Scores.

(** * Further properties: the question form *)

Section QuestionFormFacts.
Import QuestionForm.

Lemma blank_false (s : jstr) : blank s = false <-> trim s <> [].
Proof. unfold blank. apply bool_decide_eq_false. Qed.


(** A document is written only by a form that passed every check. *)
Lemma handleAdd_writes (env : Env) (f : Form) (d : Doc) :
  In (AddQuestion d) (snd (handleAdd env f)) ->
  validate f = None /\ d = build (now env) f.
Proof.
  unfold handleAdd. destruct (validate f) as [a |].
  - intros [H | []]. discriminate.
  - destruct (write_ok env); cbn [snd app].
    + intros [H | [H | H]]; [injection H as <-; auto | discriminate |].
      apply in_app_or in H. destruct H as [H | [H | []]]; [| discriminate].
      destruct (log_ok env); [destruct H | destruct H as [H | []]; discriminate].
    + intros [H | [H | [H | []]]]; [injection H as <-; auto | discriminate..].
Qed.

Lemma validate_common (f : Form) :
  validate f = None ->
  blank (title f) = false /\ blank (description f) = false
  /\ selectedUsers f <> [] /\ is_Some (startAt f) /\ is_Some (endAt f).
Proof.
  unfold validate.
  destruct (blank (title f)); [discriminate |].
  destruct (blank (description f)); [discriminate |]. cbn [orb].
  destruct (match type f with mcq => _ | code => _ end); [discriminate |].
  destruct (selectedUsers f); [discriminate |].
  destruct (startAt f); [| discriminate]. destruct (endAt f); [| discriminate].
  intros _. repeat split; eauto.
Qed.

Lemma validate_mcq (f : Form) :
  validate f = None -> type f = mcq ->
  Forall (fun o => blank o = false) (options f) /\ blank (answer f) = false.
Proof.
  unfold validate. intros H Ht. rewrite Ht in H.
  destruct (blank (title f) || blank (description f)); [discriminate |].
  destruct (existsb blank (options f)) eqn:E; [discriminate |].
  destruct (blank (answer f)); [discriminate |].
  split; [| reflexivity].
  apply Forall_forall. intros o Ho. apply list_elem_of_In in Ho.
  destruct (blank o) eqn:Eo; [| reflexivity].
  assert (existsb blank (options f) = true) by (apply existsb_exists; eauto).
  congruence.
Qed.


(** X24: the form stores only complete questions.  Whenever [handleAdd]
    writes a question, it is the document built from the form, the title
    and the description are not blank, at least one user is assigned and
    both the start and the end time are set.  For an MCQ question no option
    is blank and the stored answer, which is the text typed (not trimmed),
    is not blank; so for a question read back from such a document, leaving
    it unanswered is always scored wrong. *)
Theorem X24_form_stores_only_complete_questions (env : Env) (f : Form) (d : Doc) :
  In (AddQuestion d) (snd (handleAdd env f)) ->
  d = build (now env) f
  /\ trim (d_title d) <> [] /\ trim (d_description d) <> []
  /\ d_assignedTo d <> []
  /\ is_Some (d_startAt d) /\ is_Some (d_endAt d)
  /\ (type f = mcq ->
      d_options d = Some (options f) /\ d_answer d = Some (answer f)
      /\ Forall (fun o => trim o <> []) (options f)
      /\ trim (answer f) <> []
      /\ forall (q : MCQ.Question) (a : string) (answers : gmap string string),
           MCQ.answer q = Some a -> Some (utf16 a) = d_answer d ->
           answers !! MCQ.id q = None ->
           MCQ.is_wrong answers q = true).
Proof.
  intros Hin. apply handleAdd_writes in Hin. destruct Hin as [Hv ->].
  destruct (validate_common f Hv) as (H1 & H2 & H3 & H4 & H5).
  split; [reflexivity |]. cbn [build d_title d_description d_assignedTo
                               d_startAt d_endAt d_options d_answer].
  split; [now apply blank_false |]. split; [now apply blank_false |].
  split; [exact H3 |]. split; [exact H4 |]. split; [exact H5 |].
  intros Ht. destruct (validate_mcq f Hv Ht) as [Ho Ha]. rewrite Ht.
  split; [reflexivity |]. split; [reflexivity |].
  split; [eapply Forall_impl; [exact Ho | intros o; apply blank_false] |].
  apply blank_false in Ha. split; [exact Ha |].
  intros q a answers Hq Hutf Hnone. unfold MCQ.is_wrong. rewrite Hnone, Hq.
  cbn [default]. injection Hutf as Hutf.
  rewrite bool_decide_eq_false_2; [reflexivity |].
  intros [= <-]. cbn in Hutf. rewrite <- Hutf in Ha. now apply Ha.
Qed.

Lemma X24_form_stores_only_complete_questions_witness :
  let f := {| type := mcq; title := utf16 "Sum"; description := utf16 "2 + 2";
              difficulty := utf16 "Easy"; tags := utf16 "math, easy";
              options := [utf16 "3"; utf16 "4"]; answer := utf16 "4";
              codeTemplate := []; sampleInput := []; sampleOutput := [];
              testCases := []; problemStatement := []; constraints := [];
              examples := []; selectedUsers := ["alice"%string];
              selectAll := false; startAt := Some 0; endAt := Some 2500;
              showAddQuestion := true; totalQuestions := 0 |} in
  let env := {| write_ok := true; log_ok := true; now := 7 |} in
  d_answer (build 7 f) = Some (utf16 "4")
  /\ MCQ.is_wrong ∅ (Scenario.mcq_question "q1" "4") = true.
Proof.
  intros f env.
  destruct (X24_form_stores_only_complete_questions env f (build 7 f))
    as (_ & _ & _ & _ & _ & _ & H).
  - vm_compute. left. reflexivity.
  - destruct (H eq_refl) as (_ & H2 & _ & _ & H5). split; [exact H2 |].
    apply (H5 (Scenario.mcq_question "q1" "4") "4"%string ∅); reflexivity.
Defined.




(** X26: selecting a user toggles the assignment and nothing else: after
    [handleUserSelect uid] the user is selected exactly when they were not
    before, every other user is selected exactly when they were, and a
    selection without repetition stays without repetition. *)
Theorem X26_user_selection_toggles (uid : string) (f : Form) :
  (uid ∈ handleUserSelect uid f <-> uid ∉ selectedUsers f)
  /\ (forall v, v <> uid ->
        (v ∈ handleUserSelect uid f <-> v ∈ selectedUsers f))
  /\ (NoDup (selectedUsers f) -> NoDup (handleUserSelect uid f)).
Proof.
  unfold handleUserSelect. destruct (bool_decide (uid ∈ selectedUsers f)) eqn:E.
  - apply bool_decide_eq_true in E. split; [| split].
    + rewrite list_elem_of_filter. split; [intros [H _]; now destruct H | tauto].
    + intros v Hv. rewrite list_elem_of_filter. tauto.
    + apply NoDup_filter.
  - apply bool_decide_eq_false in E. split; [| split].
    + rewrite elem_of_app, list_elem_of_singleton. tauto.
    + intros v Hv. rewrite elem_of_app, list_elem_of_singleton. tauto.
    + intros Hnd. apply NoDup_app. split; [exact Hnd |]. split.
      * intros x Hx Hx'. apply list_elem_of_singleton in Hx'. congruence.
      * apply NoDup_singleton.
Qed.

End QuestionFormFacts.

(** * Unanswered MCQ questions *)

Section McqUnanswered.
Import MCQ.

Lemma filter_length_mono {A} (f g : A -> bool) (l : list A) :
  (forall x, In x l -> f x = true -> g x = true) ->
  (length (List.filter f l) <= length (List.filter g l))%nat.
Proof.
  induction l as [| x l IH]; intros H; [cbn; lia |].
  cbn [List.filter].
  assert (IH' : (length (List.filter f l) <= length (List.filter g l))%nat)
    by (apply IH; intros y Hy; apply H; now right).
  destruct (f x) eqn:Ef.
  - rewrite (H x (or_introl eq_refl) Ef). cbn [length]. lia.
  - destruct (g x); cbn [length]; lia.
Qed.

(** C10: on submission every loaded question is graded, a question without
    a selected answer being compared as the empty string against its stored
    answer and counted wrong; [correct + wrong] is the number of loaded
    questions and [score] is [correct].  The stored answer of a question is
    not the empty string: the question form, the one writer of questions,
    refuses a blank answer. *)
Theorem C10_mcq_counts (env : Env) (cl : View) (c : Component) (u : string) :
  user cl = Some u -> loading cl = false -> write_ok env = true ->
  Forall (fun q => answer q <> Some ""%string) (questions cl) ->
  exists r,
    round1 (response (fst (handleSubmit env cl c))) = Some r
    /\ r_correct r + r_wrong r = Z.of_nat (length (questions cl))
    /\ score r = r_correct r
    /\ r_wrong r
       = Z.of_nat (length (List.filter (is_wrong (answers cl)) (questions cl)))
    /\ (forall q, In q (questions cl) ->
                  default ""%string (answers cl !! id q) = ""%string ->
                  is_wrong (answers cl) q = true)
    /\ Z.of_nat (length (List.filter
                           (fun q => bool_decide
                                       (default ""%string (answers cl !! id q)
                                        = ""%string))
                           (questions cl)))
       <= r_wrong r
    /\ (forall (fenv : QuestionForm.Env) (f : QuestionForm.Form)
               (d : QuestionForm.Doc) (q : Question) (a : string),
          In (QuestionForm.AddQuestion d) (snd (QuestionForm.handleAdd fenv f)) ->
          answer q = Some a -> Some (utf16 a) = QuestionForm.d_answer d ->
          answer q <> Some ""%string).
Proof.
  intros Hu Hl Hok Hans. unfold handleSubmit. rewrite Hu, Hl, Hok.
  match goal with
  | |- context [exitFullscreen ?x] =>
      pose proof (exitFullscreen_response x) as Hr;
      destruct (exitFullscreen x) as [c4 fx]
  end.
  cbn [fst] in Hr |- *.
  change (response (upd_view (set_loading false) c4)) with (response c4).
  rewrite Hr. cbn.
  eexists. split; [reflexivity |].
  destruct (grade_counts (answers cl) (questions cl)
              {| correctCount := 0; wrongCount := 0; answerDetails := ∅ |})
    as [Hw Hs].
  cbn [r_correct r_wrong score]. fold (grade_all (questions cl) (answers cl)) in Hw, Hs.
  cbn [correctCount wrongCount] in Hw, Hs.
  assert (Hun : forall q, In q (questions cl) ->
                  default ""%string (answers cl !! id q) = ""%string ->
                  is_wrong (answers cl) q = true).
  { intros q Hq Hsel. unfold is_wrong. rewrite Hsel.
    rewrite Forall_forall in Hans. apply list_elem_of_In in Hq.
    specialize (Hans q Hq).
    rewrite bool_decide_eq_false_2; [reflexivity | congruence]. }
  split; [lia |]. split; [reflexivity |]. split; [lia |].
  split; [exact Hun |]. split.
  - rewrite Hw. cbn [wrongCount].
    pose proof (filter_length_mono
                  (fun q => bool_decide (default ""%string (answers cl !! id q)
                                         = ""%string))
                  (is_wrong (answers cl)) (questions cl)) as Hm.
    assert ((length (List.filter
                       (fun q => bool_decide
                                   (default ""%string (answers cl !! id q)
                                    = ""%string)) (questions cl))
             <= length (List.filter (is_wrong (answers cl)) (questions cl)))%nat).
    { apply Hm. intros q Hq Hb. apply bool_decide_eq_true in Hb. now apply Hun. }
    lia.
  - intros fenv f d q a Hin Hq Hutf.
    apply handleAdd_writes in Hin. destruct Hin as [Hv ->].
    unfold QuestionForm.build in Hutf. cbn [QuestionForm.d_answer] in Hutf.
    destruct (QuestionForm.type f) eqn:Ht; [| discriminate].
    destruct (validate_mcq f Hv Ht) as [_ Ha]. apply blank_false in Ha.
    injection Hutf as Hutf. rewrite Hq. intros [= ->].
    cbn in Hutf. rewrite <- Hutf in Ha. now apply Ha.
Qed.

Lemma C10_mcq_counts_witness :
  let c := Scenario.mcq_session [Scenario.mcq_question "q1" "a";
                                 Scenario.mcq_question "q2" "b"] in
  let c1 := fst (step (Scenario.mcq_env true 5) (Select "q1" "a") c) in
  exists r,
    round1 (response (fst (handleSubmit (Scenario.mcq_env true 9) (view c1) c1))) = Some r
    /\ r_correct r = 1 /\ r_wrong r = 1 /\ score r = 1.
Proof.
  intros c c1.
  destruct (C10_mcq_counts (Scenario.mcq_env true 9) (view c1) c1 "alice")
    as (r & Hr & Hsum & Hscore & Hwrong & _).
  - reflexivity.
  - reflexivity.
  - reflexivity.
  - vm_compute. repeat constructor; discriminate.
  - exists r. split; [exact Hr |].
    assert (r_wrong r = 1) as Hw1 by (rewrite Hwrong; vm_compute; reflexivity).
    assert (Hlen : Z.of_nat (length (questions (view c1))) = 2)
      by (vm_compute; reflexivity).
    rewrite Hlen in Hsum. lia.
Defined.

End McqUnanswered.

(** * Further properties of the runners *)

Section Runners.
Import Coding.

Lemma split_nl_nonempty (s : jstr) : split_nl s <> [].
Proof.
  induction s as [| c r IH]; cbn; [discriminate |].
  destruct (c =? 10)%N; [discriminate |].
  destruct (split_nl r); discriminate.
Qed.

Lemma join_split_nl (s : jstr) : join_nl (split_nl s) = s.
Proof.
  induction s as [| c r IH]; [reflexivity |].
  cbn [split_nl]. destruct (c =? 10)%N eqn:E.
  - apply N.eqb_eq in E. subst c.
    pose proof (split_nl_nonempty r) as Hne.
    destruct (split_nl r) as [| p ps]; [now destruct Hne |].
    cbn [join_nl app]. cbn [join_nl] in IH. now rewrite IH.
  - pose proof (split_nl_nonempty r) as Hne.
    destruct (split_nl r) as [| p ps]; [now destruct Hne |].
    destruct ps as [| p' ps].
    + cbn in IH |- *. now rewrite IH.
    + cbn [join_nl] in IH |- *. cbn [app]. now rewrite IH.
Qed.

Lemma split_nl_length (s : jstr) :
  length (split_nl s) = S (length (List.filter (fun c => (c =? 10)%N) s)).
Proof.
  induction s as [| c r IH]; [reflexivity |].
  cbn [split_nl List.filter]. destruct (c =? 10)%N.
  - cbn [length]. now rewrite IH.
  - pose proof (split_nl_nonempty r) as Hne.
    destruct (split_nl r) as [| p ps]; [now destruct Hne |]. exact IH.
Qed.

Lemma split_nl_no_line_feed (s : jstr) :
  Forall (fun line => 10%N ∉ line) (split_nl s).
Proof.
  induction s as [| c r IH].
  - cbn. constructor; [apply not_elem_of_nil | constructor].
  - cbn [split_nl]. destruct (c =? 10)%N eqn:E.
    + constructor; [apply not_elem_of_nil | exact IH].
    + apply N.eqb_neq in E.
      pose proof (split_nl_nonempty r) as Hne.
      destruct (split_nl r) as [| p ps]; [now destruct Hne |].
      apply Forall_cons in IH. destruct IH as [Hp Hps].
      constructor; [| exact Hps].
      intros Hin. apply elem_of_cons in Hin. destruct Hin as [Hin | Hin];
        [now apply E | now apply Hp].
Qed.

(** X27: the lines given to a JavaScript program are the standard input,
    cut at the line feeds, and joining the printed lines undoes the cut:
    there is one line more than there are line feeds in the input (so
    always a first line, even for an empty input), no line contains a line
    feed, and the lines joined by line feeds are the input again; hence a
    program that prints back every line it is given returns the standard
    input unchanged as its output, with status OK. *)
Theorem X27_printing_the_lines_back (env : Env) (source inStdin : jstr) :
  jsEngine env source (split_nl inStdin) = JsReturned (split_nl inStdin) [] ->
  length (split_nl inStdin)
  = S (length (List.filter (fun c => (c =? 10)%N) inStdin))
  /\ Forall (fun line => 10%N ∉ line) (split_nl inStdin)
  /\ join_nl (split_nl inStdin) = inStdin
  /\ runLocal env source javascript inStdin
     = Normal {| stdout := inStdin; stderr := []; status := OK |}
  /\ forall tc, passed (judge tc {| stdout := inStdin; stderr := []; status := OK |})
                = str_eqb (trim inStdin) (trim (or_empty (expectedOutput tc))).
Proof.
  intros He. split; [apply split_nl_length |].
  split; [apply split_nl_no_line_feed |].
  split; [apply join_split_nl |]. split.
  - unfold runLocal. rewrite He. now rewrite join_split_nl.
  - intros tc. unfold judge. cbn [passed status stdout].
    now rewrite bool_decide_eq_true_2.
Qed.

Lemma X27_printing_the_lines_back_witness :
  let cat := fun (source : jstr) (lines : list jstr) => JsReturned lines [] in
  split_nl [49; 10; 50]%N = [[49]; [50]]%N
  /\ runLocal (Scenario.env_of cat true 0) (utf16 "cat") javascript
              [49; 10; 50]%N
     = Normal {| stdout := [49; 10; 50]%N; stderr := []; status := OK |}.
Proof.
  intros cat.
  destruct (X27_printing_the_lines_back (Scenario.env_of cat true 0)
              (utf16 "cat") [49; 10; 50]%N) as (_ & _ & _ & H & _).
  - reflexivity.
  - split; [reflexivity | exact H].
Defined.

(** X28: output on the error stream fails a Python run and not a JavaScript
    one.  A Python program that returns with anything written to stderr has
    status "Runtime Error" and passes no test case, whatever it printed; a
    JavaScript program that returns has status OK and its verdict depends
    on the printed lines only, whatever it wrote with [console.error]. *)
Theorem X28_stderr_fails_python_only (env : Env)
    (py : jstr -> jstr -> PyOutcome) (source inStdin out err : jstr)
    (outBuff errBuff : list jstr) (tc : TestCase) :
  pyodide env = Some py -> py source inStdin = PyReturned out err -> err <> [] ->
  jsEngine env source (split_nl inStdin) = JsReturned outBuff errBuff ->
  (exists r, runLocal env source python inStdin = Normal r
             /\ status r = RuntimeError /\ stdout r = out
             /\ passed (judge tc r) = false)
  /\ (exists r, runLocal env source javascript inStdin = Normal r
                /\ status r = OK
                /\ passed (judge tc r)
                   = str_eqb (trim (join_nl outBuff))
                             (trim (or_empty (expectedOutput tc)))).
Proof.
  intros Hpy Hrun Herr Hjs. split.
  - unfold runLocal. rewrite Hpy, Hrun. eexists. split; [reflexivity |].
    cbn [status stdout]. destruct err as [| e0 err']; [now destruct Herr |].
    split; [reflexivity |]. split; [reflexivity |].
    unfold judge. cbn [passed status].
    rewrite bool_decide_eq_false_2 by discriminate. reflexivity.
  - unfold runLocal. rewrite Hjs. eexists. split; [reflexivity |].
    split; [reflexivity |]. unfold judge. cbn [passed status stdout].
    now rewrite bool_decide_eq_true_2.
Qed.

Lemma X28_stderr_fails_python_only_witness :
  let py := fun (source stdin : jstr) => PyReturned stdin (utf16 "warning") in
  let env := {| jsEngine := fun source lines => JsReturned lines [utf16 "warning"];
                pyodide := Some py; write_ok := true; now := 0 |} in
  exists r, runLocal env (utf16 "echo") python (utf16 "1") = Normal r
            /\ passed (judge (Scenario.case 1 "1" "1") r) = false.
Proof.
  intros py env.
  destruct (X28_stderr_fails_python_only env py (utf16 "echo") (utf16 "1")
              (utf16 "1") (utf16 "warning") [utf16 "1"] [utf16 "warning"]
              (Scenario.case 1 "1" "1")) as ((r & H1 & _ & _ & H2) & _).
  - reflexivity.
  - reflexivity.
  - discriminate.
  - reflexivity.
  - exists r. split; [exact H1 | exact H2].
Defined.

End Runners.

Section McqRejection.
Import MCQ.

(** X29: a rejection whose write fails closes the session in the page only.
    At the violation that follows the warning, when the write of
    [handleReject] fails, [submitted] is set, the stored document is as
    before, the promise is left rejected, and neither the exit from
    full-screen nor the navigation to the rejection page happens; a page
    loaded again from that document is not submitted, with the counter and
    the warning back at their initial values. *)
Theorem X29_rejection_write_failure (env : Env) (c : Component) (ev : Event)
    (u : string) (fs : bool) :
  running_in_sync c -> user (view c) = Some u ->
  warningGiven (view c) = true -> is_violation ev = true ->
  write_ok env = false -> round1Submitted (response c) <> Some true ->
  let c2 := fst (step env ev c) in
  let fx := snd (step env ev c) in
  submitted (view c2) = true
  /\ response c2 = response c
  /\ In UnhandledRejection fx
  /\ ~ In ExitFullscreen fx
  /\ (forall p, ~ In (Navigate p) fx)
  /\ (let c' := initial (Some u) (questions (view c2)) (response c2) fs in
      submitted (view c') = false /\ violations (view c') = 0
      /\ warningGiven (view c') = false).
Proof.
  intros (Hl & Hd & Hst & Hsub) Hu Hw Hev Hok Hnot c2 fx. subst c2 fx.
  destruct c as [v resp fsE lst deps]. destruct v.
  cbn in Hl, Hd, Hst, Hsub, Hu, Hw, Hnot. subst.
  destruct env as [granted wok t]. cbn in Hok. subst wok.
  assert (Hinit : match round1Submitted resp with
                  | Some true => true
                  | _ => false
                  end = false).
  { destruct (round1Submitted resp) as [[|] |]; [now destruct Hnot | reflexivity..]. }
  destruct ev; try discriminate Hev; cbn in Hev.
  - subst hidden.
    destruct soundEnabled0; vm_compute; (repeat split; auto);
      try (intros [H | [H | H]]; try discriminate; exact H);
      try (intros p [H | [H | H]]; try discriminate; exact H).
  - destruct inFullscreen; [discriminate |].
    destruct soundEnabled0; vm_compute; (repeat split; auto);
      try (intros [H | [H | H]]; try discriminate; exact H);
      try (intros p [H | [H | H]]; try discriminate; exact H).
  - apply bool_decide_eq_true in Hev. subst key.
    destruct soundEnabled0; vm_compute; (repeat split; auto);
      try (intros [H | [H | H]]; try discriminate; exact H);
      try (intros p [H | [H | H]]; try discriminate; exact H).
Qed.

Lemma X29_rejection_write_failure_witness :
  let c := fst (step (Scenario.mcq_env true 1) (KeyDown "Escape")
                     (Scenario.mcq_session [Scenario.mcq_question "q1" "a"])) in
  let c2 := fst (step (Scenario.mcq_env false 2) (VisibilityChange 2 true) c) in
  submitted (view c2) = true /\ response c2 = no_response.
Proof.
  intros c c2.
  destruct (X29_rejection_write_failure (Scenario.mcq_env false 2) c
              (VisibilityChange 2 true) "alice" false) as (H1 & H2 & _).
  - repeat split; vm_compute; reflexivity.
  - reflexivity.
  - reflexivity.
  - reflexivity.
  - reflexivity.
  - discriminate.
  - split; [exact H1 | exact H2].
Defined.

End McqRejection.

(** * Expiry of the countdown *)

Section Expiry.
Import Coding.




End Expiry.
